(** * The report tabulation engine of wahis-scraper (src/tabulate.py)

    A shallow embedding of [get_details], [get_outbreaks], [get_tests],
    [process_report] and [process_reports], and the properties of them that
    the specification states.

    Python exceptions are the [Raise] results of an error monad; the tables
    that [pd.read_html] returns are grids of cells; a pandas [Series] is an
    ordered list of labelled values (labels may repeat); a [DataFrame] is a
    list of column labels with keyed rows.

    The download module (src/download.py) follows: [parse_year_range],
    [get_summary_urls], [get_report_ids] and [get_reports], over the files of
    the output directory and the answers of the site. *)

From Stdlib Require Import List String Ascii ZArith Bool Arith Lia.
From Stdlib Require Import Numbers.DecimalString.
Import ListNotations.

Open Scope string_scope.
Open Scope list_scope.
Open Scope nat_scope.

Infix "+++" := String.append (at level 60, right associativity).

(** ** Exceptions and results *)

Inductive exn : Type :=
| KeyError
| IndexError
| AttributeError
| AssertionError
| ValueError
| TypeError
| OtherError (name : string).

Inductive result (A : Type) : Type :=
| Ok (a : A)
| Raise (e : exn).

Arguments Ok {A} a.
Arguments Raise {A} e.

Definition bind {A B : Type} (c : result A) (k : A -> result B) : result B :=
  match c with
  | Ok a => k a
  | Raise e => Raise e
  end.

Notation "x <- c ;; k" := (bind c (fun x => k))
  (at level 61, c at next level, right associativity).

(** A [for] loop whose body may raise: the first exception ends the loop. *)
Fixpoint foldM {A B : Type} (body : A -> B -> result A) (xs : list B) (acc : A)
  : result A :=
  match xs with
  | [] => Ok acc
  | x :: rest => acc' <- body acc x ;; foldM body rest acc'
  end.

Definition raises {A : Type} (r : result A) : Prop := exists e, r = Raise e.

(** ** Text *)

Definition is_digit (c : ascii) : bool :=
  (48 <=? nat_of_ascii c) && (nat_of_ascii c <=? 57).

Definition is_empty (s : string) : bool :=
  match s with
  | EmptyString => true
  | String _ _ => false
  end.

(** [s.partition(sep)] for a one-character separator: the text before its
    first occurrence, the separator, the text after it; the whole text and
    two empty texts when the separator does not occur. *)
Fixpoint partition (sep : ascii) (s : string) : string * string * string :=
  match s with
  | EmptyString => (EmptyString, EmptyString, EmptyString)
  | String c rest =>
      if Ascii.eqb c sep then (EmptyString, String sep EmptyString, rest)
      else let '(before, found, after) := partition sep rest in
           (String c before, found, after)
  end.

(** The longest run of digits a text starts with, and what follows it. *)
Fixpoint span_digits (s : string) : string * string :=
  match s with
  | EmptyString => (EmptyString, EmptyString)
  | String c rest =>
      if is_digit c
      then let (ds, tl) := span_digits rest in (String c ds, tl)
      else (EmptyString, s)
  end.

Fixpoint strip_prefix (p s : string) : option string :=
  match p, s with
  | EmptyString, _ => Some s
  | String a p', String b s' => if Ascii.eqb a b then strip_prefix p' s' else None
  | String _ _, EmptyString => None
  end.

(** [re.match("^Outbreak ([0-9]+)", s)]: group 1 of the match, if any. *)
Definition match_outbreak (s : string) : option string :=
  match strip_prefix "Outbreak " s with
  | Some rest =>
      let (ds, _) := span_digits rest in
      if is_empty ds then None else Some ds
  | None => None
  end.

(** [int(ds)] for a text of decimal digits. *)
Definition digit_value (c : ascii) : Z := (Z.of_nat (nat_of_ascii c) - 48)%Z.

Fixpoint int_from (acc : Z) (ds : string) : Z :=
  match ds with
  | EmptyString => acc
  | String c rest => int_from (10 * acc + digit_value c)%Z rest
  end.

Definition int_of_digits (ds : string) : Z := int_from 0%Z ds.

(** [re.findall("[0-9]+", s)]: the maximal runs of digits, left to right.
    [run] is the run being read. *)
Definition flush (run : string) : list string :=
  if is_empty run then [] else [run].

Fixpoint findall_from (run : string) (s : string) : list string :=
  match s with
  | EmptyString => flush run
  | String c rest =>
      if is_digit c then findall_from (run +++ String c EmptyString) rest
      else flush run ++ findall_from EmptyString rest
  end.

Definition findall_digits (s : string) : list string := findall_from EmptyString s.

(** [needle in hay]. *)
Fixpoint contains (needle hay : string) : bool :=
  String.prefix needle hay ||
  match hay with
  | EmptyString => false
  | String _ rest => contains needle rest
  end.

Definition string_of_Z (z : Z) : string := NilZero.string_of_int (Z.to_int z).

(** [REPORT_URL.format(report_id=report_id)]. *)
Definition REPORT_URL (report_id : string) : string :=
  "https://www.oie.int/wahis_2/public/wahid.php/Reviewreport/Review?reportid="
  +++ report_id.

(** ** Cells, parsed tables, series and frames *)

(** A cell of a parsed table: text, an integral number, or the missing
    value.  pandas holds the numbers of a column without a blank as integers
    and those of a numeric column with a blank as floats; the two differ in
    how they are rendered ([str_of] below) and in nothing else that the
    program does.  (Columns of non-integral floats are not represented.) *)
Inductive cell : Type :=
| Str (s : string)
| Int (z : Z)
| NaN.

Definition cell_eqb (a b : cell) : bool :=
  match a, b with
  | Str s, Str t => String.eqb s t
  | Int x, Int y => Z.eqb x y
  | NaN, NaN => true
  | _, _ => false
  end.

Definition mem (c : cell) (l : list cell) : bool := existsb (cell_eqb c) l.

Fixpoint nodupb (l : list cell) : bool :=
  match l with
  | [] => true
  | c :: rest => negb (mem c rest) && nodupb rest
  end.

Definition is_nan (c : cell) : bool :=
  match c with
  | NaN => true
  | _ => false
  end.

Definition is_str (c : cell) : bool :=
  match c with
  | Str _ => true
  | _ => false
  end.

(** [str(c)], as an f-string renders a text, a missing value or a number of
    an integer column. *)
Definition py_str (c : cell) : string :=
  match c with
  | Str s => s
  | Int z => string_of_Z z
  | NaN => "nan"
  end.

(** One table of [pd.read_html]: rows labelled 0, 1, ... and either columns
    labelled 0 .. width-1 ([Grid]; a row shorter than the width reads [NaN]
    where it ends, as the parser pads it), or columns named after a header
    row ([Headed]), none of which is then labelled 0 or 1. *)
Inductive RawTable : Type :=
| Grid (width : nat) (cells : list (list cell))
| Headed.

Definition row_cells (width : nat) (r : list cell) : list cell :=
  map (fun j => nth j r NaN) (seq 0 width).

(** [table.loc[i, j]]. *)
Definition loc (table : RawTable) (i j : nat) : result cell :=
  match table with
  | Grid width cells =>
      match nth_error cells i with
      | Some r => if j <? width then Ok (nth j r NaN) else Raise KeyError
      | None => Raise KeyError
      end
  | Headed => Raise KeyError
  end.

Fixpoint replace_nth {A : Type} (n : nat) (x : A) (l : list A) : list A :=
  match n, l with
  | _, [] => []
  | O, _ :: rest => x :: rest
  | S n', y :: rest => y :: replace_nth n' x rest
  end.

(** [table.loc[i, j] = v] on a cell that exists. *)
Definition set_loc (table : RawTable) (i j : nat) (v : cell) : RawTable :=
  match table with
  | Grid width cells =>
      match nth_error cells i with
      | Some r => Grid width (replace_nth i (replace_nth j v (row_cells width r)) cells)
      | None => table
      end
  | Headed => Headed
  end.

(** A pandas Series: labelled values in order; a label may occur twice. *)
Record Series : Type := mkSeries {
  name : option cell;
  items : list (cell * cell)
}.

(** [pd.Series()]. *)
Definition empty_series : Series := mkSeries None [].

Definition labels (s : Series) : list cell := map fst (items s).
Definition values (s : Series) : list cell := map snd (items s).

(** What [s[k]] evaluates to: the value, or the sub-series of all the values
    when the label occurs more than once. *)
Inductive item : Type :=
| One (c : cell)
| Several (s : Series).

Definition select (k : cell) (s : Series) : list (cell * cell) :=
  filter (fun kv => cell_eqb (fst kv) k) (items s).

(** [s[k]]. *)
Definition series_get (s : Series) (k : cell) : result item :=
  match select k s with
  | [] => Raise KeyError
  | [(_, v)] => Ok (One v)
  | kvs => Ok (Several (mkSeries (name s) kvs))
  end.

(** [s.k], attribute access to a label. *)
Definition series_getattr (s : Series) (k : string) : result item :=
  match select (Str k) s with
  | [] => Raise AttributeError
  | [(_, v)] => Ok (One v)
  | kvs => Ok (Several (mkSeries (name s) kvs))
  end.

(** [s[k] = v]: every entry labelled [k] is overwritten; a new label is
    added at the end. *)
Definition series_set (s : Series) (k v : cell) : Series :=
  if mem k (labels s)
  then mkSeries (name s)
         (map (fun kv => if cell_eqb (fst kv) k then (fst kv, v) else kv) (items s))
  else mkSeries (name s) (items s ++ [(k, v)]).

(** [del s[k]]. *)
Definition series_del (s : Series) (k : cell) : result Series :=
  if mem k (labels s)
  then Ok (mkSeries (name s) (filter (fun kv => negb (cell_eqb (fst kv) k)) (items s)))
  else Raise KeyError.

(** [s.append(t)]: the entries of [t] after those of [s]; nothing is merged. *)
Definition series_append (s t : Series) : Series :=
  mkSeries (if match name s, name t with
               | Some a, Some b => cell_eqb a b
               | None, None => true
               | _, _ => false
               end then name s else None)
           (items s ++ items t).

(** [table.set_index(0)[1]]: column 1 labelled by column 0. *)
Definition set_index_0_column_1 (table : RawTable) : result Series :=
  match table with
  | Grid width cells =>
      if 2 <=? width
      then Ok (mkSeries (Some (Int 1%Z)) (map (fun r => (nth 0 r NaN, nth 1 r NaN)) cells))
      else Raise KeyError
  | Headed => Raise KeyError
  end.

(** A DataFrame: column labels, and rows that each hold their index key (one
    cell per level of the index) and one value per column. *)
Record Frame : Type := mkFrame {
  columns : list cell;
  rows : list (list cell * list cell)
}.

(** [pd.DataFrame()]. *)
Definition empty_frame : Frame := mkFrame [] [].

Definition index (df : Frame) : list (list cell) := map fst (rows df).

(** The value a row holds under the first column labelled [c]. *)
Fixpoint lookup (cols row : list cell) (c : cell) : option cell :=
  match cols, row with
  | k :: cols', v :: row' => if cell_eqb k c then Some v else lookup cols' row' c
  | _, _ => None
  end.

(** The same, with [NaN] for a column the row does not have. *)
Definition value_at (cols row : list cell) (c : cell) : cell :=
  match lookup cols row c with
  | Some v => v
  | None => NaN
  end.

Definition insert_at {A : Type} (n : nat) (x : A) (l : list A) : list A :=
  firstn n l ++ x :: skipn n l.

(** [df.insert(loc, column, value)] for a scalar value. *)
Definition insert (df : Frame) (pos : nat) (column value : cell) : result Frame :=
  if mem column (columns df) then Raise ValueError
  else if List.length (columns df) <? pos then Raise IndexError
  else Ok (mkFrame (insert_at pos column (columns df))
             (map (fun kr => (fst kr, insert_at pos value (snd kr))) (rows df))).

(** [df[k] = v] for a scalar: every column labelled [k] is overwritten; a new
    label adds a column at the end. *)
Definition set_column (df : Frame) (k v : cell) : Frame :=
  if mem k (columns df)
  then mkFrame (columns df)
         (map (fun kr =>
                 (fst kr,
                  map (fun cv => if cell_eqb (fst cv) k then v else snd cv)
                      (combine (columns df) (snd kr))))
              (rows df))
  else mkFrame (columns df ++ [k]) (map (fun kr => (fst kr, snd kr ++ [v])) (rows df)).

(** Rows [start], [start+1], ... of a parsed table, under their labels. *)
Definition label_rows (start : nat) (rs : list (list cell)) : list (list cell * list cell) :=
  combine (map (fun i => [Int (Z.of_nat i)]) (seq start (List.length rs))) rs.

(** [t.columns = t.loc[0]; t = t.iloc[1:].infer_objects()]: the first row
    becomes the column labels, the other rows keep their labels 1, 2, ... *)
Definition promote_header (table : RawTable) : result Frame :=
  match table with
  | Grid width (r0 :: rest) =>
      Ok (mkFrame (row_cells width r0) (label_rows 1 (map (row_cells width) rest)))
  | _ => Raise KeyError
  end.

(** Column labels in the order they first appear. *)
Definition add_new (acc cols : list cell) : list cell :=
  fold_left (fun acc c => if mem c acc then acc else acc ++ [c]) cols acc.

Definition union_all (ls : list (list cell)) : list cell := fold_left add_new ls [].

(** A row laid out under other columns: [NaN] where it has no value. *)
Definition realign (cols row newcols : list cell) : list cell :=
  map (value_at cols row) newcols.

(** ** What the libraries leave open

    Some behaviours belong to pandas and to the Python interpreter rather
    than to this repository, and differ between their versions: how a Series
    prints, and what happens when labels that occur twice have to be aligned.
    They are taken as a parameter; every theorem below holds whatever they
    do. *)
Record Library : Type := mkLibrary {
  (** [str(s)] for a Series [s]. *)
  series_str : Series -> string;
  (** [df.assign] over the entries of [s] when [s] has a label that is not text or a label
      that occurs twice. *)
  assign_irregular : Frame -> Series -> result Frame;
  (** [pd.concat(dfs, sort=False)] when a frame has two columns of one label. *)
  concat_repeated : list Frame -> result Frame;
  (** [pd.concat(ss, axis=1, sort=False).transpose()] when a series has a
      label twice. *)
  concat_series_repeated : list Series -> result Frame;
  (** [df.insert(loc, column, s)] for a Series [s]. *)
  insert_series : Frame -> nat -> cell -> Series -> result Frame;
  (** [df.set_index(keys)] when two columns carry the label of a key. *)
  set_index_repeated : Frame -> list cell -> result Frame;
  (** [df.reset_index()] on an index of several levels. *)
  reset_index_levels : Frame -> result Frame;
  (** The most digits that [int] reads, 0 when it reads any number of them. *)
  max_int_digits : nat;
  (** [str(x)] for an integral number [x] of a column that also holds a
      missing value, whose numbers are then floats. *)
  float_str : Z -> string;
  (** Lines 67-69 when a frame of [outbreaks] holds an integer outside the
      64-bit range. *)
  outbreaks_wide : list Frame -> string -> result Frame
}.

(** ** The program *)

Section Tabulate.

Variable lib : Library.

(** *** pandas operations that depend on [lib] *)

(** [str(v)] for what a label of a Series evaluates to. *)
Definition str_item (v : item) : string :=
  match v with
  | One c => py_str c
  | Several s => series_str lib s
  end.

(** A series of numbers with a missing value among them: its numbers are
    floats. *)
Definition holds_floats (s : Series) : bool :=
  existsb is_nan (values s) && forallb (fun c => negb (is_str c)) (values s).

(** [str(v)] for what a label of the series [s] evaluates to. *)
Definition str_of (s : Series) (v : item) : string :=
  match v with
  | One (Int z) => if holds_floats s then float_str lib z else string_of_Z z
  | _ => str_item v
  end.

(** [int(digits)] for the digits of a match: [ValueError] beyond the most
    digits that [int] reads, which it looks up for more than 640 digits. *)
Definition int_of_match (digits : string) : result Z :=
  if (640 <? String.length digits)
     && (0 <? max_int_digits lib) && (max_int_digits lib <? String.length digits)
  then Raise ValueError
  else Ok (int_of_digits digits).

(** A cell that an integer column of 64 bits can hold, and a frame of such
    cells. *)
Definition int64 (c : cell) : bool :=
  match c with
  | Int z => ((- 2 ^ 63 <=? z) && (z <? 2 ^ 63))%Z
  | _ => true
  end.

Definition narrow (df : Frame) : bool :=
  forallb (fun kr => forallb int64 (snd kr)) (rows df).

(** [df.insert(loc, column, value)]. *)
Definition insert_item (df : Frame) (pos : nat) (column : cell) (value : item)
  : result Frame :=
  match value with
  | One c => insert df pos column c
  | Several s => insert_series lib df pos column s
  end.

Definition kwargs_regular (s : Series) : bool :=
  forallb is_str (labels s) && nodupb (labels s).

(** [df.assign( **s )]: one constant column per entry of [s]. *)
Definition assign (df : Frame) (s : Series) : result Frame :=
  if kwargs_regular s
  then Ok (fold_left (fun df kv => set_column df (fst kv) (snd kv)) (items s) df)
  else assign_irregular lib df s.

(** [pd.concat(dfs, sort=False)]: the rows of all the frames, under the union
    of their columns. *)
Definition concat (dfs : list Frame) : result Frame :=
  match dfs with
  | [] => Raise ValueError
  | _ :: _ =>
      if forallb (fun df => nodupb (columns df)) dfs
      then let cols := union_all (map columns dfs) in
           Ok (mkFrame cols
                 (flat_map
                    (fun df => map (fun kr => (fst kr, realign (columns df) (snd kr) cols))
                                   (rows df))
                    dfs))
      else concat_repeated lib dfs
  end.

Definition count_label (c : cell) (cols : list cell) : nat :=
  List.length (filter (cell_eqb c) cols).

(** [df.set_index(keys)]: the key columns leave the frame and become the
    levels of its index. *)
Definition set_index (df : Frame) (keys : list cell) : result Frame :=
  if negb (forallb (fun k => mem k (columns df)) keys) then Raise KeyError
  else if forallb (fun k => count_label k (columns df) =? 1) keys
  then Ok (mkFrame
             (filter (fun c => negb (mem c keys)) (columns df))
             (map (fun kr =>
                     (map (value_at (columns df) (snd kr)) keys,
                      map snd (filter (fun cv => negb (mem (fst cv) keys))
                                      (combine (columns df) (snd kr)))))
                  (rows df)))
  else set_index_repeated lib df keys.

(** [df.reset_index()] on an index without a name: its labels become the
    first column, called "index" (or "level_0" when "index" is taken), and
    the rows are numbered from 0. *)
Definition reset_index (df : Frame) : result Frame :=
  if forallb (fun kr => List.length (fst kr) =? 1) (rows df)
  then let column := if mem (Str "index") (columns df)
                     then Str "level_0" else Str "index" in
       if mem column (columns df) then Raise ValueError
       else Ok (mkFrame (column :: columns df)
                  (label_rows 0 (map (fun kr => hd NaN (fst kr) :: snd kr) (rows df))))
  else reset_index_levels lib df.

(** [df.rename(columns={old: new})]. *)
Definition rename_column (df : Frame) (old new : cell) : Frame :=
  mkFrame (map (fun c => if cell_eqb c old then new else c) (columns df)) (rows df).

(** The keys of [pd.concat(ss, axis=1)]: the name of each series, and a
    running number for each series without one. *)
Fixpoint series_keys (num : Z) (ss : list Series) : list (list cell) :=
  match ss with
  | [] => []
  | s :: rest =>
      match name s with
      | Some n => [n] :: series_keys num rest
      | None => [Int num] :: series_keys (num + 1)%Z rest
      end
  end.

(** [pd.concat(ss, axis=1, sort=False).transpose()]: one row per series,
    under the union of their labels. *)
Definition concat_series (ss : list Series) : result Frame :=
  match ss with
  | [] => Raise ValueError
  | _ :: _ =>
      if forallb (fun s => nodupb (labels s)) ss
      then let cols := union_all (map labels ss) in
           Ok (mkFrame cols
                 (combine (series_keys 0%Z ss)
                          (map (fun s => realign (labels s) (values s) cols) ss)))
      else concat_series_repeated lib ss
  end.

(** [df.dropna(how="all", axis=0)]: a row is kept when it holds a value. *)
Definition dropna_all (df : Frame) : Frame :=
  mkFrame (columns df) (filter (fun kr => negb (forallb is_nan (snd kr))) (rows df)).

(** *** get_details *)

Definition metadata_labels : list cell :=
  [Str "Report type";
   Str "Source of the outbreak(s) or origin of infection";
   Str "Measures applied"].

Definition nth_table (tables : list RawTable) (i : nat) : result RawTable :=
  match nth_error tables i with
  | Some t => Ok t
  | None => Raise IndexError
  end.

Definition details_body (out : Series) (table : RawTable) : result Series :=
  c <- loc table 0 0 ;;
  if mem c metadata_labels
  then fields <- set_index_0_column_1 table ;; Ok (series_append out fields)
  else Ok out.

Definition get_details (tables : list RawTable) (report_id : string) : result Series :=
  table1 <- nth_table tables 1 ;;
  c <- loc table1 0 1 ;;
  match c with
  | Str s =>
      let '(disease, _, country) := partition "," s in
      let out := empty_series in
      let out := series_set out (Str "Disease") (Str disease) in
      let out := series_set out (Str "Country") (Str country) in
      let out := series_set out (Str "Url") (Str (REPORT_URL report_id)) in
      out <- foldM details_body tables out ;;
      Ok (mkSeries (Some (Str report_id)) (items out))
  | _ => Raise AttributeError
  end.

(** *** get_outbreaks *)

(** Lines 52-63: the rows of one outbreak. [digits] is group 1 of the match. *)
Definition outbreak_frame (digits : string) (country : item)
    (outbreak_table species_table : RawTable) : result Frame :=
  let outbreak_table := set_loc outbreak_table 0 0 (Str "Location") in
  outbreak_table <- set_index_0_column_1 outbreak_table ;;
  location <- series_getattr outbreak_table "Location" ;;
  let outbreak_table :=
    series_set outbreak_table (Str "Location")
      (Str (str_of outbreak_table location +++ ", " +++ str_item country)) in
  outbreak_table <- series_del outbreak_table (Str "Affected animals") ;;
  species_table <- promote_header species_table ;;
  number <- int_of_match digits ;;
  species_table <- insert species_table 0 (Str "Outbreak #") (Int number) ;;
  assign species_table outbreak_table.

(** The body of the loop over [zip(tables, tables[1:])]; the [assert] of
    line 51 raises [AssertionError], as it does unless Python runs with -O. *)
Definition outbreaks_body (country : item) (outbreaks : list Frame)
    (pair : RawTable * RawTable) : result (list Frame) :=
  let (outbreak_table, species_table) := pair in
  c <- loc outbreak_table 0 0 ;;
  match c with
  | Str s =>
      match match_outbreak s with
      | None => Ok outbreaks
      | Some digits =>
          c' <- loc species_table 0 0 ;;
          if cell_eqb c' (Str "Species")
          then df <- outbreak_frame digits country outbreak_table species_table ;;
               Ok (outbreaks ++ [df])
          else Raise AssertionError
      end
  | _ => Ok outbreaks
  end.

Definition get_outbreaks (tables : list RawTable) (report_id : string) (country : item)
  : result Frame :=
  outbreaks <- foldM (outbreaks_body country) (combine tables (tl tables)) [] ;;
  match outbreaks with
  | [] => Ok empty_frame
  | _ :: _ =>
      if forallb narrow outbreaks
      then outbreaks <- concat outbreaks ;;
           outbreaks <- insert outbreaks 0 (Str "Report ID") (Str report_id) ;;
           set_index outbreaks [Str "Report ID"; Str "Outbreak #"]
      else outbreaks_wide lib outbreaks report_id
  end.

(** *** get_tests *)

Definition tests_body (test_table : option Frame) (table : RawTable)
  : result (option Frame) :=
  c <- loc table 0 0 ;;
  if cell_eqb c (Str "Laboratory name and type")
  then df <- promote_header table ;; Ok (Some df)
  else Ok test_table.

Definition get_tests (tables : list RawTable) (report_id : string) : result Frame :=
  test_table <- foldM tests_body tables None ;;
  match test_table with
  | None => Ok empty_frame
  | Some test_table =>
      test_table <- insert test_table 0 (Str "Report ID") (Str report_id) ;;
      test_table <- reset_index test_table ;;
      set_index (rename_column test_table (Str "index") (Str "Test #"))
                [Str "Report ID"; Str "Test #"]
  end.

(** *** process_report *)

(** A report file: its path, its text, and what [pd.read_html] makes of it
    ([Raise ValueError] when it finds no table). *)
Record Document : Type := mkDocument {
  path : string;
  body : string;
  read_html : result (list RawTable)
}.

Inductive level : Type := DEBUG | WARNING.

Definition log_record : Type := (level * string)%type.

(** Lines 104-107: the three leading columns of a report's frame. *)
Definition add_details (details : Series) (df : Frame) : result Frame :=
  disease <- series_getattr details "Disease" ;;
  df <- insert_item df 0 (Str "Disease") disease ;;
  country <- series_getattr details "Country" ;;
  df <- insert_item df 1 (Str "Country") country ;;
  date <- series_get details (Str "Report date") ;;
  insert_item df 2 (Str "Report date") date.

Definition report_id_of (path : string) : result string :=
  match findall_digits path with
  | report_id :: _ => Ok report_id
  | [] => Raise IndexError
  end.

(** Lines 100-108. *)
Definition tabulate (tables : list RawTable) (path : string)
  : result (Series * Frame * Frame) :=
  report_id <- report_id_of path ;;
  details <- get_details tables report_id ;;
  country <- series_getattr details "Country" ;;
  outbreaks <- get_outbreaks tables report_id country ;;
  tests <- get_tests tables report_id ;;
  outbreaks <- add_details details outbreaks ;;
  tests <- add_details details tests ;;
  Ok (details, outbreaks, tests).

(** The result of [process_report], with the records it logs. *)
Definition process_report (doc : Document)
  : list log_record * result (Series * Frame * Frame) :=
  let reading := (DEBUG, "Reading " +++ path doc) in
  match read_html doc with
  | Ok tables => ([reading], tabulate tables (path doc))
  | Raise ValueError =>
      if contains "Application Error" (body doc)
      then ([reading;
             (WARNING, "Report in " +++ path doc +++ " was affected by an Application Error")],
            Ok (empty_series, empty_frame, empty_frame))
      else ([reading], Raise ValueError)
  | Raise e => ([reading], Raise e)
  end.

(** *** process_reports *)

(** The generator of line 113, run to its end or to its first exception. *)
Fixpoint run_reports (docs : list Document)
  : list log_record * result (list (Series * Frame * Frame)) :=
  match docs with
  | [] => ([], Ok [])
  | doc :: rest =>
      let (log1, r) := process_report doc in
      match r with
      | Raise e => (log1, Raise e)
      | Ok t =>
          let (log2, rs) := run_reports rest in
          (log1 ++ log2, ts <- rs ;; Ok (t :: ts))
      end
  end.

Definition assemble (triples : list (Series * Frame * Frame))
  : result (Frame * Frame * Frame) :=
  match triples with
  | [] => Raise ValueError
  | _ :: _ =>
      reports <- concat_series (map (fun t => fst (fst t)) triples) ;;
      let reports := dropna_all reports in
      outbreaks <- concat (map (fun t => snd (fst t)) triples) ;;
      tests <- concat (map snd triples) ;;
      Ok (reports, outbreaks, tests)
  end.

Definition process_reports (docs : list Document)
  : list log_record * result (Frame * Frame * Frame) :=
  let (log, rs) := run_reports docs in
  (log, triples <- rs ;; assemble triples).

End Tabulate.

(** * The download module (src/download.py)

    The files of the output directory, the requests sent and the records
    logged are the state of a small state-and-error monad.  Text is UTF-8;
    each path text names a file of its own that can be written (directories,
    links and dot segments are not represented); [time.sleep] has no effect
    on the state.  What a request returns is given by [web]: the answer to the
    n-th request ever sent, for the URL it asks. *)

Definition MAX_RETRIES : nat := 5.

Definition newline : ascii := "010".
Definition carriage_return : ascii := "013".
Definition double_quote : ascii := "034".

(** ** Text *)

(** [sep.join(l)]. *)
Fixpoint join (sep : string) (l : list string) : string :=
  match l with
  | [] => EmptyString
  | [x] => x
  | x :: rest => x +++ sep +++ join sep rest
  end.

Fixpoint last_char (s : string) : option ascii :=
  match s with
  | EmptyString => None
  | String c EmptyString => Some c
  | String _ rest => last_char rest
  end.

(** [os.path.join(a, b)] (posixpath). *)
Definition path_join (a b : string) : string :=
  match b with
  | String "/" _ => b
  | _ =>
      match last_char a with
      | None => b
      | Some "/"%char => a +++ b
      | Some _ => a +++ "/" +++ b
      end
  end.

(** The characters that [str.strip()] removes, in UTF-8: U+0009-000D,
    U+001C-0020; U+0085, U+00A0; U+1680, U+2000-200A, U+2028, U+2029, U+202F,
    U+205F, U+3000. *)
Definition space1 (a : ascii) : bool :=
  let n := nat_of_ascii a in
  ((9 <=? n) && (n <=? 13)) || ((28 <=? n) && (n <=? 32)).

Definition space2 (a b : ascii) : bool :=
  (nat_of_ascii a =? 194) && ((nat_of_ascii b =? 133) || (nat_of_ascii b =? 160)).

Definition space3 (a b c : ascii) : bool :=
  let x := nat_of_ascii a in
  let y := nat_of_ascii b in
  let z := nat_of_ascii c in
  ((x =? 225) && (y =? 154) && (z =? 128))
  || ((x =? 226) && (y =? 128)
      && (((128 <=? z) && (z <=? 138)) || (z =? 168) || (z =? 169) || (z =? 175)))
  || ((x =? 226) && (y =? 129) && (z =? 159))
  || ((x =? 227) && (y =? 128) && (z =? 128)).

(** [s.lstrip()]. *)
Fixpoint lstrip (s : string) : string :=
  match s with
  | String a r1 =>
      if space1 a then lstrip r1
      else match r1 with
           | String b r2 =>
               if space2 a b then lstrip r2
               else match r2 with
                    | String c r3 => if space3 a b c then lstrip r3 else s
                    | EmptyString => s
                    end
           | EmptyString => s
           end
  | EmptyString => s
  end.

Fixpoint reverse_onto (s acc : string) : string :=
  match s with
  | EmptyString => acc
  | String c rest => reverse_onto rest (String c acc)
  end.

Definition reverse (s : string) : string := reverse_onto s EmptyString.

(** [lstrip] on a reversed text: the bytes of a character come last first. *)
Fixpoint lstrip_reversed (s : string) : string :=
  match s with
  | String a r1 =>
      if space1 a then lstrip_reversed r1
      else match r1 with
           | String b r2 =>
               if space2 b a then lstrip_reversed r2
               else match r2 with
                    | String c r3 => if space3 c b a then lstrip_reversed r3 else s
                    | EmptyString => s
                    end
           | EmptyString => s
           end
  | EmptyString => s
  end.

(** [s.rstrip()] and [s.strip()]. *)
Definition rstrip (s : string) : string := reverse (lstrip_reversed (reverse s)).

Definition strip (s : string) : string := rstrip (lstrip s).

(** The lines of a text file, as iterating over [open(path)] yields them:
    a line feed, a carriage return or the two in a row end a line, and read
    as a line feed. [cur] is the line being read. *)
Fixpoint lines_from (cur : string) (s : string) : list string :=
  match s with
  | EmptyString => if is_empty cur then [] else [cur]
  | String c rest =>
      if Ascii.eqb c newline
      then (cur +++ String newline EmptyString) :: lines_from EmptyString rest
      else if Ascii.eqb c carriage_return
      then match rest with
           | String c' rest' =>
               if Ascii.eqb c' newline
               then (cur +++ String newline EmptyString) :: lines_from EmptyString rest'
               else (cur +++ String newline EmptyString) :: lines_from EmptyString rest
           | EmptyString => [cur +++ String newline EmptyString]
           end
      else lines_from (cur +++ String c EmptyString) rest
  end.

Definition file_lines (content : string) : list string := lines_from EmptyString content.

(** [re.search("reportid=([0-9]+)", url)]: group 1 of the leftmost match. *)
Definition match_reportid (s : string) : option string :=
  match strip_prefix "reportid=" s with
  | Some rest =>
      let (ds, _) := span_digits rest in
      if is_empty ds then None else Some ds
  | None => None
  end.

Fixpoint search_reportid (s : string) : option string :=
  match match_reportid s with
  | Some ds => Some ds
  | None =>
      match s with
      | EmptyString => None
      | String _ rest => search_reportid rest
      end
  end.

(** [sorted(set(l))] for texts. *)
Fixpoint insert_sorted (x : string) (l : list string) : list string :=
  match l with
  | [] => [x]
  | y :: rest =>
      match String.compare x y with
      | Lt => x :: l
      | Eq => l
      | Gt => y :: insert_sorted x rest
      end
  end.

Definition sorted_set (l : list string) : list string := fold_right insert_sorted [] l.

(** A non-ASCII space at the start of a text: the number of bytes that
    follow its first byte. *)
Definition wide_space (s : string) : option nat :=
  match s with
  | String a (String b r) =>
      if space2 a b then Some 1
      else match r with
           | String c _ => if space3 a b c then Some 2 else None
           | EmptyString => None
           end
  | _ => None
  end.

(** What the version of Python fixes: the decimal digits outside ASCII (the
    characters of category Nd), given for a text that begins with one by the
    number of bytes that follow its first byte and by its value, from 0 to 9;
    and the most digits that [int] reads, 0 when it reads any number of
    them. *)
Record Python : Type := mkPython {
  wide_digit : string -> option (nat * nat);
  max_str_digits : nat
}.

Section Decimal.

Variable py : Python.

(** The longest run of decimal digits a text starts with, and what follows
    it. [skip] bytes belong to the digit read last. *)
Fixpoint span_decimal (skip : nat) (s : string) : string * string :=
  match s with
  | EmptyString => (EmptyString, EmptyString)
  | String c rest =>
      match skip with
      | S k => let (ds, tl) := span_decimal k rest in (String c ds, tl)
      | O =>
          if is_digit c
          then let (ds, tl) := span_decimal 0 rest in (String c ds, tl)
          else if nat_of_ascii c <? 128 then (EmptyString, s)
          else match wide_digit py s with
               | Some (k, _) => let (ds, tl) := span_decimal k rest in (String c ds, tl)
               | None => (EmptyString, s)
               end
      end
  end.

(** The text that follows the digits in the pattern of line 68: a quote, a
    closing parenthesis, a double quote, then [>Full report</a>]. *)
Definition link_suffix : string := "')" +++ String double_quote ">Full report</a>".

(** A match of the pattern of line 68 at the start of a text: its group and
    its length in bytes. *)
Definition match_link (s : string) : option (string * nat) :=
  match s with
  | String "'" rest =>
      let (ds, after) := span_decimal 0 rest in
      if is_empty ds then None
      else match strip_prefix link_suffix after with
           | Some _ => Some (ds, 1 + String.length ds + String.length link_suffix)
           | None => None
           end
  | _ => None
  end.

(** [re.findall] with the pattern of line 68: the groups of the matches
    that do not overlap, left to right. [skip] bytes belong to the match
    found last. *)
Fixpoint findall_links (skip : nat) (s : string) : list string :=
  match s with
  | EmptyString => []
  | String _ rest =>
      match skip with
      | S k => findall_links k rest
      | O =>
          match match_link s with
          | Some (ds, len) => ds :: findall_links (len - 1) rest
          | None => findall_links 0 rest
          end
      end
  end.

(** [int(s)].  A text with a character outside ASCII is first rewritten:
    its spaces become blanks, its decimal digits ASCII digits, and it ends
    with a question mark at the first character that is neither (U+007F,
    rewritten so as well, is refused in either form). *)
Fixpoint to_ascii (skip : nat) (s : string) : string :=
  match s with
  | EmptyString => EmptyString
  | String a rest =>
      match skip with
      | S k => to_ascii k rest
      | O =>
          if nat_of_ascii a <? 128 then String a (to_ascii 0 rest)
          else match wide_space s with
               | Some k => String " " (to_ascii k rest)
               | None =>
                   match wide_digit py s with
                   | Some (k, d) =>
                       if d <? 10 then String (ascii_of_nat (48 + d)) (to_ascii k rest)
                       else "?"
                   | None => "?"
                   end
               end
      end
  end.

(** Then: blanks, a sign, digits with single underscores between them,
    blanks; and no more digits than [max_str_digits]. *)
Definition int_space (c : ascii) : bool :=
  let n := nat_of_ascii c in ((9 <=? n) && (n <=? 13)) || (n =? 32).

Fixpoint skip_spaces (s : string) : string :=
  match s with
  | String c rest => if int_space c then skip_spaces rest else s
  | EmptyString => s
  end.

Fixpoint scan_digits (acc : Z) (count : nat) (after_underscore : bool) (s : string)
  : option (Z * nat * string) :=
  match s with
  | String c rest =>
      if is_digit c then scan_digits (10 * acc + digit_value c)%Z (S count) false rest
      else if Ascii.eqb c "_"
      then (if after_underscore then None else scan_digits acc count true rest)
      else (if after_underscore then None else Some (acc, count, s))
  | EmptyString => if after_underscore then None else Some (acc, count, s)
  end.

Definition too_long (count : nat) : bool :=
  (0 <? max_str_digits py) && (max_str_digits py <? count).

Definition int_of_ascii (s : string) : result Z :=
  let s1 := skip_spaces s in
  let '(sign, s2) := match s1 with
                     | String c rest =>
                         if Ascii.eqb c "+" then (1%Z, rest)
                         else if Ascii.eqb c "-" then ((-1)%Z, rest)
                         else (1%Z, s1)
                     | EmptyString => (1%Z, s1)
                     end in
  match s2 with
  | String c _ =>
      if is_digit c
      then match scan_digits 0%Z 0 false s2 with
           | Some (v, count, rest) =>
               if is_empty (skip_spaces rest) && negb (too_long count)
               then Ok (sign * v)%Z
               else Raise ValueError
           | None => Raise ValueError
           end
      else Raise ValueError
  | EmptyString => Raise ValueError
  end.

Definition py_int (s : string) : result Z := int_of_ascii (to_ascii 0 s).

(** ** parse_year_range *)

(** [s.split("-", 1)] has two parts when the text has a hyphen, one when it
    has none, which the assignment to two names refuses. *)
Definition parse_year_range (s : string) : result (Z * Z) :=
  let '(min_year, found, max_year) := partition "-" s in
  if is_empty found then Raise ValueError
  else x <- py_int min_year ;; y <- py_int max_year ;; Ok (x, y).

End Decimal.

(** ** The state: files, requests, log *)

Inductive severity : Type := LOG_DEBUG | LOG_INFO.

Record World : Type := mkWorld {
  files : string -> option string;
  requests : list string;
  logged : list (severity * string)
}.

Definition IO (A : Type) : Type := World -> World * result A.

Definition ret {A : Type} (a : A) : IO A := fun w => (w, Ok a).

Definition throw {A : Type} (e : exn) : IO A := fun w => (w, Raise e).

Definition bind_io {A B : Type} (c : IO A) (k : A -> IO B) : IO B :=
  fun w => match c w with
           | (w', Ok a) => k a w'
           | (w', Raise e) => (w', Raise e)
           end.

Notation "x <~ c ;; k" := (bind_io c (fun x => k))
  (at level 61, c at next level, right associativity).

(** [try: c except Exception: handler]. *)
Definition try_except {A : Type} (c : IO A) (handler : exn -> IO A) : IO A :=
  fun w => match c w with
           | (w', Ok a) => (w', Ok a)
           | (w', Raise e) => handler e w'
           end.

(** A [for] loop over the state. *)
Fixpoint for_each {A B : Type} (body : A -> B -> IO A) (xs : list B) (acc : A) : IO A :=
  match xs with
  | [] => ret acc
  | x :: rest => acc' <~ body acc x ;; for_each body rest acc'
  end.

(** A [for] loop whose body ends in [break] or runs to its end. *)
Inductive flow (A : Type) : Type :=
| Next (a : A)
| Break (a : A).

Arguments Next {A} a.
Arguments Break {A} a.

Fixpoint for_break {A B : Type} (body : A -> B -> IO (flow A)) (xs : list B) (acc : A)
  : IO A :=
  match xs with
  | [] => ret acc
  | x :: rest =>
      r <~ body acc x ;;
      match r with
      | Break a => ret a
      | Next a => for_break body rest a
      end
  end.

(** [os.path.exists(path)]. *)
Definition exists_file (w : World) (path : string) : bool :=
  match files w path with
  | Some _ => true
  | None => false
  end.

(** [open(path, "w")] followed by the writing of a text: whatever the file
    held is replaced. *)
Definition write_file (path text : string) : IO unit :=
  fun w => (mkWorld (fun p => if String.eqb p path then Some text else files w p)
                    (requests w) (logged w),
            Ok tt).

Definition log (lvl : severity) (message : string) : IO unit :=
  fun w => (mkWorld (files w) (requests w) (logged w ++ [(lvl, message)]), Ok tt).

(** ** get_summary_urls *)

(** The browser that selenium drives is outside the program: what it shows
    is taken as given, and its own state is not represented.  One element of
    class "outbreakdetails": the text of its part of class "outbreak_country"
    and the [href] of its link "Summary" ([None] when the link has no such
    attribute), each an exception when the element has no such part. *)
Record Outbreak_row : Type := mkOutbreak_row {
  country_text : result string;
  summary_href : result (option string)
}.

Record Browser : Type := mkBrowser {
  (** Lines 30-34: opening the start page and selecting the disease, given
      the type and the identifier of the disease. *)
  open_disease : string -> Z -> result unit;
  (** Lines 39-42: the elements that the page shows after the n-th selection
      of a year. *)
  select_year : nat -> Z -> result (list Outbreak_row);
  (** Line 50. *)
  close : result unit
}.

(** [range(lo, hi)]. *)
Definition range (lo hi : Z) : list Z :=
  map (fun i => (lo + Z.of_nat i)%Z) (seq 0 (Z.to_nat (hi - lo))).

(** One dictionary of [summary_urls]. *)
Record Summary : Type := mkSummary {
  summary_year : Z;
  summary_country : string;
  summary_url : option string
}.

(** [pd.DataFrame(records)]: no column at all without a record. *)
Definition summary_frame (records : list Summary) : Frame :=
  match records with
  | [] => empty_frame
  | _ :: _ =>
      mkFrame [Str "year"; Str "country"; Str "url"]
        (label_rows 0
           (map (fun r => [Int (summary_year r); Str (summary_country r);
                           match summary_url r with
                           | Some u => Str u
                           | None => NaN
                           end])
                records))
  end.

(** The local variables [country], unbound until a row has given one, and
    [summary_urls]. *)
Definition Rows : Type := (option string * list Summary)%type.

(** Lines 43-48. *)
Definition row_body (year : Z) (vars : Rows) (elem : Outbreak_row) : result Rows :=
  let (country, summary_urls) := vars in
  text <- country_text elem ;;
  country <- (if is_empty (strip text)
              then match country with
                   | Some c => Ok c
                   | None => Raise (OtherError "UnboundLocalError")
                   end
              else Ok (strip text)) ;;
  url <- summary_href elem ;;
  Ok (Some country, summary_urls ++ [mkSummary year country url]).

(** Lines 39-48, for the n-th year of the range. *)
Definition year_body (browser : Browser) (vars : Rows) (selection : nat * Z)
  : result Rows :=
  let (n, year) := selection in
  elems <- select_year browser n year ;;
  foldM (row_body year) elems vars.

Definition get_summary_urls (browser : Browser) (disease_id min_year max_year : Z)
    (disease_type : string) : IO Frame :=
  _ <~ log LOG_INFO "Opening start page" ;;
  fun w =>
    (w,
     _ <- open_disease browser disease_type disease_id ;;
     let years := range min_year (max_year + 1) in
     vars <- foldM (year_body browser) (combine (seq 0 (List.length years)) years)
               (None, []) ;;
     _ <- close browser ;;
     Ok (summary_frame (snd vars))).

(** [df.url]: the column of that name, if the frame has one. *)
Definition url_column (df : Frame) : option (list cell) :=
  if mem (Str "url") (columns df)
  then Some (map (fun kr => value_at (columns df) (snd kr) (Str "url")) (rows df))
  else None.

Section Download.

Variable py : Python.

(** The answer to the n-th request ever sent, asked for a URL: the text of the
    response, or the exception that [requests.get] raises. *)
Variable web : nat -> string -> result string.

(** [requests.get(url).text]. *)
Definition http_get (url : string) : IO string :=
  fun w => (mkWorld (files w) (requests w ++ [url]) (logged w),
            web (List.length (requests w)) url).

(** *** get_report_ids *)

Definition all_text (col : list cell) : option (list string) :=
  fold_right (fun c acc => match c, acc with
                           | Str s, Some l => Some (s :: l)
                           | _, _ => None
                           end) (Some []) col.

(** The body of the loop of lines 57-71. *)
Definition report_ids_body (out_dir : string) (all_report_ids : list string)
    (url : string) : IO (list string) :=
  match search_reportid url with
  | None => throw AttributeError
  | Some summary_id =>
      let summary_path := path_join out_dir ("summary_" +++ summary_id +++ ".lst") in
      fun w =>
        match files w summary_path with
        | Some content => ret (all_report_ids ++ map strip (file_lines content)) w
        | None =>
            (html <~ http_get url ;;
             let report_ids := findall_links py 0 html in
             _ <~ write_file summary_path
                    (join (String newline EmptyString) report_ids
                       +++ String newline EmptyString) ;;
             ret (all_report_ids ++ report_ids)) w
        end
  end.

(** [summary_urls] is the column [url] of the frame, [None] when the frame
    has no such column; a cell that is no text makes [sorted] or [re.search]
    raise [TypeError] before anything is read or sent. *)
Definition get_report_ids (out_dir : string) (summary_urls : option (list cell))
  : IO (list string) :=
  match summary_urls with
  | None => throw AttributeError
  | Some col =>
      match all_text col with
      | None => throw TypeError
      | Some urls => for_each (report_ids_body out_dir) (sorted_set urls) []
      end
  end.

(** *** get_reports *)

(** The local variables of [get_reports]; [report_resp] is unbound until a
    request has succeeded. *)
Record Locals : Type := mkLocals {
  report_resp : option string;
  skipped : nat;
  retrieved : nat
}.

(** Lines 86-92: the [break] of line 92 stands after the [try] statement, in
    the body of the loop. *)
Definition attempt_body (url : string) (vars : Locals) (attempt : nat)
  : IO (flow Locals) :=
  vars <~ try_except
            (text <~ http_get url ;;
             ret (mkLocals (Some text) (skipped vars) (retrieved vars)))
            (fun e => if attempt =? MAX_RETRIES then throw e else ret vars) ;;
  ret (Break vars).

(** The body of the loop of lines 77-94.  In line 93 the file is opened for
    writing, and so created empty, before [report_resp] is read. *)
Definition reports_body (out_dir : string) (vars : Locals) (report_id : string)
  : IO Locals :=
  let path := path_join out_dir (report_id +++ ".html") in
  fun w =>
    if exists_file w path
    then (_ <~ log LOG_DEBUG ("Skipping " +++ path) ;;
          ret (mkLocals (report_resp vars) (S (skipped vars)) (retrieved vars))) w
    else (_ <~ log LOG_DEBUG ("Downloading " +++ path) ;;
          vars <~ for_break (attempt_body (REPORT_URL report_id))
                    (seq 1 MAX_RETRIES) vars ;;
          _ <~ write_file path EmptyString ;;
          match report_resp vars with
          | None => throw (OtherError "UnboundLocalError")
          | Some text =>
              _ <~ write_file path text ;;
              ret (mkLocals (report_resp vars) (skipped vars) (S (retrieved vars)))
          end) w.

Definition get_reports (out_dir : string) (report_ids : list string) : IO unit :=
  vars <~ for_each (reports_body out_dir) report_ids (mkLocals None 0 0) ;;
  log LOG_INFO ("Retrieved " +++ string_of_Z (Z.of_nat (retrieved vars))
                  +++ " reports; Already saved: "
                  +++ string_of_Z (Z.of_nat (skipped vars))).

End Download.

(** * Vocabulary of the specification *)

(** The labels of a table: its first column. *)
Definition label_column (table : RawTable) : list cell :=
  match table with
  | Grid _ cells => map (fun r => nth 0 r NaN) cells
  | Headed => []
  end.

(** The values of a table: its second column. *)
Definition value_column (table : RawTable) : list cell :=
  match table with
  | Grid _ cells => map (fun r => nth 1 r NaN) cells
  | Headed => []
  end.

(** The outbreak number a first cell announces, as the digits matched. *)
Definition outbreak_digits (c : cell) : option string :=
  match c with
  | Str s => match_outbreak s
  | _ => None
  end.

(** A table that is not an outbreak header: it has a first cell, and that
    cell is no text starting with "Outbreak <integer>". *)
Definition plain (table : RawTable) : Prop :=
  exists c, loc table 0 0 = Ok c /\ outbreak_digits c = None.

(** Whether a character occurs in a text. *)
Fixpoint occurs (c : ascii) (s : string) : bool :=
  match s with
  | EmptyString => false
  | String a rest => Ascii.eqb a c || occurs c rest
  end.

Fixpoint all_chars (p : ascii -> bool) (s : string) : bool :=
  match s with
  | EmptyString => true
  | String a rest => p a && all_chars p rest
  end.

(** A text at which a run of digits ends: empty, or starting with a
    character that is no digit. *)
Definition ends_run (s : string) : bool :=
  match s with
  | EmptyString => true
  | String c _ => negb (is_digit c)
  end.

(** A metadata field table: its first cell is one of the three labels. *)
Definition is_metadata_table (table : RawTable) : bool :=
  match loc table 0 0 with
  | Ok c => mem c metadata_labels
  | Raise _ => false
  end.

(** The (label, value) rows a table contributes to the report record. *)
Definition metadata_fields (table : RawTable) : list (cell * cell) :=
  if is_metadata_table table
  then combine (label_column table) (value_column table)
  else [].

(** A table [get_details] can read: it has a first cell, and a second column
    when it is a metadata field table. *)
Definition readable (table : RawTable) : Prop :=
  exists c, loc table 0 0 = Ok c /\
            (mem c metadata_labels = true -> exists v, loc table 0 1 = Ok v).

(** A table with a first cell. *)
Definition has_first_cell (table : RawTable) : Prop :=
  exists c, loc table 0 0 = Ok c.

(** A table with a first cell that is not the laboratory label. *)
Definition not_laboratory (table : RawTable) : Prop :=
  exists c, loc table 0 0 = Ok c /\ c <> Str "Laboratory name and type".

(** The placeholder page: no table, and the marker in the body. *)
Definition is_placeholder (doc : Document) : bool :=
  match read_html doc with
  | Raise ValueError => contains "Application Error" (body doc)
  | _ => false
  end.

(** A document in which [pd.read_html] finds tables. *)
Definition parsed (doc : Document) : bool :=
  match read_html doc with
  | Ok _ => true
  | Raise _ => false
  end.

(** The key of a report in the final [reports] table. *)
Definition report_key (doc : Document) : list cell :=
  match report_id_of (path doc) with
  | Ok report_id => [Str report_id]
  | Raise _ => []
  end.

(** The report records of a batch carry no label twice. *)
Definition unrepeated_labels (lib : Library) (docs : list Document) : Prop :=
  forall doc details outbreaks tests,
    In doc docs ->
    snd (process_report lib doc) = Ok (details, outbreaks, tests) ->
    nodupb (labels details) = true.

(** The outbreak header of the specification, in its own words: a first
    cell that is a text starting with "Outbreak " and a numeral; the number
    that the numeral writes (zero included, as the pattern has it) is the
    outbreak number.  The numeral is read by the decimal reader of the
    standard library, not by the program's. *)
Definition numeral_digit (c : ascii) : bool :=
  match c with
  | "0" | "1" | "2" | "3" | "4" | "5" | "6" | "7" | "8" | "9" => true
  | _ => false
  end%char.

Fixpoint leading_numeral (s : string) : string :=
  match s with
  | String c rest =>
      if numeral_digit c then String c (leading_numeral rest) else EmptyString
  | EmptyString => EmptyString
  end.

(** The numeral that a first cell announces. *)
Definition announced_numeral (c : cell) : string :=
  match c with
  | Str s =>
      if String.prefix "Outbreak " s
      then leading_numeral (String.substring 9 (String.length s - 9) s)
      else EmptyString
  | _ => EmptyString
  end.

Definition announced (c : cell) : option Z :=
  if is_empty (announced_numeral c) then None
  else option_map Z.of_uint (NilEmpty.uint_of_string (announced_numeral c)).

(** A table that is no outbreak header: it has a first cell, which announces
    no number. *)
Definition ordinary (table : RawTable) : Prop :=
  exists c, loc table 0 0 = Ok c /\ announced c = None.

Definition is_header (table : RawTable) : bool :=
  match loc table 0 0 with
  | Ok c => match announced c with Some _ => true | None => false end
  | Raise _ => false
  end.

Definition outbreak_number (table : RawTable) : Z :=
  match loc table 0 0 with
  | Ok c => match announced c with Some n => n | None => 0%Z end
  | Raise _ => 0%Z
  end.

(** The (outbreak-header, species) pairs of a document, in order. *)
Definition outbreak_pairs (tables : list RawTable) : list (RawTable * RawTable) :=
  filter (fun p => is_header (fst p)) (combine tables (tl tables)).

(** The columns and the data rows of a species table. *)
Definition species_columns (table : RawTable) : list cell :=
  match table with
  | Grid width (r0 :: _) => row_cells width r0
  | _ => []
  end.

Definition species_rows (table : RawTable) : list (list cell) :=
  match table with
  | Grid width (_ :: rest) => map (row_cells width) rest
  | _ => []
  end.

Definition is_affected_animals (k : cell) : bool := cell_eqb k (Str "Affected animals").

(** The fields of a header that are broadcast onto the species rows: the
    location, "<raw location>, <country>", and every other field but
    "Affected animals". *)
Definition raw_location (header : RawTable) : string :=
  match hd NaN (value_column header) with
  | Str place => place
  | _ => EmptyString
  end.

Definition broadcast_fields (country : string) (header : RawTable) : list (cell * cell) :=
  (Str "Location", Str (raw_location header +++ ", " +++ country))
    :: filter (fun kv => negb (is_affected_animals (fst kv)))
         (tl (combine (label_column header) (value_column header))).

Definition broadcast_labels (header : RawTable) : list cell :=
  Str "Location" :: filter (fun k => negb (is_affected_animals k)) (tl (label_column header)).

(** The names of the fields of the rows of one outbreak. *)
Definition field_names (pair : RawTable * RawTable) : list cell :=
  species_columns (snd pair) ++ broadcast_labels (fst pair).

(** The value the specification gives a species row of an outbreak under a
    column: the row's own cell under a species column, the header's own value
    under one of its broadcast fields, and nothing under any other column. *)
Definition expected_field (country : string) (pair : RawTable * RawTable)
    (row : list cell) (c : cell) : cell :=
  match lookup (species_columns (snd pair)) row c with
  | Some v => v
  | None => value_at (map fst (broadcast_fields country (fst pair)))
                     (map snd (broadcast_fields country (fst pair))) c
  end.

(** The rows the specification expects of one outbreak, under given columns. *)
Definition expected_rows (report_id country : string) (cols : list cell)
    (pair : RawTable * RawTable) : list (list cell * list cell) :=
  map (fun row => ([Str report_id; Int (outbreak_number (fst pair))],
                   map (expected_field country pair row) cols))
      (species_rows (snd pair)).

(** A well-formed pair: the header has a value column, whose first cell,
    the raw location, is a text, distinct text labels and an "Affected
    animals" row; the next table starts with "Species"; and the species
    columns and the broadcast fields are distinct names, none of them
    "Outbreak #" or "Report ID". *)
Definition well_formed_pair (pair : RawTable * RawTable) : Prop :=
  (exists place, loc (fst pair) 0 1 = Ok (Str place)) /\
  loc (snd pair) 0 0 = Ok (Str "Species") /\
  Forall (fun k => is_str k = true) (tl (label_column (fst pair))) /\
  In (Str "Affected animals") (tl (label_column (fst pair))) /\
  NoDup (Str "Location" :: tl (label_column (fst pair))) /\
  NoDup (Str "Outbreak #" :: Str "Report ID" :: field_names pair).

(** A valid document: every table but the last is either no outbreak header,
    or an outbreak header that forms a well-formed pair with its neighbour. *)
Definition valid_document (tables : list RawTable) : Prop :=
  Forall (fun pair => ordinary (fst pair) \/
                      (is_header (fst pair) = true /\ well_formed_pair pair))
         (combine tables (tl tables)).

(** The integers of a document are within what the libraries hold without
    loss: the numeral of every outbreak header has at most 640 digits, which
    [int] reads whatever its limit, and the outbreak number, the integers of
    the header's values and those of the species rows are 64-bit integers. *)
Definition within_64_bits (z : Z) : bool := ((- 2 ^ 63 <=? z) && (z <? 2 ^ 63))%Z.

Definition integers_fit (c : cell) : bool :=
  match c with
  | Int z => within_64_bits z
  | _ => true
  end.

Definition bounded_pair (pair : RawTable * RawTable) : Prop :=
  (forall c, loc (fst pair) 0 0 = Ok c -> String.length (announced_numeral c) <= 640) /\
  within_64_bits (outbreak_number (fst pair)) = true /\
  forallb integers_fit (value_column (fst pair)) = true /\
  forallb (forallb integers_fit) (species_rows (snd pair)) = true.

Definition bounded_document (tables : list RawTable) : Prop :=
  Forall (fun pair => is_header (fst pair) = true -> bounded_pair pair)
         (combine tables (tl tables)).

(** A pair of neighbours of a valid, bounded document. *)
Definition regular_pair (pair : RawTable * RawTable) : Prop :=
  ordinary (fst pair) \/
  (is_header (fst pair) = true /\ well_formed_pair pair /\ bounded_pair pair).

(** The keys the specification gives the outbreak rows of a report: for each
    (outbreak-header, species) pair in turn, one key per species data row,
    made of the report identifier and of the outbreak number of the pair. *)
Definition outbreak_keys (report_id : string) (tables : list RawTable)
    : list (list cell) :=
  flat_map (fun pair => map (fun _ => [Str report_id; Int (outbreak_number (fst pair))])
                            (species_rows (snd pair)))
           (outbreak_pairs tables).

(** The laboratory table of a document: the last table whose first cell is
    the text "Laboratory name and type". *)
Definition is_laboratory (table : RawTable) : bool :=
  match loc table 0 0 with
  | Ok (Str s) => String.eqb s "Laboratory name and type"
  | _ => false
  end.

Definition laboratory_table (tables : list RawTable) : option RawTable :=
  last (map Some (filter is_laboratory tables)) None.

Definition laboratory_columns (table : RawTable) : list cell := species_columns table.

Definition laboratory_rows (table : RawTable) : list (list cell) := species_rows table.

(** The keys the specification gives the test rows of a report: the report
    identifier and the numbers 1, 2, ..., one per data row of the laboratory
    table; none without a laboratory table. *)
Definition test_keys (report_id : string) (tables : list RawTable) : list (list cell) :=
  match laboratory_table tables with
  | Some table =>
      map (fun i => [Str report_id; Int (Z.of_nat i)])
          (seq 1 (List.length (laboratory_rows table)))
  | None => []
  end.

(** The header row of the laboratory table names no column "index" or
    "Test #". *)
Definition regular_laboratory (tables : list RawTable) : Prop :=
  forall table, laboratory_table tables = Some table ->
    ~ In (Str "index") (laboratory_columns table) /\
    ~ In (Str "Test #") (laboratory_columns table).

(** The frame that the loop of [get_outbreaks] collects for a pair. *)
Definition pair_frame (country : string) (pair : RawTable * RawTable) : Frame :=
  mkFrame (Str "Outbreak #" :: field_names pair)
          (label_rows 1
             (map (fun row => Int (outbreak_number (fst pair))
                                :: row ++ map snd (broadcast_fields country (fst pair)))
                  (species_rows (snd pair)))).

(** The columns of the outbreaks of a report, "Outbreak #" apart: the field
    names of the pairs, each once, in order of first appearance. *)
Definition outbreak_columns (country : string) (pairs : list (RawTable * RawTable))
    : list cell :=
  tl (union_all (map columns (map (pair_frame country) pairs))).

(** A report that [process_report] turns into a result. *)
Definition succeeds (lib : Library) (doc : Document) : Prop :=
  exists t, snd (process_report lib doc) = Ok t.

(** ** Vocabulary of the download module *)

(** The file of a report and the file of a summary in the output directory. *)
Definition report_path (out_dir report_id : string) : string :=
  path_join out_dir (report_id +++ ".html").

Definition summary_path (out_dir summary_id : string) : string :=
  path_join out_dir ("summary_" +++ summary_id +++ ".lst").

(** What reading a local variable that no assignment has bound raises. *)
Definition unbound : exn := OtherError "UnboundLocalError".

(** Every file of [w] is in [w'], with the same content. *)
Definition keeps_files (w w' : World) : Prop :=
  forall p c, files w p = Some c -> files w' p = Some c.

(** The record that ends the log of [get_reports]. *)
Definition summary_line (retrieved skipped : nat) : severity * string :=
  (LOG_INFO, "Retrieved " +++ string_of_Z (Z.of_nat retrieved)
               +++ " reports; Already saved: " +++ string_of_Z (Z.of_nat skipped)).

Definition line_feed : string := String newline EmptyString.

(** A summary page that links to at least one full report, each under a
    number written in ASCII digits. *)
Definition numbered (py : Python) (html : string) : Prop :=
  findall_links py 0 html <> [] /\
  Forall (fun i => all_chars is_digit i = true) (findall_links py 0 html).

(** A number that [int] reads back from its decimal writing. *)
Definition fits (py : Python) (z : Z) : Prop :=
  too_long py (String.length (string_of_Z z)) = false.

(** An element with both of its parts: the text of its country cell and the
    [href] of its link. *)
Definition shown (row : string * option string) : Outbreak_row :=
  mkOutbreak_row (Ok (fst row)) (Ok (snd row)).

(** The countries of successive rows, each blank cell taking the country of
    the row before; [None] when a blank cell has no row before it. *)
Fixpoint fill (previous : option string) (texts : list string) : option (list string) :=
  match texts with
  | [] => Some []
  | text :: rest =>
      match (if is_empty (strip text) then previous else Some (strip text)) with
      | Some c =>
          match fill (Some c) rest with
          | Some cs => Some (c :: cs)
          | None => None
          end
      | None => None
      end
  end.

(** The rows of all the pages, in order, each with the year selected. *)
Definition page_rows (years : list Z) (pages : list (list (string * option string)))
  : list (Z * (string * option string)) :=
  flat_map (fun yp => map (fun row => (fst yp, row)) (snd yp)) (combine years pages).

Definition summaries (rows : list (Z * (string * option string))) (countries : list string)
  : list Summary :=
  map (fun rc => mkSummary (fst (fst rc)) (snd rc) (snd (snd (fst rc))))
      (combine rows countries).

(** The country that the loop holds after rows of these countries. *)
Definition last_country (previous : option string) (cs : list string) : option string :=
  match rev cs with
  | c :: _ => Some c
  | [] => previous
  end.

(** The order of texts that [sorted] follows. *)
Definition sorts_before (a b : string) : Prop := String.compare a b = Lt.

(** The text of the last response received, after the requests [urls] have
    been sent in turn as the requests number [n], [n + 1], ...: the text of
    the last of them that the site answered, and [previous] when it answered
    none. *)
Fixpoint last_response (web : nat -> string -> result string) (n : nat)
    (urls : list string) (previous : option string) : option string :=
  match urls with
  | [] => previous
  | url :: rest =>
      last_response web (S n) rest
        match web n url with
        | Ok text => Some text
        | Raise _ => previous
        end
  end.

(** * Sample documents *)

Module Samples.

(** A pandas that refuses every alignment over repeated labels. *)
Definition strict : Library :=
  mkLibrary (fun _ => "Series")
            (fun _ _ => Raise TypeError)
            (fun _ => Raise (OtherError "InvalidIndexError"))
            (fun _ => Raise (OtherError "InvalidIndexError"))
            (fun _ _ _ _ => Raise ValueError)
            (fun _ _ => Raise ValueError)
            (fun _ => Raise ValueError)
            4300
            (fun z => string_of_Z z +++ ".0")
            (fun _ _ => Raise (OtherError "OverflowError")).

Definition text_table (width : nat) (cells : list (list string)) : RawTable :=
  Grid width (map (map Str) cells).

Definition banner : RawTable := text_table 2 [["WAHIS"; "Follow-up report"]].

Definition disease_country : RawTable :=
  text_table 2 [["Summary"; "African swine fever, Viet Nam"]].

Definition report_type : RawTable :=
  text_table 2 [["Report type"; "Immediate notification"];
                ["Report date"; "01/02/2019"]].

Definition outbreak1 : RawTable :=
  text_table 2 [["Outbreak 1"; "Hanoi"];
                ["Date of start of the outbreak"; "15/01/2019"];
                ["Affected animals"; "see below"]].

Definition species1 : RawTable :=
  text_table 3 [["Species"; "Cases"; "Deaths"];
                ["Swine"; "10"; "3"];
                ["Wild boar"; "1"; "0"]].

Definition outbreak2 : RawTable :=
  text_table 2 [["Outbreak 2"; "Hung Yen"];
                ["Epidemiological unit"; "Village"];
                ["Affected animals"; "see below"]].

(** An outbreak header without the "Affected animals" row. *)
Definition outbreak_no_total : RawTable :=
  text_table 2 [["Outbreak 1"; "Hanoi"];
                ["Date of start of the outbreak"; "15/01/2019"]].

(** A second metadata table that repeats the label "Report date". *)
Definition measures : RawTable :=
  text_table 2 [["Measures applied"; "Movement control inside the country"];
                ["Report date"; "02/02/2019"]].

(** The disease and country table of the specification's example, with the
    text in both cells of its row, and with a single cell. *)
Definition spec_example : RawTable :=
  text_table 2 [["African swine fever, Viet Nam"; "African swine fever, Viet Nam"]].

Definition spec_example_one_cell : RawTable :=
  text_table 1 [["African swine fever, Viet Nam"]].

Definition species2 : RawTable :=
  text_table 2 [["Species"; "Cases"]; ["Swine"; "7"]].

Definition laboratory : RawTable :=
  text_table 2 [["Laboratory name and type"; "Result"];
                ["NCVD (National laboratory)"; "Positive"];
                ["RAHO6 (Regional laboratory)"; "Positive"]].

(** An outbreak header whose number has 4301 digits, one more than [int]
    reads by default, and a document made of it and of a species table. *)
Definition long_numeral : string := string_of_list_ascii (repeat "1"%char 4301).

Definition long_outbreak : RawTable :=
  text_table 2 [["Outbreak " +++ long_numeral; "Hanoi"];
                ["Affected animals"; "see below"]].

Definition long_tables : list RawTable := [long_outbreak; species1].

(** A complete report, and the same report with the species table of its
    second outbreak missing. *)
Definition good_tables : list RawTable :=
  [banner; disease_country; report_type; outbreak1; species1;
   outbreak2; species2; laboratory].

Definition bad_tables : list RawTable :=
  [banner; disease_country; report_type; outbreak1; species1;
   outbreak2; laboratory].

(** A report stored under a directory named after a year. *)
Definition dated_report : Document :=
  mkDocument "out/2020/123.html" "<html>...</html>" (Ok good_tables).

Definition good_report : Document :=
  mkDocument "out/123.html" "<html>...</html>" (Ok good_tables).

Definition bad_report : Document :=
  mkDocument "out/456.html" "<html>...</html>" (Ok bad_tables).

Definition placeholder : Document :=
  mkDocument "out/789.html" "<h1>Application Error</h1>" (Raise ValueError).

End Samples.

(** * Further sample documents *)

Module Pages.

(** A report without a metadata table, hence without a report date. *)
Definition undated_report : Document :=
  mkDocument "out/55.html" "<html>...</html>"
    (Ok [Samples.banner; Samples.disease_country; Samples.outbreak1; Samples.species1]).

(** The laboratory table of a second round of tests. *)
Definition second_round : RawTable :=
  Samples.text_table 2 [["Laboratory name and type"; "Result"];
                        ["NCVD (National laboratory)"; "Negative"]].

(** A report without an outbreak, and what [process_report] makes of it. *)
Definition quiet_tables : list RawTable :=
  [Samples.banner; Samples.disease_country; Samples.report_type; Samples.laboratory].

Definition quiet_report : Document :=
  mkDocument "out/66.html" "<html>...</html>" (Ok quiet_tables).

Definition quiet_result : Series * Frame * Frame :=
  match snd (process_report Samples.strict quiet_report) with
  | Ok t => t
  | Raise _ => (empty_series, empty_frame, empty_frame)
  end.

(** What [process_report] makes of the complete report. *)
Definition good_result : Series * Frame * Frame :=
  match snd (process_report Samples.strict Samples.good_report) with
  | Ok t => t
  | Raise _ => (empty_series, empty_frame, empty_frame)
  end.

End Pages.

(** * Sample sites and output directories *)

Module Traffic.

(** A version of Python whose only decimal digits are given as ASCII, with
    the usual limit on the digits of a number. *)
Definition python : Python := mkPython (fun _ => None) 4300.

Definition empty_dir : World := mkWorld (fun _ => None) [] [].

(** An output directory that holds report 1 and the summary of 77. *)
Definition resumed_dir : World :=
  mkWorld (fun p => if String.eqb p "out/1.html" then Some "<html>1</html>"
                    else if String.eqb p "out/summary_77.lst"
                    then Some ("5" +++ line_feed +++ "6" +++ line_feed)
                    else None) [] [].

Definition full_report_link (report_id : string) : string :=
  "<a href=" +++ String double_quote ("javascript:open('" +++ report_id +++ "')")
    +++ String double_quote ">Full report</a>".

(** A site that answers every request with a page of two links. *)
Definition site (n : nat) (url : string) : result string :=
  Ok ("<td>" +++ full_report_link "31" +++ "</td><td>" +++ full_report_link "32"
        +++ "</td>").

(** A site whose summaries link to no report. *)
Definition site_without_reports (n : nat) (url : string) : result string :=
  Ok "<html>No report</html>".

(** A site that is down. *)
Definition offline (n : nat) (url : string) : result string :=
  Raise (OtherError "ConnectionError").

(** A site that answers the first request and then goes down. *)
Definition flaky (n : nat) (url : string) : result string :=
  if n =? 0 then Ok "<html>first</html>" else Raise (OtherError "ConnectionError").

Definition summary_url : string :=
  "https://www.oie.int/wahis_2/public/wahid.php/Reviewreport/Review/summary?reportid=77".

(** The pages of two years: the second row of the first year and the first
    row of the second year have a blank country cell. *)
Definition pages : list (list (string * option string)) :=
  [[(" Viet Nam ", Some summary_url); (EmptyString, Some "https://www.oie.int/?reportid=78")];
   [("  ", Some "https://www.oie.int/?reportid=79"); ("China", None)]].

Definition browser : Browser :=
  mkBrowser (fun _ _ => Ok tt) (fun n _ => Ok (map shown (nth n pages []))) (Ok tt).

End Traffic.

(** * Properties *)

(** ** Results and loops *)

Lemma bind_raises {A B : Type} (c : result A) (k : A -> result B) :
  raises c -> raises (bind c k).
Proof. intros [e ->]. now exists e. Qed.

Lemma bind_Ok_inv {A B : Type} (c : result A) (k : A -> result B) (b : B) :
  bind c k = Ok b -> exists a, c = Ok a /\ k a = Ok b.
Proof. destruct c as [a | e]; simpl; [eauto | discriminate]. Qed.

Lemma foldM_app {A B : Type} (body : A -> B -> result A) (xs ys : list B) (acc : A) :
  foldM body (xs ++ ys) acc = (acc' <- foldM body xs acc ;; foldM body ys acc').
Proof.
  revert acc. induction xs as [| x xs IH]; intros acc; simpl; [reflexivity |].
  destruct (body acc x) as [acc' | e]; simpl; [apply IH | reflexivity].
Qed.

(** A loop ends in an exception when one of its iterations raises whatever
    the state it starts in: either that one, or an earlier one. *)
Lemma foldM_raises_at {A B : Type} (body : A -> B -> result A)
    (xs : list B) (y : B) (ys : list B) (acc : A) :
  (forall a, raises (body a y)) -> raises (foldM body (xs ++ y :: ys) acc).
Proof.
  intros Hy. rewrite foldM_app.
  destruct (foldM body xs acc) as [acc' | e]; simpl; [| now exists e].
  apply bind_raises, Hy.
Qed.

(** An iteration that leaves the state alone can be skipped. *)
Lemma foldM_skip {A B : Type} (body : A -> B -> result A) (xs : list B) (acc : A) :
  Forall (fun x => body acc x = Ok acc) xs -> foldM body xs acc = Ok acc.
Proof.
  induction 1 as [| x xs Hx _ IH]; simpl; [reflexivity |].
  rewrite Hx. exact IH.
Qed.

(** ** Cells and labels *)

Lemma cell_eqb_eq (a b : cell) : cell_eqb a b = true <-> a = b.
Proof.
  destruct a, b; simpl; split; intros H; try discriminate; try reflexivity.
  - apply String.eqb_eq in H. now subst.
  - injection H as ->. apply String.eqb_refl.
  - apply Z.eqb_eq in H. now subst.
  - injection H as ->. apply Z.eqb_refl.
Qed.

Lemma cell_eqb_refl (a : cell) : cell_eqb a a = true.
Proof. now apply cell_eqb_eq. Qed.

Lemma cell_eqb_neq (a b : cell) : cell_eqb a b = false <-> a <> b.
Proof.
  split.
  - intros H E. apply cell_eqb_eq in E. congruence.
  - intros H. destruct (cell_eqb a b) eqn:E; [| reflexivity].
    apply cell_eqb_eq in E. contradiction.
Qed.

Lemma cell_eqb_sym (a b : cell) : cell_eqb a b = cell_eqb b a.
Proof.
  destruct (cell_eqb a b) eqn:E.
  - apply cell_eqb_eq in E. subst. symmetry. apply cell_eqb_refl.
  - symmetry. apply cell_eqb_neq. apply cell_eqb_neq in E. congruence.
Qed.

Lemma mem_In (c : cell) (l : list cell) : mem c l = true <-> In c l.
Proof.
  unfold mem. rewrite existsb_exists. split.
  - intros [x [Hx E]]. apply cell_eqb_eq in E. now subst.
  - intros H. exists c. split; [exact H | apply cell_eqb_refl].
Qed.

Lemma mem_not_In (c : cell) (l : list cell) : mem c l = false <-> ~ In c l.
Proof.
  split.
  - intros H HI. apply mem_In in HI. congruence.
  - intros H. destruct (mem c l) eqn:E; [| reflexivity].
    apply mem_In in E. contradiction.
Qed.

Lemma nodupb_NoDup (l : list cell) : nodupb l = true <-> NoDup l.
Proof.
  induction l as [| c l IH]; simpl.
  - split; [constructor | reflexivity].
  - rewrite andb_true_iff, negb_true_iff, mem_not_In, IH. split.
    + intros [H1 H2]. now constructor.
    + intros H. inversion H. now split.
Qed.

(** ** zip(tables, tables[1:]) *)

Lemma adjacent_at {A : Type} (l : list A) (i : nat) (x y : A) :
  nth_error l i = Some x -> nth_error l (S i) = Some y ->
  exists before after, combine l (tl l) = before ++ (x, y) :: after.
Proof.
  revert i. induction l as [| a l IH]; intros i Hx Hy.
  - destruct i; discriminate.
  - destruct i as [| i].
    + injection Hx as ->. simpl in Hy. destruct l as [| b l]; [discriminate |].
      injection Hy as ->. eexists [], _. reflexivity.
    + simpl in Hx, Hy. destruct (IH i Hx Hy) as [before [after E]].
      destruct l as [| b l]; [destruct i; discriminate |].
      exists ((a, b) :: before), after. simpl. simpl in E. now rewrite E.
Qed.

(** The tables in first position of a pair are all the tables but the last. *)
Lemma adjacent_firsts {A : Type} (l : list A) (z : A) :
  map fst (combine (l ++ [z]) (tl (l ++ [z]))) = l.
Proof.
  induction l as [| a l IH]; [reflexivity |].
  destruct l as [| b l]; [reflexivity |].
  simpl. simpl in IH. now rewrite IH.
Qed.

Section Pairing.

Variable lib : Library.

(** ** get_outbreaks: the pairing rule *)

(** The loop body raises on an outbreak header whose neighbour is not a
    species table, whatever was collected before. *)
Lemma outbreaks_body_mismatch (country : item) (h s : RawTable) (label digits : string) :
  loc h 0 0 = Ok (Str label) ->
  match_outbreak label = Some digits ->
  loc s 0 0 <> Ok (Str "Species") ->
  forall acc, raises (outbreaks_body lib country acc (h, s)).
Proof.
  intros Hh Hm Hs acc. unfold outbreaks_body. rewrite Hh. simpl. rewrite Hm.
  destruct (loc s 0 0) as [c | e] eqn:E; simpl; [| now exists e].
  destruct (cell_eqb c (Str "Species")) eqn:Ec.
  - apply cell_eqb_eq in Ec. subst c. contradiction.
  - now exists AssertionError.
Qed.

(** C5. Whenever a table at position [i] starts with a text that matches
    "Outbreak <integer>" and the table at position [i+1] does not start with
    the text "Species", [get_outbreaks] ends in an exception: the pair is
    never skipped. *)
Theorem outbreak_header_requires_species
    (tables : list RawTable) (report_id : string) (country : item)
    (i : nat) (h s : RawTable) (label digits : string) :
  nth_error tables i = Some h ->
  nth_error tables (S i) = Some s ->
  loc h 0 0 = Ok (Str label) ->
  match_outbreak label = Some digits ->
  loc s 0 0 <> Ok (Str "Species") ->
  raises (get_outbreaks lib tables report_id country).
Proof.
  intros Hi HSi Hh Hm Hs.
  destruct (adjacent_at tables i h s Hi HSi) as [before [after E]].
  unfold get_outbreaks. rewrite E.
  apply bind_raises, foldM_raises_at.
  now apply outbreaks_body_mismatch with (label := label) (digits := digits).
Qed.

(** A table that is no outbreak header leaves the loop state alone. *)
Lemma outbreaks_body_plain (country : item) (acc : list Frame) (h s : RawTable) :
  plain h -> outbreaks_body lib country acc (h, s) = Ok acc.
Proof.
  intros [c [Hc Hd]]. unfold outbreaks_body. rewrite Hc. simpl.
  destruct c as [l | z |]; simpl in *; [now rewrite Hd | reflexivity | reflexivity].
Qed.

(** The pairs of a document that ends with [last; final]. *)
Lemma adjacent_last {A : Type} (init : list A) (last final : A) :
  combine ((init ++ [last]) ++ [final]) (tl ((init ++ [last]) ++ [final])) =
  combine (init ++ [last]) (tl (init ++ [last])) ++ [(last, final)].
Proof.
  induction init as [| a init IH]; [reflexivity |].
  destruct init as [| b init]; [reflexivity |].
  simpl. simpl in IH. now rewrite IH.
Qed.

(** C9. The tables that the loop of [get_outbreaks] tests as outbreak headers
    are all the tables but the last one.  So a final table that starts with
    "Outbreak <integer>" yields neither rows nor an exception of its own:
    when no table before it is an outbreak header the result is the empty
    frame, and when the table just before it is no outbreak header the result
    is the same whatever the final table is. *)
Theorem last_table_is_never_a_header
    (tables : list RawTable) (final : RawTable) (report_id : string) (country : item) :
  map fst (combine (tables ++ [final]) (tl (tables ++ [final]))) = tables /\
  (Forall plain tables ->
   get_outbreaks lib (tables ++ [final]) report_id country = Ok empty_frame) /\
  (forall init last other,
     tables = init ++ [last] -> plain last ->
     get_outbreaks lib (tables ++ [final]) report_id country =
     get_outbreaks lib (tables ++ [other]) report_id country).
Proof.
  split; [apply adjacent_firsts |]. split.
  - intros Hplain. unfold get_outbreaks.
    rewrite foldM_skip; [reflexivity |].
    apply Forall_forall. intros [h s] Hin.
    apply outbreaks_body_plain.
    apply (in_map fst) in Hin. rewrite adjacent_firsts in Hin. simpl in Hin.
    rewrite Forall_forall in Hplain. now apply Hplain.
  - intros init last other -> Hlast. unfold get_outbreaks.
    rewrite !adjacent_last, !foldM_app.
    destruct (foldM (outbreaks_body lib country)
                (combine (init ++ [last]) (tl (init ++ [last]))) []) as [acc | e];
      [| reflexivity].
    cbn [bind foldM]. now rewrite !outbreaks_body_plain.
Qed.

(** The pairs before the pair that starts at a given table. *)
Lemma adjacent_split {A : Type} (before : list A) (x y : A) (after : list A) :
  combine (before ++ x :: y :: after) (tl (before ++ x :: y :: after)) =
  combine (before ++ [x]) (tl (before ++ [x])) ++ (x, y) :: combine (y :: after) after.
Proof.
  induction before as [| a before IH]; [reflexivity |].
  destruct before as [| b before]; [reflexivity |].
  simpl. simpl in IH. now rewrite IH.
Qed.

(** An exception of the pair at [h], once the pairs before it have passed,
    is the result of [get_outbreaks]. *)
Lemma get_outbreaks_raises_at
    (before : list RawTable) (h s : RawTable) (after : list RawTable)
    (report_id : string) (country : item) (acc : list Frame) (e : exn) :
  foldM (outbreaks_body lib country) (combine (before ++ [h]) (tl (before ++ [h]))) []
    = Ok acc ->
  outbreaks_body lib country acc (h, s) = Raise e ->
  get_outbreaks lib (before ++ h :: s :: after) report_id country = Raise e.
Proof.
  intros Hpre Hbody. unfold get_outbreaks.
  rewrite adjacent_split, foldM_app, Hpre. cbn [bind foldM]. now rewrite Hbody.
Qed.

(** The header of an outbreak as a series: "Location" for its first label. *)
Lemma header_series (width : nat) (r0 : list cell) (rest : list (list cell)) :
  2 <= width ->
  set_index_0_column_1 (set_loc (Grid width (r0 :: rest)) 0 0 (Str "Location")) =
  Ok (mkSeries (Some (Int 1))
        ((Str "Location", nth 1 r0 NaN)
           :: map (fun r => (nth 0 r NaN, nth 1 r NaN)) rest)).
Proof.
  intros Hw. simpl.
  destruct width as [| [| w]]; [lia | lia |]. reflexivity.
Qed.

Lemma header_series_narrow (width : nat) (cells : list (list cell)) (v : cell) :
  width < 2 -> set_index_0_column_1 (set_loc (Grid width cells) 0 0 v) = Raise KeyError.
Proof.
  intros Hw. unfold set_loc. destruct (nth_error cells 0); simpl;
    destruct width as [| [| w]]; try lia; reflexivity.
Qed.

(** C3 (amended). The header's "Affected animals" entry is deleted
    unconditionally: for an outbreak header followed by its species table,
    when no row of the header below the first is labelled "Affected animals",
    [get_outbreaks] raises [KeyError]. *)
Theorem affected_animals_is_required
    (before : list RawTable) (h s : RawTable) (after : list RawTable)
    (report_id : string) (country : item)
    (label digits : string) (acc : list Frame) :
  foldM (outbreaks_body lib country) (combine (before ++ [h]) (tl (before ++ [h]))) []
    = Ok acc ->
  loc h 0 0 = Ok (Str label) ->
  match_outbreak label = Some digits ->
  loc s 0 0 = Ok (Str "Species") ->
  ~ In (Str "Affected animals") (tl (label_column h)) ->
  get_outbreaks lib (before ++ h :: s :: after) report_id country = Raise KeyError.
Proof.
  intros Hpre Hh Hm Hs Hno.
  apply get_outbreaks_raises_at with (acc := acc); [exact Hpre |].
  unfold outbreaks_body. rewrite Hh. simpl. rewrite Hm, Hs. simpl.
  destruct h as [width cells |]; [| discriminate].
  destruct cells as [| r0 rest]; [discriminate |].
  unfold outbreak_frame.
  destruct (Nat.lt_ge_cases width 2) as [Hw | Hw].
  - now rewrite header_series_narrow.
  - rewrite header_series by exact Hw. simpl.
    unfold series_getattr, select. simpl.
    set (others := filter (fun kv : cell * cell => cell_eqb (fst kv) (Str "Location"))
                     (map (fun r => (nth 0 r NaN, nth 1 r NaN)) rest)).
    assert (Hlabels : forall v,
      series_del (series_set (mkSeries (Some (Int 1))
                    ((Str "Location", nth 1 r0 NaN)
                       :: map (fun r => (nth 0 r NaN, nth 1 r NaN)) rest))
                    (Str "Location") v) (Str "Affected animals") = Raise KeyError).
    { intros v. unfold series_set, series_del, labels. simpl.
      rewrite map_map. simpl.
      replace (mem (Str "Affected animals")
                 (map (fun x : cell * cell =>
                         fst (if cell_eqb (fst x) (Str "Location") then (fst x, v) else x))
                      (map (fun r => (nth 0 r NaN, nth 1 r NaN)) rest)))
        with false; [reflexivity |].
      symmetry. apply mem_not_In. intros Hin. apply Hno. simpl.
      rewrite map_map in Hin. apply in_map_iff in Hin. destruct Hin as [r [Er Hr]].
      apply in_map_iff. exists r. split; [| exact Hr].
      simpl in Er. destruct (cell_eqb (nth 0 r NaN) (Str "Location")); exact Er. }
    destruct others as [| kv others]; simpl; now rewrite Hlabels.
Qed.

End Pairing.

(** C5 at a report whose second outbreak header is followed by the
    laboratory table. *)
Lemma outbreak_header_requires_species_witness :
  raises (get_outbreaks Samples.strict Samples.bad_tables "456" (One (Str " Viet Nam"))).
Proof.
  apply (outbreak_header_requires_species Samples.strict Samples.bad_tables "456"
           (One (Str " Viet Nam")) 5 Samples.outbreak2 Samples.laboratory
           "Outbreak 2" "2");
    try reflexivity.
  discriminate.
Defined.

(** C9 at documents that end with an outbreak header: one without any other
    header, and the complete sample report followed by a stray header. *)
Lemma last_table_is_never_a_header_witness :
  map fst (combine ([Samples.banner; Samples.disease_country] ++ [Samples.outbreak1])
             (tl ([Samples.banner; Samples.disease_country] ++ [Samples.outbreak1])))
    = [Samples.banner; Samples.disease_country] /\
  get_outbreaks Samples.strict
    ([Samples.banner; Samples.disease_country] ++ [Samples.outbreak1])
    "123" (One (Str " Viet Nam")) = Ok empty_frame /\
  get_outbreaks Samples.strict (Samples.good_tables ++ [Samples.outbreak1])
    "123" (One (Str " Viet Nam")) =
  get_outbreaks Samples.strict (Samples.good_tables ++ [Headed])
    "123" (One (Str " Viet Nam")).
Proof.
  destruct (last_table_is_never_a_header Samples.strict
              [Samples.banner; Samples.disease_country] Samples.outbreak1
              "123" (One (Str " Viet Nam"))) as [H1 [H2 _]].
  destruct (last_table_is_never_a_header Samples.strict
              Samples.good_tables Samples.outbreak1
              "123" (One (Str " Viet Nam"))) as [_ [_ H3]].
  split; [exact H1 |]. split.
  - apply H2. repeat constructor.
    + exists (Str "WAHIS"). split; reflexivity.
    + exists (Str "Summary"). split; reflexivity.
  - apply (H3 [Samples.banner; Samples.disease_country; Samples.report_type;
               Samples.outbreak1; Samples.species1; Samples.outbreak2;
               Samples.species2]
              Samples.laboratory Headed eq_refl).
    exists (Str "Laboratory name and type"). split; reflexivity.
Defined.

(** C3 as stated fails: a header without "Affected animals" ends the
    extraction with [KeyError]. *)
Lemma affected_animals_counterexample :
  get_outbreaks Samples.strict
    [Samples.banner; Samples.outbreak_no_total; Samples.species1]
    "123" (One (Str " Viet Nam")) = Raise KeyError.
Proof. reflexivity. Qed.

Lemma affected_animals_is_required_witness :
  get_outbreaks Samples.strict
    ([Samples.banner] ++ Samples.outbreak_no_total :: Samples.species1 :: [Samples.laboratory])
    "123" (One (Str " Viet Nam")) = Raise KeyError.
Proof.
  apply (affected_animals_is_required Samples.strict [Samples.banner]
           Samples.outbreak_no_total Samples.species1 [Samples.laboratory]
           "123" (One (Str " Viet Nam")) "Outbreak 1" "1" []);
    try reflexivity.
  simpl. intros [H | []]. discriminate H.
Defined.

(** ** process_reports: what an exception does to the batch *)

Section Batch.

Variable lib : Library.

Lemma run_reports_raises (before : list Document) (doc : Document)
    (after : list Document) (e : exn) :
  Forall (succeeds lib) before ->
  snd (process_report lib doc) = Raise e ->
  run_reports lib (before ++ doc :: after) =
  (flat_map (fun d => fst (process_report lib d)) before ++ fst (process_report lib doc),
   Raise e).
Proof.
  intros Hbefore Hdoc. induction Hbefore as [| d before Hd _ IH]; simpl.
  - destruct (process_report lib doc) as [log r]. simpl in Hdoc. now subst r.
  - destruct Hd as [t Hd].
    destruct (process_report lib d) as [log r]. simpl in Hd. subst r.
    rewrite IH. simpl. now rewrite app_assoc.
Qed.

(** C1 (amended). An exception of one report is the result of the whole
    batch: when the reports before it succeed and [process_report] raises on
    it, [process_reports] raises the same exception, returns no table, and
    never reads the reports after it (the log ends with the failing one). *)
Theorem report_failure_ends_the_batch
    (before : list Document) (doc : Document) (after : list Document) (e : exn) :
  Forall (succeeds lib) before ->
  snd (process_report lib doc) = Raise e ->
  process_reports lib (before ++ doc :: after) =
  (flat_map (fun d => fst (process_report lib d)) before ++ fst (process_report lib doc),
   Raise e).
Proof.
  intros Hbefore Hdoc. unfold process_reports.
  now rewrite (run_reports_raises before doc after e Hbefore Hdoc).
Qed.

End Batch.

(** C1 as stated fails: the report with the missing species table takes the
    complete report that follows it down with it. *)
Lemma batch_isolation_counterexample :
  process_reports Samples.strict [Samples.bad_report; Samples.good_report] =
  ([(DEBUG, "Reading out/456.html")], Raise AssertionError).
Proof. reflexivity. Qed.

Lemma report_failure_ends_the_batch_witness :
  process_reports Samples.strict
    ([Samples.good_report] ++ Samples.bad_report :: [Samples.good_report]) =
  (flat_map (fun d => fst (process_report Samples.strict d)) [Samples.good_report]
     ++ fst (process_report Samples.strict Samples.bad_report),
   Raise AssertionError).
Proof.
  apply (report_failure_ends_the_batch Samples.strict [Samples.good_report]
           Samples.bad_report [Samples.good_report] AssertionError).
  - repeat constructor. eexists. reflexivity.
  - reflexivity.
Defined.

(** ** get_details: the report record *)

Lemma partition_at (sep : ascii) (a b : string) :
  occurs sep a = false ->
  partition sep (a +++ String sep b) = (a, String sep EmptyString, b).
Proof.
  induction a as [| c a IH]; simpl; intros H.
  - now rewrite Ascii.eqb_refl.
  - apply orb_false_iff in H. destruct H as [Hc Ha].
    rewrite Hc, (IH Ha). reflexivity.
Qed.

Lemma combine_columns (cells : list (list cell)) :
  map (fun r => (nth 0 r NaN, nth 1 r NaN)) cells =
  combine (map (fun r => nth 0 r NaN) cells) (map (fun r => nth 1 r NaN) cells).
Proof. induction cells as [| r cells IH]; simpl; [reflexivity | now rewrite IH]. Qed.

(** One iteration of the loop of [get_details] appends the rows of a
    metadata table and nothing else. *)
Lemma details_body_items (out : Series) (table : RawTable) :
  readable table ->
  exists out', details_body out table = Ok out' /\
               items out' = items out ++ metadata_fields table.
Proof.
  intros [c [Hc Hv]]. unfold details_body, metadata_fields, is_metadata_table.
  rewrite Hc. cbn [bind]. destruct (mem c metadata_labels) eqn:Em.
  - destruct (Hv eq_refl) as [v Hloc].
    destruct table as [width cells |]; [| discriminate].
    simpl in Hloc. destruct cells as [| r0 rest]; [discriminate |].
    simpl in Hloc. unfold set_index_0_column_1.
    destruct width as [| [| w]]; try discriminate. cbn [Nat.leb bind].
    eexists. split; [reflexivity |]. cbn [series_append items label_column value_column].
    now rewrite combine_columns.
  - exists out. split; [reflexivity | now rewrite app_nil_r].
Qed.

Lemma details_loop_items (tables : list RawTable) (out : Series) :
  Forall readable tables ->
  exists out', foldM details_body tables out = Ok out' /\
               items out' = items out ++ flat_map metadata_fields tables.
Proof.
  intros H. revert out. induction H as [| t tables Ht _ IH]; intros out; simpl.
  - exists out. split; [reflexivity | now rewrite app_nil_r].
  - destruct (details_body_items out t Ht) as [out1 [E1 I1]]. rewrite E1. simpl.
    destruct (IH out1) as [out2 [E2 I2]]. exists out2. split; [exact E2 |].
    now rewrite I2, I1, app_assoc.
Qed.

(** C7 (amended). The report record holds one entry per metadata row, in
    document order, after "Disease", "Country" and "Url": a label that
    recurs is held once per occurrence, each with its own value; nothing is
    overwritten. *)
Theorem details_keep_every_occurrence
    (tables : list RawTable) (report_id : string) (table1 : RawTable) (s : string) :
  nth_error tables 1 = Some table1 ->
  loc table1 0 1 = Ok (Str s) ->
  Forall readable tables ->
  get_details tables report_id =
  Ok (mkSeries (Some (Str report_id))
        ([(Str "Disease", Str (fst (fst (partition "," s))));
          (Str "Country", Str (snd (partition "," s)));
          (Str "Url", Str (REPORT_URL report_id))]
           ++ flat_map metadata_fields tables)).
Proof.
  intros H1 Hs Hread. unfold get_details, nth_table. rewrite H1. simpl.
  rewrite Hs. simpl. destruct (partition "," s) as [[disease found] country].
  match goal with
  | |- context [foldM details_body tables ?o] =>
      destruct (details_loop_items tables o Hread) as [out [E I]]; rewrite E
  end.
  simpl. now rewrite I.
Qed.

(** C2 (amended). When row 0, column 1 of [tables[1]] is a text with a
    comma, the record starts with the disease, the text before the first
    comma, and the country, the text after it exactly as it stands: nothing
    is trimmed. *)
Theorem details_split_on_first_comma
    (tables : list RawTable) (report_id : string) (table1 : RawTable)
    (before after : string) :
  nth_error tables 1 = Some table1 ->
  loc table1 0 1 = Ok (Str (before +++ String "," after)) ->
  occurs "," before = false ->
  Forall readable tables ->
  exists fields,
    get_details tables report_id =
    Ok (mkSeries (Some (Str report_id))
          ((Str "Disease", Str before) :: (Str "Country", Str after)
             :: (Str "Url", Str (REPORT_URL report_id)) :: fields)).
Proof.
  intros H1 Hs Hcomma Hread. unfold get_details, nth_table. rewrite H1. simpl.
  rewrite Hs. simpl. rewrite (partition_at "," before after Hcomma).
  match goal with
  | |- context [foldM details_body tables ?o] =>
      destruct (details_loop_items tables o Hread) as [out [E I]]; rewrite E
  end.
  simpl. rewrite I. eexists. reflexivity.
Qed.

Ltac all_readable :=
  repeat constructor;
  (eexists; split; [reflexivity | intros _; eexists; reflexivity]).

(** C2 as stated fails on the specification's own example: the country keeps
    the space that follows the comma, and the text is read from column 1 (a
    table with the text in its only cell raises [KeyError]). *)
Lemma details_split_counterexample :
  get_details [Samples.banner; Samples.spec_example] "12345" =
    Ok (mkSeries (Some (Str "12345"))
          [(Str "Disease", Str "African swine fever");
           (Str "Country", Str " Viet Nam");
           (Str "Url", Str (REPORT_URL "12345"))]) /\
  get_details [Samples.banner; Samples.spec_example_one_cell] "12345" = Raise KeyError.
Proof. split; reflexivity. Qed.

Lemma details_split_on_first_comma_witness :
  exists fields,
    get_details Samples.good_tables "123" =
    Ok (mkSeries (Some (Str "123"))
          ((Str "Disease", Str "African swine fever") :: (Str "Country", Str " Viet Nam")
             :: (Str "Url", Str (REPORT_URL "123")) :: fields)).
Proof.
  apply (details_split_on_first_comma Samples.good_tables "123"
           Samples.disease_country "African swine fever" " Viet Nam");
    try reflexivity.
  all_readable.
Defined.

(** C7 as stated fails: a label met in two metadata rows is held twice. *)
Lemma details_last_seen_counterexample :
  match get_details [Samples.banner; Samples.disease_country;
                     Samples.report_type; Samples.measures] "123" with
  | Ok out => select (Str "Report date") out
  | Raise _ => []
  end = [(Str "Report date", Str "01/02/2019"); (Str "Report date", Str "02/02/2019")].
Proof. reflexivity. Qed.

Lemma details_keep_every_occurrence_witness :
  get_details [Samples.banner; Samples.disease_country;
               Samples.report_type; Samples.measures] "123" =
  Ok (mkSeries (Some (Str "123"))
        ([(Str "Disease",
           Str (fst (fst (partition "," "African swine fever, Viet Nam"))));
          (Str "Country", Str (snd (partition "," "African swine fever, Viet Nam")));
          (Str "Url", Str (REPORT_URL "123"))]
           ++ flat_map metadata_fields
                [Samples.banner; Samples.disease_country;
                 Samples.report_type; Samples.measures])).
Proof.
  apply (details_keep_every_occurrence
           [Samples.banner; Samples.disease_country; Samples.report_type; Samples.measures]
           "123" Samples.disease_country "African swine fever, Viet Nam");
    try reflexivity.
  all_readable.
Defined.

(** ** process_report: the report identifier *)

Lemma append_empty (s : string) : s +++ EmptyString = s.
Proof. induction s as [| c s IH]; simpl; [reflexivity | now rewrite IH]. Qed.

Lemma append_assoc (a b c : string) : (a +++ b) +++ c = a +++ (b +++ c).
Proof. induction a as [| x a IH]; simpl; [reflexivity | now rewrite IH]. Qed.

Lemma findall_from_digits (run ds rest : string) :
  all_chars is_digit ds = true ->
  findall_from run (ds +++ rest) = findall_from (run +++ ds) rest.
Proof.
  revert run. induction ds as [| c ds IH]; simpl; intros run H.
  - now rewrite append_empty.
  - apply andb_true_iff in H. destruct H as [Hc Hds]. rewrite Hc.
    rewrite (IH _ Hds), append_assoc. reflexivity.
Qed.

Lemma findall_from_skip (pre rest : string) :
  all_chars (fun c => negb (is_digit c)) pre = true ->
  findall_from EmptyString (pre +++ rest) = findall_from EmptyString rest.
Proof.
  induction pre as [| c pre IH]; simpl; intros H; [reflexivity |].
  apply andb_true_iff in H. destruct H as [Hc Hpre].
  apply negb_true_iff in Hc. rewrite Hc. simpl. now apply IH.
Qed.

(** The first match of [[0-9]+] in a text is its first maximal run of digits. *)
Lemma findall_first_run (pre ds post : string) :
  all_chars (fun c => negb (is_digit c)) pre = true ->
  all_chars is_digit ds = true ->
  ds <> EmptyString ->
  ends_run post = true ->
  exists more, findall_digits (pre +++ ds +++ post) = ds :: more.
Proof.
  intros Hpre Hds Hne Hpost. unfold findall_digits.
  rewrite (findall_from_skip pre _ Hpre), (findall_from_digits _ ds post Hds). simpl.
  destruct post as [| c post]; simpl.
  - exists []. unfold flush. destruct ds; [contradiction | reflexivity].
  - simpl in Hpost. apply negb_true_iff in Hpost. rewrite Hpost.
    eexists. unfold flush. destruct ds; [contradiction | reflexivity].
Qed.

Section Identifier.

Variable lib : Library.

(** The first maximal run of digits of a path is its report identifier. *)
Lemma first_run_is_report_id (p pre ds post : string) :
  p = pre +++ ds +++ post ->
  all_chars (fun c => negb (is_digit c)) pre = true ->
  all_chars is_digit ds = true ->
  ds <> EmptyString ->
  ends_run post = true ->
  report_id_of p = Ok ds.
Proof.
  intros Hpath Hpre Hds Hne Hpost.
  destruct (findall_first_run pre ds post Hpre Hds Hne Hpost) as [more Hfind].
  unfold report_id_of. now rewrite Hpath, Hfind.
Qed.

End Identifier.

(** ** Frames: columns that leave for the index *)

Lemma label_rows_cons (start : nat) (r : list cell) (rs : list (list cell)) :
  label_rows start (r :: rs) = ([Int (Z.of_nat start)], r) :: label_rows (S start) rs.
Proof. reflexivity. Qed.

Lemma label_rows_single_level (start : nat) (rs : list (list cell)) :
  forallb (fun kr : list cell * list cell => List.length (fst kr) =? 1)
          (label_rows start rs) = true.
Proof.
  revert start. induction rs as [| r rs IH]; intros start; [reflexivity |].
  rewrite label_rows_cons. simpl. apply IH.
Qed.

(** Dropping the key columns of a row leaves the row, when no other column
    carries the label of a key. *)
Lemma drop_no_key (keys cols row : list cell) :
  (forall c, In c cols -> mem c keys = false) ->
  List.length row = List.length cols ->
  map snd (filter (fun cv : cell * cell => negb (mem (fst cv) keys)) (combine cols row))
  = row.
Proof.
  revert row. induction cols as [| c cols IH]; intros row Hk Hlen.
  - destruct row; [reflexivity | discriminate].
  - destruct row as [| v row]; [discriminate |].
    simpl. rewrite (Hk c (or_introl eq_refl)). simpl.
    f_equal. apply IH; [intros x Hx; apply Hk; now right | now injection Hlen].
Qed.

Lemma drop_key_head (keys : list cell) (k v : cell) (rest : list (cell * cell)) :
  mem k keys = true ->
  filter (fun cv : cell * cell => negb (mem (fst cv) keys)) ((k, v) :: rest) =
  filter (fun cv : cell * cell => negb (mem (fst cv) keys)) rest.
Proof. intros H. simpl. now rewrite H. Qed.

Lemma filter_key_head (keys : list cell) (k : cell) (cols : list cell) :
  mem k keys = true ->
  filter (fun c => negb (mem c keys)) (k :: cols) =
  filter (fun c => negb (mem c keys)) cols.
Proof. intros H. simpl. now rewrite H. Qed.

Lemma filter_no_key (keys cols : list cell) :
  (forall c, In c cols -> mem c keys = false) ->
  filter (fun c => negb (mem c keys)) cols = cols.
Proof.
  induction cols as [| c cols IH]; intros Hk; [reflexivity |].
  simpl. rewrite (Hk c (or_introl eq_refl)). simpl.
  f_equal. apply IH. intros x Hx. apply Hk. now right.
Qed.

Lemma count_label_absent (c : cell) (cols : list cell) :
  ~ In c cols -> count_label c cols = 0.
Proof.
  unfold count_label. induction cols as [| k cols IH]; intros H; [reflexivity |].
  simpl. destruct (cell_eqb c k) eqn:E.
  - apply cell_eqb_eq in E. subst. exfalso. apply H. now left.
  - apply IH. intros Hin. apply H. now right.
Qed.

Lemma row_cells_length (width : nat) (r : list cell) :
  List.length (row_cells width r) = width.
Proof. unfold row_cells. now rewrite length_map, length_seq. Qed.

(** ** get_tests: the test sequence number *)

Section Tests.

Variable lib : Library.

Lemma promote_header_first_cell (table : RawTable) :
  has_first_cell table -> exists df, promote_header table = Ok df.
Proof.
  intros [c Hc]. destruct table as [width [| r0 rest] |]; try discriminate.
  eexists. reflexivity.
Qed.

Lemma tests_loop_total (tables : list RawTable) (state : option Frame) :
  Forall has_first_cell tables ->
  exists state', foldM tests_body tables state = Ok state'.
Proof.
  intros H. revert state. induction H as [| t tables Ht _ IH]; intros state; simpl.
  - now exists state.
  - unfold tests_body at 1. destruct (promote_header_first_cell t Ht) as [df Hdf].
    destruct Ht as [c Hc]. rewrite Hc. cbn [bind].
    destruct (cell_eqb c (Str "Laboratory name and type")).
    + rewrite Hdf. cbn [bind]. apply IH.
    + cbn [bind]. apply IH.
Qed.

Lemma tests_loop_skip (tables : list RawTable) (state : option Frame) :
  Forall not_laboratory tables -> foldM tests_body tables state = Ok state.
Proof.
  intros H. apply foldM_skip. apply Forall_impl with (2 := H).
  intros t [c [Hc Hne]]. unfold tests_body. rewrite Hc. cbn [bind].
  apply cell_eqb_neq in Hne. now rewrite Hne.
Qed.

(** The rows of the laboratory table after [insert], [reset_index] and
    [set_index]: each keeps its cells and is keyed by the report and by the
    label it had in the parsed table. *)
Lemma test_rows (rid : string) (cols : list cell) (rs : list (list cell))
    (renumbered start : nat) :
  Forall (fun r => List.length r = List.length cols) rs ->
  ~ In (Str "Report ID") cols ->
  ~ In (Str "Test #") cols ->
  map (fun kr : list cell * list cell =>
         (map (value_at (Str "Test #" :: Str "Report ID" :: cols) (snd kr))
              [Str "Report ID"; Str "Test #"],
          map snd (filter (fun cv : cell * cell =>
                             negb (mem (fst cv) [Str "Report ID"; Str "Test #"]))
                          (combine (Str "Test #" :: Str "Report ID" :: cols) (snd kr)))))
      (label_rows renumbered
         (map (fun kr : list cell * list cell => hd NaN (fst kr) :: snd kr)
            (map (fun kr : list cell * list cell =>
                    (fst kr, insert_at 0 (Str rid) (snd kr)))
               (label_rows start rs))))
  = combine (map (fun i => [Str rid; Int (Z.of_nat i)]) (seq start (List.length rs))) rs.
Proof.
  intros Hlen HR HT. revert renumbered start.
  induction Hlen as [| r rs Hr _ IH]; intros renumbered start; [reflexivity |].
  rewrite label_rows_cons. cbn [map fst snd hd]. rewrite label_rows_cons.
  cbn [map fst snd List.length seq combine]. rewrite IH. f_equal.
  unfold insert_at. cbn [firstn skipn app combine].
  rewrite !drop_key_head by reflexivity.
  f_equal. apply drop_no_key; [| exact Hr].
  intros c Hc. apply mem_not_In. intros [E | [E | []]]; subst c; contradiction.
Qed.

(** Lines 83-88 on the promoted laboratory table: the rows keep their cells
    and are keyed by the report and by their labels 1, 2, ... *)
Lemma keyed_tests (rid : string) (cols : list cell) (rs : list (list cell)) :
  Forall (fun r => List.length r = List.length cols) rs ->
  ~ In (Str "Report ID") cols ->
  ~ In (Str "index") cols ->
  ~ In (Str "Test #") cols ->
  (test_table <- insert (mkFrame cols (label_rows 1 rs)) 0 (Str "Report ID") (Str rid) ;;
   test_table <- reset_index lib test_table ;;
   set_index lib (rename_column test_table (Str "index") (Str "Test #"))
             [Str "Report ID"; Str "Test #"])
  = Ok (mkFrame cols
          (combine (map (fun i => [Str rid; Int (Z.of_nat i)]) (seq 1 (List.length rs)))
                   rs)).
Proof.
  intros Hlen HR HI HT.
  unfold insert. cbn [columns rows].
  apply mem_not_In in HR. rewrite HR. cbn [Nat.ltb Nat.leb bind].
  unfold reset_index. cbn [columns rows].
  assert (Hlevels :
    forallb (fun kr : list cell * list cell => List.length (fst kr) =? 1)
      (map (fun kr : list cell * list cell => (fst kr, insert_at 0 (Str rid) (snd kr)))
         (label_rows 1 rs)) = true).
  { rewrite forallb_forall. intros kr Hin. apply in_map_iff in Hin.
    destruct Hin as [kr0 [<- Hin0]]. simpl.
    pose proof (label_rows_single_level 1 rs) as Hall.
    rewrite forallb_forall in Hall. now apply Hall. }
  rewrite Hlevels.
  assert (Hindex : mem (Str "index") (insert_at 0 (Str "Report ID") cols) = false).
  { apply mem_not_In. unfold insert_at. simpl.
    intros [E | Hin]; [discriminate | contradiction]. }
  rewrite Hindex, Hindex. cbn [bind].
  unfold rename_column. cbn [columns rows].
  assert (Hrename :
    map (fun c => if cell_eqb c (Str "index") then Str "Test #" else c)
        (Str "index" :: insert_at 0 (Str "Report ID") cols)
    = Str "Test #" :: Str "Report ID" :: cols).
  { unfold insert_at. simpl. f_equal. f_equal.
    clear -HI. induction cols as [| c cols IH]; [reflexivity |].
    simpl. destruct (cell_eqb c (Str "index")) eqn:E.
    - apply cell_eqb_eq in E. subst c. exfalso. apply HI. now left.
    - f_equal. apply IH. intros Hin. apply HI. now right. }
  rewrite Hrename. unfold set_index. cbn [columns rows].
  assert (Hhave :
    forallb (fun k => mem k (Str "Test #" :: Str "Report ID" :: cols))
            [Str "Report ID"; Str "Test #"] = true) by reflexivity.
  rewrite Hhave. cbn [negb].
  assert (Honce :
    forallb (fun k => count_label k (Str "Test #" :: Str "Report ID" :: cols) =? 1)
            [Str "Report ID"; Str "Test #"] = true).
  { unfold count_label. simpl. fold (count_label (Str "Report ID") cols).
    fold (count_label (Str "Test #") cols).
    apply mem_not_In in HR.
    now rewrite (count_label_absent _ _ HR), (count_label_absent _ _ HT). }
  rewrite Honce. f_equal. f_equal.
  - rewrite !filter_key_head by reflexivity. apply filter_no_key.
    intros c Hc. apply mem_not_In. apply mem_not_In in HR.
    intros [E | [E | []]]; subst c; contradiction.
  - rewrite test_rows; [reflexivity | exact Hlen | | exact HT].
    now apply mem_not_In in HR.
Qed.

(** C4 (amended). The test sequence number of a data row is the label the
    row has in the parsed laboratory table, whose row 0 is the header row:
    for M data rows the numbers are 1, 2, ..., M, and the result is keyed by
    (report_id, test sequence number). *)
Theorem test_numbers_start_at_one
    (before : list RawTable) (width : nat) (header : list cell)
    (data : list (list cell)) (after : list RawTable) (report_id : string) :
  Forall has_first_cell before ->
  Forall not_laboratory after ->
  0 < width ->
  nth 0 header NaN = Str "Laboratory name and type" ->
  ~ In (Str "Report ID") (row_cells width header) ->
  ~ In (Str "index") (row_cells width header) ->
  ~ In (Str "Test #") (row_cells width header) ->
  get_tests lib (before ++ Grid width (header :: data) :: after) report_id =
  Ok (mkFrame (row_cells width header)
        (combine
           (map (fun i => [Str report_id; Int (Z.of_nat i)]) (seq 1 (List.length data)))
           (map (row_cells width) data))).
Proof.
  intros Hbefore Hafter Hw Hlab HR HI HT. unfold get_tests.
  rewrite foldM_app.
  destruct (tests_loop_total before None Hbefore) as [state Hstate].
  rewrite Hstate. cbn [bind foldM]. unfold tests_body at 1.
  assert (Hloc : loc (Grid width (header :: data)) 0 0
                 = Ok (Str "Laboratory name and type")).
  { simpl. apply Nat.ltb_lt in Hw. now rewrite Hw, Hlab. }
  rewrite Hloc. cbn [bind cell_eqb]. rewrite String.eqb_refl.
  cbn [promote_header bind]. rewrite (tests_loop_skip after _ Hafter). cbn [bind].
  rewrite keyed_tests; try assumption.
  - now rewrite length_map.
  - apply Forall_forall. intros r Hin. apply in_map_iff in Hin.
    destruct Hin as [r0 [<- _]]. now rewrite !row_cells_length.
Qed.

End Tests.

(** C4 as stated fails: two data rows are numbered 1 and 2, not 0 and 1. *)
Lemma test_numbers_counterexample :
  match get_tests Samples.strict Samples.good_tables "123" with
  | Ok df => index df
  | Raise _ => []
  end = [[Str "123"; Int 1]; [Str "123"; Int 2]].
Proof. reflexivity. Qed.

Lemma test_numbers_start_at_one_witness :
  get_tests Samples.strict Samples.good_tables "123" =
  Ok (mkFrame (row_cells 2 [Str "Laboratory name and type"; Str "Result"])
        (combine
           (map (fun i => [Str "123"; Int (Z.of_nat i)]) (seq 1 2))
           (map (row_cells 2)
                [[Str "NCVD (National laboratory)"; Str "Positive"];
                 [Str "RAHO6 (Regional laboratory)"; Str "Positive"]]))).
Proof.
  apply (test_numbers_start_at_one Samples.strict
           [Samples.banner; Samples.disease_country; Samples.report_type;
            Samples.outbreak1; Samples.species1; Samples.outbreak2; Samples.species2]
           2 [Str "Laboratory name and type"; Str "Result"]
           [[Str "NCVD (National laboratory)"; Str "Positive"];
            [Str "RAHO6 (Regional laboratory)"; Str "Positive"]]
           [] "123").
  - repeat constructor; eexists; reflexivity.
  - constructor.
  - lia.
  - reflexivity.
  - simpl. intros [H | [H | []]]; discriminate H.
  - simpl. intros [H | [H | []]]; discriminate H.
  - simpl. intros [H | [H | []]]; discriminate H.
Defined.

(** ** The union of column labels *)

Lemma add_new_In (c : cell) (cols acc : list cell) :
  In c (add_new acc cols) <-> In c acc \/ In c cols.
Proof.
  unfold add_new. revert acc. induction cols as [| k cols IH]; intros acc; simpl.
  - tauto.
  - rewrite IH. destruct (mem k acc) eqn:E.
    + apply mem_In in E. split; [tauto |].
      intros [H | [H | H]]; [tauto | subst; tauto | tauto].
    + rewrite in_app_iff. simpl. tauto.
Qed.

Lemma add_new_prefix (cols acc : list cell) :
  exists extra, add_new acc cols = acc ++ extra.
Proof.
  unfold add_new. revert acc. induction cols as [| k cols IH]; intros acc; simpl.
  - exists []. now rewrite app_nil_r.
  - destruct (mem k acc).
    + apply IH.
    + destruct (IH (acc ++ [k])) as [extra E]. exists (k :: extra).
      rewrite E, <- app_assoc. reflexivity.
Qed.

Lemma add_new_NoDup (cols acc : list cell) :
  NoDup acc -> NoDup (add_new acc cols).
Proof.
  unfold add_new. revert acc. induction cols as [| k cols IH]; intros acc H; simpl.
  - exact H.
  - destruct (mem k acc) eqn:E; apply IH; [exact H |].
    apply mem_not_In in E. apply NoDup_app; [exact H | repeat constructor; tauto |].
    intros x Hx [Hk | []]. now subst.
Qed.

Lemma union_from_In (c : cell) (ls : list (list cell)) (acc : list cell) :
  In c (fold_left add_new ls acc) <-> In c acc \/ exists l, In l ls /\ In c l.
Proof.
  revert acc. induction ls as [| l ls IH]; intros acc; simpl.
  - split; [tauto | intros [H | [l [[] _]]]; exact H].
  - rewrite IH, add_new_In. split.
    + intros [[H | H] | [l' [H1 H2]]]; [tauto | right; exists l; tauto |].
      right. exists l'. tauto.
    + intros [H | [l' [[H1 | H1] H2]]]; [tauto | subst; tauto |].
      right. exists l'. tauto.
Qed.

Lemma union_all_In (c : cell) (ls : list (list cell)) :
  In c (union_all ls) <-> exists l, In l ls /\ In c l.
Proof. unfold union_all. rewrite union_from_In. simpl. tauto. Qed.

Lemma union_from_NoDup (ls : list (list cell)) (acc : list cell) :
  NoDup acc -> NoDup (fold_left add_new ls acc).
Proof.
  revert acc. induction ls as [| l ls IH]; intros acc H; simpl; [exact H |].
  apply IH, add_new_NoDup, H.
Qed.

Lemma union_all_NoDup (ls : list (list cell)) : NoDup (union_all ls).
Proof. apply union_from_NoDup. constructor. Qed.

Lemma union_from_prefix (ls : list (list cell)) (acc : list cell) :
  exists extra, fold_left add_new ls acc = acc ++ extra.
Proof.
  revert acc. induction ls as [| l ls IH]; intros acc; simpl.
  - exists []. now rewrite app_nil_r.
  - destruct (add_new_prefix l acc) as [e1 E1]. rewrite E1.
    destruct (IH (acc ++ e1)) as [e2 E2]. rewrite E2.
    exists (e1 ++ e2). now rewrite app_assoc.
Qed.

(** The first label of the first list is the first label of the union. *)
Lemma union_all_head (x : cell) (l : list cell) (ls : list (list cell)) :
  exists others, union_all ((x :: l) :: ls) = x :: others.
Proof.
  change (union_all ((x :: l) :: ls)) with (fold_left add_new ls (add_new [x] l)).
  destruct (add_new_prefix l [x]) as [e1 E1]. rewrite E1.
  destruct (union_from_prefix ls ([x] ++ e1)) as [e2 E2]. rewrite E2.
  eexists. simpl. reflexivity.
Qed.

(** ** Rows under other columns *)

Lemma lookup_In (cols row : list cell) (c v : cell) :
  lookup cols row c = Some v -> In v row.
Proof.
  revert row. induction cols as [| k cols IH]; intros row H; [discriminate |].
  destruct row as [| x row]; [discriminate |]. simpl in H.
  destruct (cell_eqb k c).
  - injection H as ->. now left.
  - right. now apply IH.
Qed.

Lemma realign_holds (cols row newcols : list cell) (c : cell) :
  In c newcols -> In (value_at cols row c) (realign cols row newcols).
Proof. intros H. unfold realign. now apply in_map. Qed.

Lemma realign_nothing (newcols : list cell) :
  forallb is_nan (realign [] [] newcols) = true.
Proof. unfold realign. induction newcols as [| c cs IH]; [reflexivity | exact IH]. Qed.

Lemma forallb_is_nan_false (row : list cell) (v : cell) :
  In v row -> is_nan v = false -> forallb is_nan row = false.
Proof.
  intros Hin Hv. destruct (forallb is_nan row) eqn:E; [| reflexivity].
  rewrite forallb_forall in E. rewrite (E v Hin) in Hv. discriminate.
Qed.

(** ** process_reports: the placeholder page *)

Section Placeholder.

Variable lib : Library.

Lemma process_report_placeholder (doc : Document) :
  is_placeholder doc = true ->
  process_report lib doc =
  ([(DEBUG, "Reading " +++ path doc);
    (WARNING, "Report in " +++ path doc +++ " was affected by an Application Error")],
   Ok (empty_series, empty_frame, empty_frame)).
Proof.
  unfold is_placeholder, process_report.
  destruct (read_html doc) as [tables | e]; [discriminate |].
  destruct e; try discriminate. now intros ->.
Qed.

Lemma run_reports_Ok (docs : list Document) (log : list log_record)
    (triples : list (Series * Frame * Frame)) :
  run_reports lib docs = (log, Ok triples) ->
  Forall2 (fun d t => snd (process_report lib d) = Ok t) docs triples /\
  log = flat_map (fun d => fst (process_report lib d)) docs.
Proof.
  revert log triples. induction docs as [| d docs IH]; intros log triples H; simpl in H.
  - injection H as <- <-. split; [constructor | reflexivity].
  - destruct (process_report lib d) as [log1 r] eqn:Ed.
    destruct r as [t | e]; [| discriminate].
    destruct (run_reports lib docs) as [log2 rs].
    destruct rs as [ts | e]; [| discriminate].
    simpl in H. injection H as <- <-.
    destruct (IH log2 ts eq_refl) as [HF Hlog]. split.
    + constructor; [now rewrite Ed | exact HF].
    + simpl. now rewrite Ed, Hlog.
Qed.

Lemma details_body_extends (out out' : Series) (table : RawTable) :
  details_body out table = Ok out' -> exists extra, items out' = items out ++ extra.
Proof.
  unfold details_body. intros H.
  apply bind_Ok_inv in H. destruct H as [c [_ H]].
  destruct (mem c metadata_labels).
  - apply bind_Ok_inv in H. destruct H as [fields [_ H]]. injection H as <-.
    now exists (items fields).
  - injection H as <-. exists []. now rewrite app_nil_r.
Qed.

Lemma details_loop_extends (tables : list RawTable) (out out' : Series) :
  foldM details_body tables out = Ok out' -> exists extra, items out' = items out ++ extra.
Proof.
  revert out. induction tables as [| t tables IH]; intros out H; simpl in H.
  - injection H as <-. exists []. now rewrite app_nil_r.
  - apply bind_Ok_inv in H. destruct H as [out1 [H1 H2]].
    destruct (details_body_extends _ _ _ H1) as [e1 E1].
    destruct (IH _ H2) as [e2 E2]. exists (e1 ++ e2).
    now rewrite E2, E1, app_assoc.
Qed.

(** The record of a report that was read: it is named after the report and
    its third entry is the URL. *)
Lemma get_details_shape (tables : list RawTable) (rid : string) (details : Series) :
  get_details tables rid = Ok details ->
  exists d c rest,
    details = mkSeries (Some (Str rid))
                ((Str "Disease", d) :: (Str "Country", c)
                   :: (Str "Url", Str (REPORT_URL rid)) :: rest).
Proof.
  unfold get_details. intros H.
  apply bind_Ok_inv in H. destruct H as [table1 [_ H]].
  apply bind_Ok_inv in H. destruct H as [c [_ H]].
  destruct c as [s | z |]; try discriminate.
  destruct (partition "," s) as [[disease found] country].
  apply bind_Ok_inv in H. destruct H as [out [Hout H]].
  injection H as <-.
  destruct (details_loop_extends _ _ _ Hout) as [extra E].
  rewrite E. simpl. now eexists _, _, _.
Qed.

(** What [process_report] returns is the empty triple of a placeholder, or
    holds the record of a parsed document. *)
Lemma process_report_Ok (doc : Document) (t : Series * Frame * Frame) :
  snd (process_report lib doc) = Ok t ->
  (parsed doc = false /\ fst (fst t) = empty_series) \/
  (parsed doc = true /\
   exists rid d c rest,
     report_id_of (path doc) = Ok rid /\
     fst (fst t) = mkSeries (Some (Str rid))
                     ((Str "Disease", d) :: (Str "Country", c)
                        :: (Str "Url", Str (REPORT_URL rid)) :: rest)).
Proof.
  unfold process_report, parsed.
  destruct (read_html doc) as [tables | e].
  - intros H. right. split; [reflexivity |]. simpl in H. unfold tabulate in H.
    apply bind_Ok_inv in H. destruct H as [rid [Hrid H]].
    apply bind_Ok_inv in H. destruct H as [details [Hd H]].
    apply bind_Ok_inv in H. destruct H as [country [_ H]].
    apply bind_Ok_inv in H. destruct H as [o0 [_ H]].
    apply bind_Ok_inv in H. destruct H as [t0 [_ H]].
    apply bind_Ok_inv in H. destruct H as [o1 [_ H]].
    apply bind_Ok_inv in H. destruct H as [t1 [_ H]].
    injection H as <-. simpl.
    destruct (get_details_shape _ _ _ Hd) as [d [c [rest E]]].
    now exists rid, d, c, rest.
  - intros H. left. split; [reflexivity |].
    destruct e; try discriminate.
    destruct (contains "Application Error" (body doc)); [| discriminate].
    simpl in H. now injection H as <-.
Qed.

(** The rows that [dropna] keeps are those of the parsed documents, keyed by
    their report identifiers. *)
Lemma kept_report_rows (docs : list Document) (triples : list (Series * Frame * Frame))
    (cols : list cell) (num : Z) :
  Forall2 (fun d t => snd (process_report lib d) = Ok t) docs triples ->
  (forall t, In t triples -> In (Str "Url") (labels (fst (fst t))) -> In (Str "Url") cols) ->
  map fst
    (filter (fun kr : list cell * list cell => negb (forallb is_nan (snd kr)))
       (combine (series_keys num (map (fun t => fst (fst t)) triples))
          (map (fun s => realign (labels s) (values s) cols)
               (map (fun t => fst (fst t)) triples))))
  = map report_key (filter parsed docs).
Proof.
  intros HF. revert num. induction HF as [| d t docs triples Hd _ IH]; intros num Hurl.
  - reflexivity.
  - assert (Hrest : forall t0, In t0 triples ->
                      In (Str "Url") (labels (fst (fst t0))) -> In (Str "Url") cols).
    { intros t0 Hin. apply Hurl. now right. }
    destruct (process_report_Ok d t Hd) as [[Hp Et] | [Hp [rid [dv [cv [rest [Hrid Et]]]]]]].
    + cbn [map filter]. rewrite Hp, Et. unfold empty_series.
      cbn [series_keys name combine filter labels values items map snd].
      rewrite realign_nothing. cbn [negb]. now apply IH.
    + cbn [map filter]. rewrite Hp, Et. cbn [series_keys name combine filter snd].
      rewrite (forallb_is_nan_false _ (Str (REPORT_URL rid))); [| | reflexivity].
      * cbn [negb map fst]. rewrite (IH _ Hrest). f_equal.
        unfold report_key. now rewrite Hrid.
      * change (Str (REPORT_URL rid)) with
          (value_at (labels (mkSeries (Some (Str rid))
                       ((Str "Disease", dv) :: (Str "Country", cv)
                          :: (Str "Url", Str (REPORT_URL rid)) :: rest)))
                    (values (mkSeries (Some (Str rid))
                       ((Str "Disease", dv) :: (Str "Country", cv)
                          :: (Str "Url", Str (REPORT_URL rid)) :: rest)))
                    (Str "Url")).
        apply realign_holds. apply (Hurl t); [now left |].
        rewrite Et. simpl. tauto.
Qed.

Lemma records_unrepeated (docs : list Document)
    (triples : list (Series * Frame * Frame)) :
  Forall2 (fun d t => snd (process_report lib d) = Ok t) docs triples ->
  unrepeated_labels lib docs ->
  forallb (fun s => nodupb (labels s)) (map (fun t => fst (fst t)) triples) = true.
Proof.
  intros HF. induction HF as [| d t docs triples Hd _ IH]; intros Hall; [reflexivity |].
  cbn [map forallb]. apply andb_true_iff. split.
  - destruct t as [[details o] t]. apply (Hall d details o t); [now left | exact Hd].
  - apply IH. intros d0 details o0 t0 Hin. apply Hall. now right.
Qed.

(** C6. A document without tables whose body holds the application-error
    marker yields the empty triple and a warning, without an exception; and
    in the [reports] table of a batch that holds it, the rows are exactly
    those of the documents that were parsed: the placeholder has none. *)
Theorem placeholder_report_is_dropped
    (doc : Document) (before after : list Document) :
  is_placeholder doc = true ->
  process_report lib doc =
    ([(DEBUG, "Reading " +++ path doc);
      (WARNING, "Report in " +++ path doc +++ " was affected by an Application Error")],
     Ok (empty_series, empty_frame, empty_frame)) /\
  forall log reports outbreaks tests,
    process_reports lib (before ++ doc :: after) = (log, Ok (reports, outbreaks, tests)) ->
    unrepeated_labels lib (before ++ after) ->
    In (WARNING, "Report in " +++ path doc +++ " was affected by an Application Error") log /\
    index reports = map report_key (filter parsed (before ++ after)).
Proof.
  intros Hplace. pose proof (process_report_placeholder doc Hplace) as Hdoc.
  split; [exact Hdoc |].
  intros log reports outbreaks tests H Hlabels. unfold process_reports in H.
  destruct (run_reports lib (before ++ doc :: after)) as [log' rs] eqn:Erun.
  injection H as <- H.
  apply bind_Ok_inv in H. destruct H as [triples [-> H]].
  destruct (run_reports_Ok _ _ _ Erun) as [HF Hlog]. split.
  - rewrite Hlog, flat_map_app. apply in_or_app. right. simpl.
    rewrite Hdoc. simpl. tauto.
  - unfold assemble in H. destruct triples as [| t0 triples0] eqn:Et; [discriminate |].
    rewrite <- Et in *. clear Et t0 triples0.
    apply bind_Ok_inv in H. destruct H as [reports0 [Hrep H]].
    apply bind_Ok_inv in H. destruct H as [o [_ H]].
    apply bind_Ok_inv in H. destruct H as [t [_ H]].
    injection H as <- _ _.
    assert (Hall : unrepeated_labels lib (before ++ doc :: after)).
    { intros d details o' t' Hin Hd. apply in_app_or in Hin.
      destruct Hin as [Hin | [<- | Hin]].
      - apply (Hlabels d details o' t'); [apply in_or_app; now left | exact Hd].
      - rewrite Hdoc in Hd. simpl in Hd. now injection Hd as <- _ _.
      - apply (Hlabels d details o' t'); [apply in_or_app; now right | exact Hd]. }
    pose proof (records_unrepeated _ _ HF Hall) as Hnodup.
    unfold concat_series in Hrep.
    destruct (map (fun t => fst (fst t)) triples) as [| s0 ss0] eqn:Ess;
      [discriminate |].
    rewrite <- Ess in *. rewrite Hnodup in Hrep. injection Hrep as <-.
    unfold index, dropna_all. cbn [rows columns].
    rewrite (kept_report_rows _ _ _ _ HF).
    + rewrite !filter_app. cbn [filter].
      unfold parsed at 2. unfold is_placeholder in Hplace.
      destruct (read_html doc); [discriminate | reflexivity].
    + intros t1 Hin Hurl. apply union_all_In.
      exists (labels (fst (fst t1))). split; [| exact Hurl].
      apply in_map. apply (in_map (fun t => fst (fst t))). exact Hin.
Qed.

End Placeholder.

Ltac report_labels :=
  intros d details o t [<- | []] H; vm_compute in H;
  injection H as <- _ _; reflexivity.

Lemma placeholder_report_is_dropped_witness :
  process_report Samples.strict Samples.placeholder =
    ([(DEBUG, "Reading " +++ path Samples.placeholder);
      (WARNING, "Report in " +++ path Samples.placeholder
                  +++ " was affected by an Application Error")],
     Ok (empty_series, empty_frame, empty_frame)) /\
  In (WARNING, "Report in " +++ path Samples.placeholder
                 +++ " was affected by an Application Error")
     (fst (process_reports Samples.strict
             ([Samples.good_report] ++ Samples.placeholder :: []))) /\
  match snd (process_reports Samples.strict
               ([Samples.good_report] ++ Samples.placeholder :: [])) with
  | Ok (reports, _, _) => index reports
  | Raise _ => []
  end = map report_key (filter parsed ([Samples.good_report] ++ [])).
Proof.
  destruct (placeholder_report_is_dropped Samples.strict Samples.placeholder
              [Samples.good_report] [] eq_refl) as [H1 H2].
  split; [exact H1 |].
  destruct (process_reports Samples.strict
              ([Samples.good_report] ++ Samples.placeholder :: []))
    as [log [[[reports outbreaks] tests] | e]] eqn:E.
  - apply (H2 log reports outbreaks tests eq_refl). report_labels.
  - vm_compute in E. discriminate E.
Defined.

(** ** get_outbreaks: the rows of a valid document *)

Lemma lookup_app (cols cols' row row' : list cell) (c : cell) :
  List.length row = List.length cols ->
  lookup (cols ++ cols') (row ++ row') c =
  match lookup cols row c with
  | Some v => Some v
  | None => lookup cols' row' c
  end.
Proof.
  revert row. induction cols as [| k cols IH]; intros row Hlen.
  - destruct row; [reflexivity | discriminate].
  - destruct row as [| v row]; [discriminate |]. simpl.
    destruct (cell_eqb k c); [reflexivity |]. apply IH. now injection Hlen.
Qed.

Lemma map_fst_filter {A B : Type} (f : A -> bool) (l : list (A * B)) :
  map fst (filter (fun kv => f (fst kv)) l) = filter f (map fst l).
Proof.
  induction l as [| [a b] l IH]; [reflexivity |]. simpl.
  destruct (f a); simpl; now rewrite IH.
Qed.

Lemma filter_absent (k : cell) (its : list (cell * cell)) :
  ~ In k (map fst its) ->
  filter (fun kv : cell * cell => cell_eqb (fst kv) k) its = [].
Proof.
  induction its as [| [a b] its IH]; intros H; [reflexivity |]. simpl.
  destruct (cell_eqb a k) eqn:E.
  - apply cell_eqb_eq in E. subst. exfalso. apply H. now left.
  - apply IH. intros Hin. apply H. now right.
Qed.

Lemma overwrite_absent (k v : cell) (its : list (cell * cell)) :
  ~ In k (map fst its) ->
  map (fun kv : cell * cell => if cell_eqb (fst kv) k then (fst kv, v) else kv) its = its.
Proof.
  induction its as [| [a b] its IH]; intros H; [reflexivity |]. simpl.
  destruct (cell_eqb a k) eqn:E.
  - apply cell_eqb_eq in E. subst. exfalso. apply H. now left.
  - f_equal. apply IH. intros Hin. apply H. now right.
Qed.

(** Fresh labels add their columns at the end, in order. *)
Lemma set_columns_fresh (its : list (cell * cell)) (cols : list cell)
    (rs : list (list cell * list cell)) :
  NoDup (cols ++ map fst its) ->
  fold_left (fun df kv => set_column df (fst kv) (snd kv)) its (mkFrame cols rs) =
  mkFrame (cols ++ map fst its)
          (map (fun kr => (fst kr, snd kr ++ map snd its)) rs).
Proof.
  revert cols rs. induction its as [| [k v] its IH]; intros cols rs Hnd.
  - simpl. rewrite app_nil_r. f_equal.
    rewrite <- (map_id rs) at 1. apply map_ext. intros [key row]. simpl.
    now rewrite app_nil_r.
  - cbn [fold_left fst snd map]. unfold set_column at 2. cbn [columns rows].
    assert (Hk : mem k cols = false).
    { apply mem_not_In. intros Hin. apply NoDup_remove_2 in Hnd. apply Hnd.
      apply in_or_app. now left. }
    rewrite Hk, IH.
    + rewrite <- app_assoc, map_map. f_equal. apply map_ext. intros [key row].
      simpl. now rewrite <- app_assoc.
    + rewrite <- app_assoc. exact Hnd.
Qed.

Lemma label_rows_map (f : list cell -> list cell) (start : nat) (rs : list (list cell)) :
  map (fun kr : list cell * list cell => (fst kr, f (snd kr))) (label_rows start rs) =
  label_rows start (map f rs).
Proof.
  revert start. induction rs as [| r rs IH]; intros start; [reflexivity |].
  cbn [map]. rewrite !label_rows_cons. cbn [map fst snd]. now rewrite IH.
Qed.

Lemma label_rows_keys (start : nat) (rs : list (list cell)) :
  map fst (label_rows start rs) =
  map (fun i => [Int (Z.of_nat i)]) (seq start (List.length rs)).
Proof.
  revert start. induction rs as [| r rs IH]; intros start; [reflexivity |].
  rewrite label_rows_cons. cbn [map fst List.length seq]. now rewrite IH.
Qed.

Lemma label_rows_values (start : nat) (rs : list (list cell)) :
  map snd (label_rows start rs) = rs.
Proof.
  revert start. induction rs as [| r rs IH]; intros start; [reflexivity |].
  rewrite label_rows_cons. cbn [map snd]. now rewrite IH.
Qed.

Lemma broadcast_fields_labels (country : string) (h : RawTable) :
  map fst (broadcast_fields country h) = broadcast_labels h.
Proof.
  unfold broadcast_fields, broadcast_labels. cbn [map fst]. f_equal.
  rewrite (map_fst_filter (fun k => negb (is_affected_animals k))). f_equal.
  destruct h as [width cells |]; [| reflexivity]. simpl.
  destruct cells as [| r0 rest]; [reflexivity |]. simpl.
  rewrite <- combine_columns, map_map. reflexivity.
Qed.

(** ** The header of the specification and the pattern of the program *)

Lemma numeral_digit_is_digit (c : ascii) : numeral_digit c = is_digit c.
Proof. destruct c as [[] [] [] [] [] [] [] []]; reflexivity. Qed.

Lemma leading_numeral_span (s : string) : leading_numeral s = fst (span_digits s).
Proof.
  induction s as [| c s IH]; [reflexivity |].
  cbn [leading_numeral span_digits]. rewrite numeral_digit_is_digit.
  destruct (is_digit c); [| reflexivity].
  rewrite IH. destruct (span_digits s). reflexivity.
Qed.

Lemma substring_whole (s : string) : String.substring 0 (String.length s) s = s.
Proof. induction s as [| c s IH]; [reflexivity |]. cbn. now rewrite IH. Qed.

Lemma strip_prefix_substring (p : string) : forall s,
  strip_prefix p s =
  if String.prefix p s
  then Some (String.substring (String.length p) (String.length s - String.length p) s)
  else None.
Proof.
  induction p as [| a p IH]; intros s.
  - cbn [strip_prefix String.length]. rewrite Nat.sub_0_r, substring_whole.
    destruct s; reflexivity.
  - destruct s as [| b s]; [reflexivity |].
    cbn [strip_prefix String.prefix String.length String.substring Nat.sub].
    destruct (Ascii.eqb_spec a b) as [-> | Hne].
    + destruct (ascii_dec b b) as [_ | Hn]; [apply IH | contradiction].
    + destruct (ascii_dec a b) as [E | _]; [contradiction | reflexivity].
Qed.

Lemma span_digits_digits (s : string) : all_chars is_digit (fst (span_digits s)) = true.
Proof.
  induction s as [| c s IH]; [reflexivity |]. cbn [span_digits].
  destruct (is_digit c) eqn:E; [| reflexivity].
  destruct (span_digits s) as [ds tl]. cbn in *. now rewrite E.
Qed.

(** A text of digits is a numeral of the standard library. *)
Lemma digits_numeral (ds : string) :
  all_chars is_digit ds = true -> exists d, ds = NilEmpty.string_of_uint d.
Proof.
  induction ds as [| c ds IH]; intros H.
  - exists Decimal.Nil. reflexivity.
  - cbn in H. apply andb_true_iff in H. destruct H as [Hc Hds].
    destruct (IH Hds) as [d ->].
    destruct c as [[] [] [] [] [] [] [] []]; try discriminate Hc;
      first [ now exists (Decimal.D0 d) | now exists (Decimal.D1 d)
            | now exists (Decimal.D2 d) | now exists (Decimal.D3 d)
            | now exists (Decimal.D4 d) | now exists (Decimal.D5 d)
            | now exists (Decimal.D6 d) | now exists (Decimal.D7 d)
            | now exists (Decimal.D8 d) | now exists (Decimal.D9 d) ].
Qed.

Lemma int_from_positive (d : Decimal.uint) : forall z acc,
  z = Z.pos acc ->
  int_from z (NilEmpty.string_of_uint d) = Z.pos (Pos.of_uint_acc d acc).
Proof.
  induction d; intros z acc ->;
    cbn [NilEmpty.string_of_uint int_from Pos.of_uint_acc];
    try reflexivity;
    apply IHd;
    match goal with
    | |- context [digit_value ?c] =>
        let x := eval vm_compute in (digit_value c) in change (digit_value c) with x
    end; lia.
Qed.

(** The program reads a numeral as the standard library does. *)
Lemma int_of_numeral (d : Decimal.uint) :
  int_of_digits (NilEmpty.string_of_uint d) = Z.of_uint d.
Proof.
  unfold int_of_digits, Z.of_uint.
  induction d; cbn [NilEmpty.string_of_uint int_from Pos.of_uint];
    try reflexivity;
    match goal with
    | |- context [digit_value ?c] =>
        let x := eval vm_compute in (digit_value c) in change (digit_value c) with x
    end;
    first [ exact IHd | apply int_from_positive; reflexivity ].
Qed.

Lemma announced_numeral_match (s : string) :
  announced_numeral (Str s) =
  match match_outbreak s with
  | Some ds => ds
  | None => EmptyString
  end.
Proof.
  unfold announced_numeral, match_outbreak. rewrite strip_prefix_substring.
  change (String.length "Outbreak ") with 9.
  destruct (String.prefix "Outbreak " s); [| reflexivity].
  rewrite leading_numeral_span.
  destruct (span_digits _) as [ds tl]. cbn [fst].
  destruct ds; reflexivity.
Qed.

Lemma match_outbreak_digits (s ds : string) :
  match_outbreak s = Some ds -> all_chars is_digit ds = true /\ is_empty ds = false.
Proof.
  unfold match_outbreak. destruct (strip_prefix "Outbreak " s) as [rest |]; [| discriminate].
  pose proof (span_digits_digits rest) as H.
  destruct (span_digits rest) as [ds' tl]. cbn [fst] in H.
  destruct (is_empty ds') eqn:E; [discriminate |].
  intros [= <-]. split; assumption.
Qed.

(** The header of the specification is what the pattern of line 48 matches,
    and its number is what line 62 computes. *)
Lemma announced_match (s : string) :
  announced (Str s) = option_map int_of_digits (match_outbreak s).
Proof.
  unfold announced. rewrite announced_numeral_match.
  destruct (match_outbreak s) as [ds |] eqn:E; [| reflexivity].
  destruct (match_outbreak_digits s ds E) as [Hds Hne]. rewrite Hne.
  destruct (digits_numeral ds Hds) as [d ->].
  rewrite NilEmpty.usu. cbn [option_map]. rewrite int_of_numeral. reflexivity.
Qed.

Lemma announced_other (c : cell) : is_str c = false -> announced c = None.
Proof. destruct c; [discriminate | reflexivity | reflexivity]. Qed.

Lemma ordinary_plain (h : RawTable) : ordinary h <-> plain h.
Proof.
  unfold ordinary, plain. split; intros [c [Hc H]]; exists c; (split; [exact Hc |]).
  - destruct c as [s | z |]; [| reflexivity | reflexivity].
    rewrite announced_match in H. cbn [outbreak_digits].
    destruct (match_outbreak s); [discriminate | reflexivity].
  - destruct c as [s | z |]; [| reflexivity | reflexivity].
    rewrite announced_match. cbn [outbreak_digits] in H. now rewrite H.
Qed.

Section Outbreaks.

Variable lib : Library.

Lemma outbreak_number_of (h : RawTable) (label digits : string) :
  loc h 0 0 = Ok (Str label) -> match_outbreak label = Some digits ->
  outbreak_number h = int_of_digits digits.
Proof.
  intros Hh Hm. unfold outbreak_number. now rewrite Hh, announced_match, Hm.
Qed.

(** [int] reads a numeral of at most 640 digits whatever its limit. *)
Lemma int_of_match_short (digits : string) :
  String.length digits <= 640 -> int_of_match lib digits = Ok (int_of_digits digits).
Proof.
  intros H. unfold int_of_match.
  assert (E : (640 <? String.length digits) = false) by (apply Nat.ltb_ge; exact H).
  now rewrite E.
Qed.

(** The frame of a well-formed pair. *)
Lemma outbreak_frame_well_formed (country label digits : string) (h s : RawTable) :
  loc h 0 0 = Ok (Str label) ->
  match_outbreak label = Some digits ->
  String.length digits <= 640 ->
  well_formed_pair (h, s) ->
  outbreak_frame lib digits (One (Str country)) h s = Ok (pair_frame country (h, s)).
Proof.
  intros Hh Hm Hshort [[place Hv] [Hs [Hstr [Haa [Hnd Hnames]]]]].
  cbn [fst snd] in *.
  destruct h as [width [| r0 rest] |]; try discriminate.
  destruct s as [swidth [| s0 srest] |]; try discriminate.
  assert (Hw : 2 <= width).
  { simpl in Hv. destruct (1 <? width) eqn:E; [| discriminate].
    apply Nat.ltb_lt in E. lia. }
  assert (Hplace : nth 1 r0 NaN = Str place).
  { simpl in Hv. destruct (1 <? width); [| discriminate]. now injection Hv. }
  unfold outbreak_frame. rewrite (header_series width r0 rest Hw). cbn [bind].
  cbn [label_column value_column tl map] in *.
  set (its := map (fun r : list cell => (nth 0 r NaN, nth 1 r NaN)) rest) in *.
  assert (Hkeys : map fst its = map (fun r => nth 0 r NaN) rest).
  { unfold its. rewrite map_map. reflexivity. }
  assert (Hloc : ~ In (Str "Location") (map fst its)).
  { rewrite Hkeys. now inversion Hnd. }
  unfold series_getattr, select. cbn [items filter fst cell_eqb].
  rewrite String.eqb_refl, (filter_absent _ _ Hloc). rewrite Hplace.
  cbn [bind str_of str_item py_str].
  unfold series_set, labels. cbn [items map fst mem existsb cell_eqb].
  rewrite String.eqb_refl. cbn [orb name].
  rewrite (overwrite_absent _ _ _ Hloc).
  unfold series_del, labels. cbn [items map fst name].
  assert (Hmem : mem (Str "Affected animals") (Str "Location" :: map fst its) = true).
  { apply mem_In. right. now rewrite Hkeys. }
  rewrite Hmem. cbn [bind promote_header].
  rewrite (int_of_match_short digits Hshort). cbn [bind].
  unfold insert. cbn [columns rows].
  assert (Hfresh : mem (Str "Outbreak #") (row_cells swidth s0) = false).
  { apply mem_not_In. intros Hin. inversion Hnames as [| ? ? Hno _]. apply Hno.
    right. unfold field_names. cbn [fst snd species_columns].
    apply in_or_app. now left. }
  rewrite Hfresh. cbn [Nat.ltb Nat.leb bind].
  cbn [filter fst cell_eqb]. change (String.eqb "Location" "Affected animals") with false.
  cbn [negb].
  assert (Hfields :
    (Str "Location", Str (place +++ ", " +++ country))
      :: filter (fun kv : cell * cell => negb (cell_eqb (fst kv) (Str "Affected animals")))
           its
    = broadcast_fields country (Grid width (r0 :: rest))).
  { unfold broadcast_fields, raw_location.
    cbn [value_column label_column map hd combine tl].
    rewrite Hplace. now rewrite <- combine_columns. }
  rewrite Hfields.
  assert (Hnd' : NoDup (Str "Outbreak #" :: field_names
                          (Grid width (r0 :: rest), Grid swidth (s0 :: srest)))).
  { apply (NoDup_remove_1 [Str "Outbreak #"] _ (Str "Report ID")). exact Hnames. }
  unfold field_names in Hnd'. cbn [fst snd species_columns] in Hnd'.
  unfold assign, kwargs_regular, labels. cbn [items].
  rewrite broadcast_fields_labels.
  assert (Htext : forallb is_str (broadcast_labels (Grid width (r0 :: rest))) = true).
  { unfold broadcast_labels. cbn [forallb is_str andb label_column tl map].
    rewrite forallb_forall. intros k Hk. apply filter_In in Hk.
    rewrite Forall_forall in Hstr. apply Hstr, Hk. }
  assert (Hdistinct : nodupb (broadcast_labels (Grid width (r0 :: rest))) = true).
  { apply nodupb_NoDup.
    apply (NoDup_app_remove_l (Str "Outbreak #" :: row_cells swidth s0)). exact Hnd'. }
  rewrite Htext, Hdistinct. cbn [andb]. unfold insert_at. cbn [firstn skipn app].
  rewrite set_columns_fresh.
  - unfold pair_frame, field_names. cbn [fst snd species_columns species_rows].
    rewrite broadcast_fields_labels.
    rewrite (outbreak_number_of _ _ _ Hh Hm).
    f_equal. rewrite map_map. cbn [fst snd].
    rewrite (label_rows_map
               (fun row => Int (int_of_digits digits)
                             :: row ++ map snd (broadcast_fields country
                                                  (Grid width (r0 :: rest))))).
    reflexivity.
  - rewrite broadcast_fields_labels. exact Hnd'.
Qed.

Lemma ordinary_not_header (h : RawTable) : ordinary h -> is_header h = false.
Proof. intros [c [Hc Hd]]. unfold is_header. now rewrite Hc, Hd. Qed.

Lemma header_first_cell (h : RawTable) :
  is_header h = true ->
  exists label digits, loc h 0 0 = Ok (Str label) /\ match_outbreak label = Some digits.
Proof.
  unfold is_header. destruct (loc h 0 0) as [c | e]; [| discriminate].
  destruct c as [l | z |];
    try (rewrite announced_other by reflexivity; discriminate).
  rewrite announced_match.
  destruct (match_outbreak l) as [ds |] eqn:E; [| discriminate].
  intros _. now exists l, ds.
Qed.

Lemma regular_pairs (tables : list RawTable) :
  valid_document tables -> bounded_document tables ->
  Forall regular_pair (combine tables (tl tables)).
Proof.
  unfold valid_document, bounded_document. intros Hv Hb.
  rewrite Forall_forall in *. intros p Hp.
  destruct (Hv p Hp) as [Ho | [Hh Hwf]]; [now left |].
  right. split; [exact Hh |]. split; [exact Hwf |]. now apply Hb.
Qed.

(** The loop collects the frames of the pairs, in order. *)
Lemma outbreaks_loop_valid (country : string) (ps : list (RawTable * RawTable))
    (acc : list Frame) :
  Forall regular_pair ps ->
  foldM (outbreaks_body lib (One (Str country))) ps acc =
  Ok (acc ++ map (pair_frame country) (filter (fun p => is_header (fst p)) ps)).
Proof.
  intros H. revert acc. induction H as [| [h s] ps Hp _ IH]; intros acc.
  - simpl. now rewrite app_nil_r.
  - cbn [foldM filter fst]. destruct Hp as [Hplain | [Hhead [Hwf Hb]]]; cbn [fst] in *.
    + rewrite (outbreaks_body_plain lib _ _ _ _ (proj1 (ordinary_plain h) Hplain)),
        (ordinary_not_header _ Hplain).
      cbn [bind]. apply IH.
    + rewrite Hhead. destruct (header_first_cell h Hhead) as [label [digits [Hh Hm]]].
      assert (Hshort : String.length digits <= 640).
      { destruct Hb as [Hlen _]. specialize (Hlen _ Hh).
        now rewrite announced_numeral_match, Hm in Hlen. }
      unfold outbreaks_body at 1. rewrite Hh. cbn [bind]. rewrite Hm.
      pose proof Hwf as [_ [Hs _]]. cbn [snd] in Hs. rewrite Hs. cbn [bind].
      rewrite cell_eqb_refl.
      rewrite (outbreak_frame_well_formed country label digits h s Hh Hm Hshort Hwf).
      cbn [bind]. rewrite IH. cbn [map]. now rewrite <- app_assoc.
Qed.


Lemma bounded_pairs (tables : list RawTable) :
  bounded_document tables -> Forall bounded_pair (outbreak_pairs tables).
Proof.
  unfold bounded_document, outbreak_pairs. intros H.
  apply Forall_forall. intros p Hin. apply filter_In in Hin. destruct Hin as [Hin Hhead].
  rewrite Forall_forall in H. now apply H.
Qed.

Lemma species_row_length (s : RawTable) (row : list cell) :
  In row (species_rows s) -> List.length row = List.length (species_columns s).
Proof.
  destruct s as [width [| s0 rest] |]; simpl; try contradiction.
  intros Hin. apply in_map_iff in Hin. destruct Hin as [r [<- _]].
  now rewrite !row_cells_length.
Qed.

(** A row of a pair, laid out under a column that is not "Outbreak #", holds
    what the specification expects. *)
Lemma pair_row_field (country : string) (pair : RawTable * RawTable)
    (row : list cell) (c : cell) :
  In row (species_rows (snd pair)) ->
  c <> Str "Outbreak #" ->
  value_at (Str "Outbreak #" :: field_names pair)
           (Int (outbreak_number (fst pair))
              :: row ++ map snd (broadcast_fields country (fst pair))) c
  = expected_field country pair row c.
Proof.
  intros Hrow Hc. unfold value_at, expected_field, field_names. cbn [lookup].
  assert (E : cell_eqb (Str "Outbreak #") c = false).
  { apply cell_eqb_neq. congruence. }
  rewrite E, (lookup_app _ _ _ _ _ (species_row_length _ _ Hrow)).
  rewrite broadcast_fields_labels.
  destruct (lookup (species_columns (snd pair)) row c); reflexivity.
Qed.

Lemma map_flat_map {A B C : Type} (g : B -> C) (f : A -> list B) (l : list A) :
  map g (flat_map f l) = flat_map (fun x => map g (f x)) l.
Proof.
  induction l as [| x l IH]; [reflexivity |]. simpl. now rewrite map_app, IH.
Qed.

Lemma flat_map_ext_in {A B : Type} (f g : A -> list B) (l : list A) :
  (forall x, In x l -> f x = g x) -> flat_map f l = flat_map g l.
Proof.
  induction l as [| x l IH]; intros H; [reflexivity |]. simpl.
  rewrite (H x (or_introl eq_refl)), IH; [reflexivity |].
  intros y Hy. apply H. now right.
Qed.

Lemma flat_map_map {A B C : Type} (f : B -> list C) (g : A -> B) (l : list A) :
  flat_map f (map g l) = flat_map (fun x => f (g x)) l.
Proof. induction l as [| x l IH]; [reflexivity |]. simpl. now rewrite IH. Qed.

(** The rows of one pair after [concat], [insert] and [set_index]. *)
Lemma pair_rows_keyed (rid country : string) (pair : RawTable * RawTable)
    (others : list cell) (rs : list (list cell)) (start : nat) :
  (forall row, In row rs -> In row (species_rows (snd pair))) ->
  ~ In (Str "Outbreak #") others ->
  ~ In (Str "Report ID") others ->
  map (fun kr : list cell * list cell =>
         (map (value_at (Str "Report ID" :: Str "Outbreak #" :: others) (snd kr))
              [Str "Report ID"; Str "Outbreak #"],
          map snd (filter (fun cv : cell * cell =>
                             negb (mem (fst cv) [Str "Report ID"; Str "Outbreak #"]))
                          (combine (Str "Report ID" :: Str "Outbreak #" :: others)
                                   (snd kr)))))
      (map (fun kr : list cell * list cell => (fst kr, Str rid :: snd kr))
         (map (fun kr : list cell * list cell =>
                 (fst kr, realign (Str "Outbreak #" :: field_names pair) (snd kr)
                            (Str "Outbreak #" :: others)))
            (label_rows start
               (map (fun row => Int (outbreak_number (fst pair))
                                  :: row ++ map snd (broadcast_fields country (fst pair)))
                    rs))))
  = map (fun row => ([Str rid; Int (outbreak_number (fst pair))],
                     map (expected_field country pair row) others)) rs.
Proof.
  intros Hrs Hno Hrid. revert start.
  induction rs as [| row rs IH]; intros start; [reflexivity |].
  cbn [map]. rewrite label_rows_cons. cbn [map fst snd].
  rewrite IH by (intros r Hr; apply Hrs; now right).
  f_equal. unfold realign. cbn [map combine].
  rewrite !drop_key_head by reflexivity.
  apply f_equal2; [reflexivity |].
  rewrite drop_no_key.
  - apply map_ext_in. intros c Hc. apply pair_row_field.
    + apply Hrs. now left.
    + intros ->. contradiction.
  - intros c Hc. apply mem_not_In. intros [E | [E | []]]; subst c; contradiction.
  - now rewrite length_map.
Qed.

(** Lines 67-69 on the frames of well-formed pairs. *)
Lemma keyed_outbreaks (rid country : string) (pairs : list (RawTable * RawTable))
    (others : list cell) :
  Forall well_formed_pair pairs ->
  pairs <> [] ->
  union_all (map columns (map (pair_frame country) pairs)) = Str "Outbreak #" :: others ->
  (outbreaks <- concat lib (map (pair_frame country) pairs) ;;
   outbreaks <- insert outbreaks 0 (Str "Report ID") (Str rid) ;;
   set_index lib outbreaks [Str "Report ID"; Str "Outbreak #"])
  = Ok (mkFrame others (flat_map (expected_rows rid country others) pairs)).
Proof.
  intros Hwf Hne Hcols.
  assert (Hnd : NoDup (Str "Outbreak #" :: others)).
  { rewrite <- Hcols. apply union_all_NoDup. }
  assert (Hno : ~ In (Str "Outbreak #") others) by now inversion Hnd.
  assert (Hrid : ~ In (Str "Report ID") (Str "Outbreak #" :: others)).
  { rewrite <- Hcols. intros Hin. apply union_all_In in Hin.
    destruct Hin as [l [Hl Hin]]. rewrite map_map in Hl. apply in_map_iff in Hl.
    destruct Hl as [p [<- Hp]]. rewrite Forall_forall in Hwf.
    destruct (Hwf p Hp) as [_ [_ [_ [_ [_ Hnames]]]]].
    cbn [pair_frame columns] in Hin. destruct Hin as [E | Hin]; [discriminate |].
    inversion Hnames as [| ? ? _ Hrest]. inversion Hrest as [| ? ? Hnot _].
    contradiction. }
  unfold concat. destruct pairs as [| p0 ps] eqn:Epairs; [contradiction |].
  rewrite <- Epairs in *. clear Hne.
  assert (Hfr : forallb (fun df => nodupb (columns df))
                  (map (pair_frame country) pairs) = true).
  { rewrite forallb_forall. intros df Hdf. apply in_map_iff in Hdf.
    destruct Hdf as [p [<- Hp]]. rewrite Forall_forall in Hwf.
    destruct (Hwf p Hp) as [_ [_ [_ [_ [_ Hnames]]]]].
    apply nodupb_NoDup. cbn [pair_frame columns].
    apply (NoDup_remove_1 [Str "Outbreak #"] _ (Str "Report ID")). exact Hnames. }
  replace (map (pair_frame country) pairs)
    with (pair_frame country p0 :: map (pair_frame country) ps) at 1
    by (now rewrite Epairs).
  cbv iota. rewrite Hfr, Hcols. cbn [bind].
  unfold insert. cbn [columns rows].
  apply mem_not_In in Hrid. rewrite Hrid. cbn [Nat.ltb Nat.leb bind].
  apply mem_not_In in Hrid.
  unfold set_index, insert_at. cbn [columns rows firstn skipn app].
  assert (Hhave :
    forallb (fun k => mem k (Str "Report ID" :: Str "Outbreak #" :: others))
            [Str "Report ID"; Str "Outbreak #"] = true) by reflexivity.
  rewrite Hhave. cbn [negb].
  assert (Honce :
    forallb (fun k => count_label k (Str "Report ID" :: Str "Outbreak #" :: others) =? 1)
            [Str "Report ID"; Str "Outbreak #"] = true).
  { unfold count_label. simpl. fold (count_label (Str "Report ID") others).
    fold (count_label (Str "Outbreak #") others).
    rewrite (count_label_absent _ _ Hno).
    rewrite count_label_absent; [reflexivity |].
    intros Hin. apply Hrid. now right. }
  rewrite Honce.
  assert (Hkeys : forall c, In c others ->
                    mem c [Str "Report ID"; Str "Outbreak #"] = false).
  { intros c Hc. apply mem_not_In. intros [E | [E | []]]; subst c.
    - apply Hrid. now right.
    - contradiction. }
  f_equal. f_equal.
  - rewrite !filter_key_head by reflexivity. now apply filter_no_key.
  - rewrite flat_map_map, !map_flat_map. apply flat_map_ext_in. intros p Hp.
    unfold expected_rows. cbn [pair_frame rows columns].
    apply pair_rows_keyed; [tauto | exact Hno |].
    intros Hin. apply Hrid. now right.
Qed.

Lemma int64_fits (c : cell) : int64 c = integers_fit c.
Proof. destruct c; reflexivity. Qed.

Lemma broadcast_values_fit (country : string) (h : RawTable) :
  forallb integers_fit (value_column h) = true ->
  forallb integers_fit (map snd (broadcast_fields country h)) = true.
Proof.
  intros H. unfold broadcast_fields. cbn [map snd forallb integers_fit andb].
  rewrite forallb_forall in *. intros v Hv. apply H.
  apply in_map_iff in Hv. destruct Hv as [[k v'] [E Hin]]. cbn [snd] in E. subst v'.
  apply filter_In in Hin. destruct Hin as [Hin _].
  assert (Hall : In (k, v) (combine (label_column h) (value_column h))).
  { destruct (combine (label_column h) (value_column h)); [destruct Hin | now right]. }
  exact (in_combine_r _ _ _ _ Hall).
Qed.

(** The frame of a bounded pair holds 64-bit integers only. *)
Lemma pair_frame_narrow (country : string) (pair : RawTable * RawTable) :
  bounded_pair pair -> narrow (pair_frame country pair) = true.
Proof.
  intros [_ [Hn [Hvalues Hrows]]]. unfold narrow. cbn [pair_frame rows].
  rewrite forallb_forall. intros kr Hkr.
  assert (Hin : In (snd kr)
                  (map (fun row => Int (outbreak_number (fst pair))
                                     :: row ++ map snd (broadcast_fields country (fst pair)))
                       (species_rows (snd pair)))).
  { rewrite <- (label_rows_values 1). now apply in_map. }
  apply in_map_iff in Hin. destruct Hin as [row [<- Hrow]].
  rewrite forallb_forall. intros c Hc. rewrite int64_fits.
  destruct Hc as [<- | Hc]; [exact Hn |].
  apply in_app_or in Hc. destruct Hc as [Hc | Hc].
  - rewrite forallb_forall in Hrows. specialize (Hrows row Hrow).
    rewrite forallb_forall in Hrows. now apply Hrows.
  - pose proof (broadcast_values_fit country (fst pair) Hvalues) as Hb.
    rewrite forallb_forall in Hb. now apply Hb.
Qed.

Lemma pair_frames_narrow (country : string) (pairs : list (RawTable * RawTable)) :
  Forall bounded_pair pairs -> forallb narrow (map (pair_frame country) pairs) = true.
Proof.
  intros H. rewrite forallb_forall. intros df Hdf. apply in_map_iff in Hdf.
  destruct Hdf as [p [<- Hp]]. rewrite Forall_forall in H.
  apply pair_frame_narrow. now apply H.
Qed.

Lemma regular_outbreak_pairs (tables : list RawTable) :
  Forall regular_pair (combine tables (tl tables)) ->
  Forall (fun pair => well_formed_pair pair /\ bounded_pair pair) (outbreak_pairs tables).
Proof.
  unfold outbreak_pairs. intros H.
  apply Forall_forall. intros p Hin. apply filter_In in Hin. destruct Hin as [Hin Hhead].
  rewrite Forall_forall in H. destruct (H p Hin) as [Hplain | [_ Hboth]]; [| exact Hboth].
  rewrite (ordinary_not_header _ Hplain) in Hhead. discriminate.
Qed.

Lemma outbreak_columns_head (country : string) (pairs : list (RawTable * RawTable)) :
  pairs <> [] ->
  union_all (map columns (map (pair_frame country) pairs))
  = Str "Outbreak #" :: outbreak_columns country pairs.
Proof.
  destruct pairs as [| p0 ps]; [contradiction |]. intros _. unfold outbreak_columns.
  destruct (union_all_head (Str "Outbreak #") (field_names p0)
              (map columns (map (pair_frame country) ps))) as [others Hcols].
  change (map columns (map (pair_frame country) (p0 :: ps)))
    with ((Str "Outbreak #" :: field_names p0)
            :: map columns (map (pair_frame country) ps)).
  now rewrite Hcols.
Qed.

(** [get_outbreaks] on the neighbours of a valid, bounded document. *)
Lemma get_outbreaks_regular (tables : list RawTable) (report_id country : string) :
  Forall regular_pair (combine tables (tl tables)) ->
  get_outbreaks lib tables report_id (One (Str country)) =
  Ok (match outbreak_pairs tables with
      | [] => empty_frame
      | pairs =>
          mkFrame (outbreak_columns country pairs)
                  (flat_map (expected_rows report_id country
                               (outbreak_columns country pairs)) pairs)
      end).
Proof.
  intros Hreg. pose proof (regular_outbreak_pairs tables Hreg) as Hboth.
  unfold get_outbreaks. rewrite (outbreaks_loop_valid country _ [] Hreg).
  cbn [bind app]. fold (outbreak_pairs tables).
  destruct (outbreak_pairs tables) as [| p0 ps] eqn:Epairs; [reflexivity |].
  change (map (pair_frame country) (p0 :: ps))
    with (pair_frame country p0 :: map (pair_frame country) ps).
  cbv iota.
  change (pair_frame country p0 :: map (pair_frame country) ps)
    with (map (pair_frame country) (p0 :: ps)).
  rewrite pair_frames_narrow.
  - apply keyed_outbreaks.
    + eapply Forall_impl; [| exact Hboth]. intros p Hp. exact (proj1 Hp).
    + discriminate.
    + apply outbreak_columns_head. discriminate.
  - eapply Forall_impl; [| exact Hboth]. intros p Hp. exact (proj2 Hp).
Qed.


End Outbreaks.

Ltac well_formed :=
  refine (conj _ (conj _ (conj _ (conj _ (conj _ _)))));
  [ eexists; reflexivity
  | reflexivity
  | repeat constructor
  | simpl; tauto
  | apply nodupb_NoDup; reflexivity
  | apply nodupb_NoDup; reflexivity ].

Ltac valid_pairs :=
  repeat (apply Forall_cons;
          [ first [ left; eexists; split; reflexivity
                  | right; split; [reflexivity | well_formed] ] | ]);
  apply Forall_nil.

Ltac bounded :=
  refine (conj _ (conj _ (conj _ _)));
  [ let c := fresh "c" in
    let H := fresh "H" in
    intros c H; vm_compute in H; injection H as <-; apply Nat.leb_le; reflexivity
  | reflexivity
  | reflexivity
  | reflexivity ].

Ltac bounded_pairs :=
  repeat (apply Forall_cons;
          [ let H := fresh "H" in
            intros H; first [ discriminate H | bounded ] | ]);
  apply Forall_nil.



(** ** The sample report, evaluated *)

Example good_report_outbreaks :
  get_outbreaks Samples.strict Samples.good_tables "123" (One (Str "Viet Nam")) =
  Ok (mkFrame
        [Str "Species"; Str "Cases"; Str "Deaths"; Str "Location";
         Str "Date of start of the outbreak"; Str "Epidemiological unit"]
        [([Str "123"; Int 1],
          [Str "Swine"; Str "10"; Str "3"; Str "Hanoi, Viet Nam"; Str "15/01/2019"; NaN]);
         ([Str "123"; Int 1],
          [Str "Wild boar"; Str "1"; Str "0"; Str "Hanoi, Viet Nam"; Str "15/01/2019"; NaN]);
         ([Str "123"; Int 2],
          [Str "Swine"; Str "7"; NaN; Str "Hung Yen, Viet Nam"; NaN; Str "Village"])]).
Proof. reflexivity. Qed.

Example good_report_pairs :
  outbreak_pairs Samples.good_tables =
  [(Samples.outbreak1, Samples.species1); (Samples.outbreak2, Samples.species2)].
Proof. reflexivity. Qed.

Example dated_report_keys :
  match snd (process_report Samples.strict Samples.dated_report) with
  | Ok (details, outbreaks, tests) => (name details, index outbreaks, index tests)
  | Raise _ => (None, [], [])
  end =
  (Some (Str "2020"),
   [[Str "2020"; Int 1]; [Str "2020"; Int 1]; [Str "2020"; Int 2]],
   [[Str "2020"; Int 1]; [Str "2020"; Int 2]]).
Proof. reflexivity. Qed.

Example batch_with_placeholder :
  match snd (process_reports Samples.strict
               [Samples.placeholder; Samples.good_report; Samples.placeholder]) with
  | Ok (reports, _, _) => index reports
  | Raise _ => []
  end = [[Str "123"]].
Proof. reflexivity. Qed.

Example text_examples :
  partition "," "African swine fever, Viet Nam"
    = ("African swine fever", ",", " Viet Nam") /\
  match_outbreak "Outbreak 12 (resolved)" = Some "12" /\
  match_outbreak "Outbreaks" = None /\
  findall_digits "out/2020/123.html" = ["2020"; "123"] /\
  int_of_digits "012" = 12%Z.
Proof. repeat split; reflexivity. Qed.

(** ** Further properties of the batch and of the extractors *)

Section Further.

Variable lib : Library.

(** A batch without documents is an error: the unpacking of line 112 finds
    nothing to unpack. *)
Theorem empty_batch_raises : process_reports lib [] = ([], Raise ValueError).
Proof. reflexivity. Qed.

(** A table whose first cell is not text (a number, a missing value) is
    skipped by the loop of [get_outbreaks] without an error. *)
Theorem first_cell_without_text_is_skipped
    (country : item) (acc : list Frame) (h s : RawTable) (c : cell) :
  loc h 0 0 = Ok c -> is_str c = false ->
  outbreaks_body lib country acc (h, s) = Ok acc.
Proof.
  intros Hc Hstr. unfold outbreaks_body. rewrite Hc. cbn [bind].
  destruct c; [discriminate | reflexivity | reflexivity].
Qed.

(** Without a laboratory table the test set is empty. *)
Theorem no_laboratory_table_no_tests (tables : list RawTable) (report_id : string) :
  Forall not_laboratory tables -> get_tests lib tables report_id = Ok empty_frame.
Proof.
  intros H. unfold get_tests. now rewrite (tests_loop_skip tables None H).
Qed.

(** The pairing violation of one report is an exception of [process_report]
    (unless an earlier step of the report has raised already). *)
Theorem pairing_violation_fails_the_report
    (doc : Document) (tables : list RawTable) (i : nat) (h s : RawTable)
    (label digits : string) :
  read_html doc = Ok tables ->
  nth_error tables i = Some h ->
  nth_error tables (S i) = Some s ->
  loc h 0 0 = Ok (Str label) ->
  match_outbreak label = Some digits ->
  loc s 0 0 <> Ok (Str "Species") ->
  raises (snd (process_report lib doc)).
Proof.
  intros Hread Hi HSi Hh Hm Hs. unfold process_report. rewrite Hread. cbn [snd].
  unfold tabulate.
  destruct (report_id_of (path doc)) as [rid | e]; [| now exists e]. cbn [bind].
  destruct (get_details tables rid) as [details | e]; [| now exists e]. cbn [bind].
  destruct (series_getattr details "Country") as [country | e]; [| now exists e].
  cbn [bind]. apply bind_raises.
  destruct (adjacent_at tables i h s Hi HSi) as [before [after E]].
  unfold get_outbreaks. rewrite E.
  apply bind_raises, foldM_raises_at.
  now apply outbreaks_body_mismatch with (label := label) (digits := digits).
Qed.

(** The counterexamples of the batch, of the "Affected animals" row and of
    the test numbers do not depend on what the library does with repeated
    labels: they never get there. *)
Lemma batch_isolation_every_library :
  process_reports lib [Samples.bad_report; Samples.good_report] =
  ([(DEBUG, "Reading out/456.html")], Raise AssertionError).
Proof. reflexivity. Qed.

Lemma affected_animals_every_library :
  get_outbreaks lib [Samples.banner; Samples.outbreak_no_total; Samples.species1]
    "123" (One (Str " Viet Nam")) = Raise KeyError.
Proof. reflexivity. Qed.

Lemma test_numbers_every_library :
  match get_tests lib Samples.good_tables "123" with
  | Ok df => index df
  | Raise _ => []
  end = [[Str "123"; Int 1]; [Str "123"; Int 2]].
Proof. reflexivity. Qed.

(** The outbreak number of 4301 digits is refused under every limit on the
    digits of an integer between 1 and 4300, the default. *)
Lemma long_number_every_limit :
  0 < max_int_digits lib -> max_int_digits lib <= 4300 ->
  get_outbreaks lib Samples.long_tables "123" (One (Str "Viet Nam")) = Raise ValueError.
Proof.
  intros Hpos Hmax.
  assert (E : int_of_match lib Samples.long_numeral = Raise ValueError).
  { unfold int_of_match.
    replace (String.length Samples.long_numeral) with 4301 by (vm_compute; reflexivity).
    apply Nat.ltb_lt in Hpos.
    assert (H : (max_int_digits lib <? 4301) = true) by (apply Nat.ltb_lt; lia).
    rewrite Hpos, H. reflexivity. }
  assert (Hm : match_outbreak ("Outbreak " +++ Samples.long_numeral)
               = Some Samples.long_numeral) by (vm_compute; reflexivity).
  unfold get_outbreaks, Samples.long_tables. cbn [tl combine foldM].
  unfold outbreaks_body.
  change (loc Samples.long_outbreak 0 0)
    with (Ok (Str ("Outbreak " +++ Samples.long_numeral))).
  cbn [bind]. rewrite Hm.
  change (loc Samples.species1 0 0) with (Ok (Str "Species")).
  cbn [bind]. rewrite cell_eqb_refl.
  unfold outbreak_frame.
  cbn -[int_of_match Samples.long_numeral].
  rewrite E. reflexivity.
Qed.

End Further.

Lemma first_cell_without_text_is_skipped_witness :
  outbreaks_body Samples.strict (One (Str " Viet Nam")) []
    (Grid 2 [[NaN; Str "Outbreak 1"]], Samples.species1) = Ok [].
Proof.
  apply (first_cell_without_text_is_skipped Samples.strict (One (Str " Viet Nam")) []
           (Grid 2 [[NaN; Str "Outbreak 1"]]) Samples.species1 NaN); reflexivity.
Defined.

Lemma no_laboratory_table_no_tests_witness :
  get_tests Samples.strict [Samples.banner; Samples.disease_country] "123" = Ok empty_frame.
Proof.
  apply (no_laboratory_table_no_tests Samples.strict
           [Samples.banner; Samples.disease_country] "123").
  repeat constructor.
  - exists (Str "WAHIS"). split; [reflexivity | discriminate].
  - exists (Str "Summary"). split; [reflexivity | discriminate].
Defined.

Lemma pairing_violation_fails_the_report_witness :
  raises (snd (process_report Samples.strict Samples.bad_report)).
Proof.
  apply (pairing_violation_fails_the_report Samples.strict Samples.bad_report
           Samples.bad_tables 5 Samples.outbreak2 Samples.laboratory "Outbreak 2" "2");
    try reflexivity.
  discriminate.
Defined.

(** ** What a report must hold *)

Lemma foldM_Ok_all {A B : Type} (body : A -> B -> result A) (xs : list B) :
  forall acc acc', foldM body xs acc = Ok acc' ->
  Forall (fun x => exists a a', body a x = Ok a') xs.
Proof.
  induction xs as [| x xs IH]; intros acc acc' H; [constructor |].
  cbn [foldM] in H. apply bind_Ok_inv in H as [a [Hx Hrest]].
  constructor; [exists acc, a; exact Hx | eapply IH, Hrest].
Qed.

Lemma details_body_readable (out out' : Series) (table : RawTable) :
  details_body out table = Ok out' -> readable table.
Proof.
  unfold details_body. intros H. apply bind_Ok_inv in H as [c [Hc H]].
  exists c. split; [exact Hc |]. intros Hm. rewrite Hm in H.
  apply bind_Ok_inv in H as [fields [Hf _]].
  destruct table as [width cells |]; [| discriminate Hc].
  cbn in Hc, Hf |- *. destruct cells as [| r cells]; [discriminate Hc |].
  destruct width as [| [| w]]; try discriminate Hf.
  eexists. reflexivity.
Qed.

Lemma details_loop_readable (tables : list RawTable) (out out' : Series) :
  foldM details_body tables out = Ok out' -> Forall readable tables.
Proof.
  intros H. apply foldM_Ok_all in H. eapply Forall_impl; [| exact H].
  intros t (a & a' & Ht). eapply details_body_readable, Ht.
Qed.

(** What [get_details] needs, and what it then returns. *)
Lemma get_details_Ok (tables : list RawTable) (rid : string) (details : Series) :
  get_details tables rid = Ok details ->
  exists t1 s,
    nth_error tables 1 = Some t1 /\ loc t1 0 1 = Ok (Str s) /\
    Forall readable tables /\
    details = mkSeries (Some (Str rid))
                ([(Str "Disease", Str (fst (fst (partition "," s))));
                  (Str "Country", Str (snd (partition "," s)));
                  (Str "Url", Str (REPORT_URL rid))]
                   ++ flat_map metadata_fields tables).
Proof.
  unfold get_details, nth_table. intros H.
  destruct (nth_error tables 1) as [t1 |]; [| discriminate]. cbn [bind] in H.
  apply bind_Ok_inv in H as [c [Hc H]].
  destruct c as [s | z |]; try discriminate.
  exists t1, s. split; [reflexivity |]. split; [exact Hc |].
  destruct (partition "," s) as [[disease found] country].
  apply bind_Ok_inv in H as [out [Hout H]]. injection H as <-.
  pose proof (details_loop_readable _ _ _ Hout) as Hread.
  split; [exact Hread |].
  match type of Hout with
  | foldM details_body tables ?o = _ =>
      destruct (details_loop_items tables o Hread) as [out2 [E I]]
  end.
  rewrite E in Hout. injection Hout as <-. rewrite I. reflexivity.
Qed.

(** [get_details] returns a record exactly when the document has a second
    table whose row 0 holds a text in column 1, and every table has a first
    cell and, when that cell is one of the three metadata labels, a second
    column.  One table without a cell (0, 0), parsed with a header row or
    empty, is enough for the call to raise. *)
Theorem get_details_succeeds_iff (tables : list RawTable) (report_id : string) :
  (exists details, get_details tables report_id = Ok details) <->
  (exists t1 s, nth_error tables 1 = Some t1 /\ loc t1 0 1 = Ok (Str s)) /\
  Forall readable tables.
Proof.
  split.
  - intros [details H]. apply get_details_Ok in H as (t1 & s & H1 & Hs & Hread & _).
    split; [exists t1, s; split; assumption | exact Hread].
  - intros [(t1 & s & H1 & Hs) Hread].
    unfold get_details, nth_table. rewrite H1. cbn [bind]. rewrite Hs. cbn [bind].
    destruct (partition "," s) as [[disease found] country].
    match goal with
    | |- context [foldM details_body tables ?o] =>
        destruct (details_loop_items tables o Hread) as [out [E _]]; rewrite E
    end.
    eexists. reflexivity.
Qed.

Section Requirements.
Variable lib : Library.

Lemma select_In (k : cell) (s : Series) (kv : cell * cell) :
  In kv (select k s) -> fst kv = k /\ In kv (items s).
Proof.
  unfold select. intros H. apply filter_In in H as [Hin Hk].
  apply cell_eqb_eq in Hk. split; assumption.
Qed.

Lemma series_get_In (s : Series) (k : cell) (it : item) :
  series_get s k = Ok it -> In k (labels s).
Proof.
  unfold series_get. intros H.
  destruct (select k s) as [| kv rest] eqn:E; [discriminate |].
  assert (Hin : In kv (select k s)) by (rewrite E; left; reflexivity).
  apply select_In in Hin as [<- Hin]. unfold labels. apply in_map, Hin.
Qed.

Lemma add_details_date (details : Series) (df df' : Frame) :
  add_details lib details df = Ok df' -> In (Str "Report date") (labels details).
Proof.
  unfold add_details. intros H.
  apply bind_Ok_inv in H as [disease [_ H]].
  apply bind_Ok_inv in H as [df1 [_ H]].
  apply bind_Ok_inv in H as [country [_ H]].
  apply bind_Ok_inv in H as [df2 [_ H]].
  apply bind_Ok_inv in H as [date [Hdate _]].
  eapply series_get_In, Hdate.
Qed.

Lemma tabulate_Ok (tables : list RawTable) (p : string) (t : Series * Frame * Frame) :
  tabulate lib tables p = Ok t ->
  exists rid country o0 t0,
    report_id_of p = Ok rid /\
    get_details tables rid = Ok (fst (fst t)) /\
    series_getattr (fst (fst t)) "Country" = Ok country /\
    get_outbreaks lib tables rid country = Ok o0 /\
    get_tests lib tables rid = Ok t0 /\
    add_details lib (fst (fst t)) o0 = Ok (snd (fst t)) /\
    add_details lib (fst (fst t)) t0 = Ok (snd t).
Proof.
  unfold tabulate. intros H.
  apply bind_Ok_inv in H as [rid [Hrid H]].
  apply bind_Ok_inv in H as [details [Hd H]].
  apply bind_Ok_inv in H as [country [Hc H]].
  apply bind_Ok_inv in H as [o0 [Ho H]].
  apply bind_Ok_inv in H as [t0 [Ht H]].
  apply bind_Ok_inv in H as [o1 [Ho1 H]].
  apply bind_Ok_inv in H as [t1 [Ht1 H]].
  injection H as <-. cbn [fst snd].
  exists rid, country, o0, t0. repeat split; assumption.
Qed.

(** A document without a metadata row labelled "Report date" cannot be
    tabulated: [process_report] raises (line 107 at the latest), whatever the
    library does. *)
Theorem report_date_is_required (doc : Document) (tables : list RawTable) :
  read_html doc = Ok tables ->
  ~ In (Str "Report date") (map fst (flat_map metadata_fields tables)) ->
  raises (snd (process_report lib doc)).
Proof.
  intros Hread Hno. unfold process_report. rewrite Hread. cbn [snd].
  destruct (tabulate lib tables (path doc)) as [t | e] eqn:E; [| exists e; reflexivity].
  exfalso. apply tabulate_Ok in E as (rid & country & o0 & t0 & _ & Hd & _ & _ & _ & Ho & _).
  apply add_details_date in Ho.
  apply get_details_Ok in Hd as (t1 & s & _ & _ & _ & Hitems).
  rewrite Hitems in Ho. unfold labels in Ho. cbn [items map app] in Ho.
  destruct Ho as [Ho | [Ho | [Ho | Ho]]]; try discriminate.
  apply Hno, Ho.
Qed.

Lemma select_unrepeated (k : cell) (its : list (cell * cell)) :
  NoDup (map fst its) ->
  filter (fun kv : cell * cell => cell_eqb (fst kv) k) its = [] \/
  exists v, filter (fun kv : cell * cell => cell_eqb (fst kv) k) its = [(k, v)] /\
            In (k, v) its.
Proof.
  induction its as [| [a b] its IH]; intros Hnd; [left; reflexivity |].
  inversion Hnd as [| ? ? Ha Hrest]; subst. cbn [filter fst].
  destruct (cell_eqb a k) eqn:E.
  - apply cell_eqb_eq in E. subst a. right. exists b.
    rewrite (filter_absent k its Ha). split; [reflexivity | left; reflexivity].
  - destruct (IH Hrest) as [H0 | [v [H1 Hin]]].
    + left. exact H0.
    + right. exists v. split; [exact H1 | right; exact Hin].
Qed.

Lemma unrepeated_value (its : list (cell * cell)) :
  NoDup (map fst its) ->
  forall k v v', In (k, v) its -> In (k, v') its -> v = v'.
Proof.
  induction its as [| [a b] its IH]; intros Hnd k v v' H1 H2; [destruct H1 |].
  inversion Hnd as [| ? ? Ha Hrest]; subst.
  destruct H1 as [E1 | H1], H2 as [E2 | H2].
  - congruence.
  - exfalso. apply Ha. apply (in_map fst) in H2. cbn [fst] in H2. congruence.
  - exfalso. apply Ha. apply (in_map fst) in H1. cbn [fst] in H1. congruence.
  - eapply IH; eassumption.
Qed.

Lemma series_get_One (s : Series) (k : cell) (it : item) :
  nodupb (labels s) = true ->
  series_get s k = Ok it -> exists v, it = One v /\ In (k, v) (items s).
Proof.
  intros Hnd H. apply nodupb_NoDup in Hnd. unfold series_get, select in H.
  destruct (select_unrepeated k (items s) Hnd) as [E | [v [E Hin]]]; rewrite E in H.
  - discriminate.
  - injection H as <-. exists v. split; [reflexivity | exact Hin].
Qed.

Lemma series_getattr_One (s : Series) (k : string) (it : item) :
  nodupb (labels s) = true ->
  series_getattr s k = Ok it -> exists v, it = One v /\ In (Str k, v) (items s).
Proof.
  intros Hnd H. apply nodupb_NoDup in Hnd. unfold series_getattr, select in H.
  destruct (select_unrepeated (Str k) (items s) Hnd) as [E | [v [E Hin]]]; rewrite E in H.
  - discriminate.
  - injection H as <-. exists v. split; [reflexivity | exact Hin].
Qed.

Lemma insert_Ok (df df' : Frame) (pos : nat) (column value : cell) :
  insert df pos column value = Ok df' ->
  df' = mkFrame (insert_at pos column (columns df))
          (map (fun kr => (fst kr, insert_at pos value (snd kr))) (rows df)).
Proof.
  unfold insert. destruct (mem column (columns df)); [discriminate |].
  destruct (List.length (columns df) <? pos); [discriminate |].
  intros [= <-]. reflexivity.
Qed.

(** The three columns that lines 104-107 put before the others. *)
Lemma add_details_rows (details : Series) (df df' : Frame) :
  nodupb (labels details) = true ->
  add_details lib details df = Ok df' ->
  exists disease country date,
    In (Str "Disease", disease) (items details) /\
    In (Str "Country", country) (items details) /\
    In (Str "Report date", date) (items details) /\
    columns df' = Str "Disease" :: Str "Country" :: Str "Report date" :: columns df /\
    rows df' = map (fun kr => (fst kr, disease :: country :: date :: snd kr)) (rows df).
Proof.
  intros Hnd H. unfold add_details in H.
  apply bind_Ok_inv in H as [i1 [H1 H]].
  destruct (series_getattr_One _ _ _ Hnd H1) as [disease [-> Hd]].
  apply bind_Ok_inv in H as [df1 [E1 H]]. apply insert_Ok in E1. subst df1.
  apply bind_Ok_inv in H as [i2 [H2 H]].
  destruct (series_getattr_One _ _ _ Hnd H2) as [country [-> Hc]].
  apply bind_Ok_inv in H as [df2 [E2 H]]. apply insert_Ok in E2. subst df2.
  apply bind_Ok_inv in H as [i3 [H3 H]].
  destruct (series_get_One _ _ _ Hnd H3) as [date [-> Hr]].
  apply insert_Ok in H. subst df'.
  exists disease, country, date. repeat split; try assumption.
  cbn [columns rows]. rewrite !map_map. apply map_ext. intros [key row]. reflexivity.
Qed.

(** When the record of a parsed report has no label twice, the outbreak
    rows and the test rows of the report all start with the disease, the
    country and the report date of that record, under columns of these
    names. *)
Theorem report_fields_lead_every_row
    (doc : Document) (tables : list RawTable) (details : Series) (outbreaks tests : Frame) :
  read_html doc = Ok tables ->
  snd (process_report lib doc) = Ok (details, outbreaks, tests) ->
  nodupb (labels details) = true ->
  exists disease country date,
    In (Str "Disease", disease) (items details) /\
    In (Str "Country", country) (items details) /\
    In (Str "Report date", date) (items details) /\
    Forall (fun df =>
              firstn 3 (columns df) = [Str "Disease"; Str "Country"; Str "Report date"] /\
              Forall (fun kr => firstn 3 (snd kr) = [disease; country; date]) (rows df))
           [outbreaks; tests].
Proof.
  intros Hread H Hnd. unfold process_report in H. rewrite Hread in H. cbn [snd] in H.
  apply tabulate_Ok in H as (rid & c0 & o0 & t0 & _ & _ & _ & _ & _ & Ho & Ht).
  cbn [fst snd] in Ho, Ht.
  destruct (add_details_rows _ _ _ Hnd Ho) as (d & c & r & Hd & Hc & Hr & Hcols & Hrows).
  destruct (add_details_rows _ _ _ Hnd Ht) as (d' & c' & r' & Hd' & Hc' & Hr' & Hcols' & Hrows').
  assert (Hsame : forall k v v', In (k, v) (items details) -> In (k, v') (items details) ->
                                 v = v').
  { apply unrepeated_value. apply nodupb_NoDup, Hnd. }
  rewrite (Hsame _ _ _ Hd' Hd), (Hsame _ _ _ Hc' Hc), (Hsame _ _ _ Hr' Hr) in Hrows'.
  exists d, c, r. repeat split; try assumption.
  repeat constructor.
  - rewrite Hcols. reflexivity.
  - rewrite Hrows. apply Forall_forall. intros kr Hin.
    apply in_map_iff in Hin as [kr0 [<- _]]. reflexivity.
  - rewrite Hcols'. reflexivity.
  - rewrite Hrows'. apply Forall_forall. intros kr Hin.
    apply in_map_iff in Hin as [kr0 [<- _]]. reflexivity.
Qed.

(** ** Several laboratory tables *)

(** Of several laboratory tables only the last one is kept: the tests of
    the report are those of a document that holds this table alone. *)
Theorem last_laboratory_table_wins
    (before : list RawTable) (lab : RawTable) (after : list RawTable) (report_id : string) :
  Forall has_first_cell before ->
  loc lab 0 0 = Ok (Str "Laboratory name and type") ->
  Forall not_laboratory after ->
  get_tests lib (before ++ lab :: after) report_id = get_tests lib [lab] report_id.
Proof.
  intros Hb Hlab Ha. unfold get_tests.
  rewrite foldM_app.
  assert (Hbody : forall state, tests_body state lab
                                = (df <- promote_header lab ;; Ok (Some df))).
  { intros state. unfold tests_body. rewrite Hlab. reflexivity. }
  destruct (tests_loop_total before None Hb) as [state E]. rewrite E. cbn [bind foldM].
  rewrite !Hbody.
  destruct (promote_header lab) as [df | e]; cbn [bind]; [| reflexivity].
  rewrite (tests_loop_skip after (Some df) Ha). reflexivity.
Qed.

(** ** A report without outbreaks *)

Lemma get_outbreaks_none (tables : list RawTable) (report_id : string) (country : item) :
  Forall (fun pair => plain (fst pair)) (combine tables (tl tables)) ->
  get_outbreaks lib tables report_id country = Ok empty_frame.
Proof.
  intros H. unfold get_outbreaks. rewrite foldM_skip; [reflexivity |].
  eapply Forall_impl; [| exact H]. intros [h s] Hp. apply outbreaks_body_plain, Hp.
Qed.

(** When no table but the last starts with "Outbreak <integer>", the
    outbreaks of a report whose record has no label twice are a frame of the
    three columns of the record and of no row. *)
Theorem report_without_outbreak_header
    (doc : Document) (tables : list RawTable) (details : Series) (outbreaks tests : Frame) :
  read_html doc = Ok tables ->
  Forall (fun pair => plain (fst pair)) (combine tables (tl tables)) ->
  snd (process_report lib doc) = Ok (details, outbreaks, tests) ->
  nodupb (labels details) = true ->
  outbreaks = mkFrame [Str "Disease"; Str "Country"; Str "Report date"] [].
Proof.
  intros Hread Hplain H Hnd. unfold process_report in H. rewrite Hread in H.
  cbn [snd] in H.
  apply tabulate_Ok in H as (rid & c0 & o0 & t0 & _ & _ & _ & Ho0 & _ & Ho & _).
  cbn [fst snd] in Ho. rewrite get_outbreaks_none in Ho0 by exact Hplain.
  injection Ho0 as <-.
  destruct (add_details_rows _ _ _ Hnd Ho) as (d & c & r & _ & _ & _ & Hcols & Hrows).
  destruct outbreaks as [cols rs]. cbn [columns rows empty_frame map] in Hcols, Hrows.
  rewrite Hcols, Hrows. reflexivity.
Qed.

(** ** The report identifier on the three record sets *)

Lemma last_cons {A : Type} (a d : A) (l : list A) : last (a :: l) d = last l a.
Proof.
  revert a d. induction l as [| b l IH]; intros a d; [reflexivity |].
  change (last (a :: b :: l) d) with (last (b :: l) d). now rewrite !IH.
Qed.

Lemma last_map_Some {A B : Type} (f : A -> B) (l : list A) :
  last (map (fun x => Some (f x)) l) None = option_map f (last (map Some l) None).
Proof.
  induction l as [| x l _] using rev_ind; [reflexivity |].
  rewrite !map_app. cbn [map]. now rewrite !last_last.
Qed.

Lemma index_combine (keys : list (list cell)) (rs : list (list cell)) :
  List.length keys = List.length rs ->
  index (mkFrame [] (combine keys rs)) = keys.
Proof.
  unfold index. cbn [rows]. revert rs.
  induction keys as [| k keys IH]; intros rs H; [reflexivity |].
  destruct rs as [| r rs]; [discriminate |]. cbn [combine map fst].
  f_equal. apply IH. now injection H.
Qed.

(** The loop of [get_tests] keeps the last laboratory table, promoted. *)
Lemma tests_loop_last (tables : list RawTable) (state state' : option Frame) :
  foldM tests_body tables state = Ok state' ->
  state' = last (map (fun t => Some (mkFrame (species_columns t)
                                             (label_rows 1 (species_rows t))))
                     (filter is_laboratory tables))
                state.
Proof.
  revert state. induction tables as [| t tables IH]; intros state H; cbn [foldM] in H.
  - injection H as <-. reflexivity.
  - apply bind_Ok_inv in H as [s1 [H1 H]]. apply IH in H. subst state'.
    unfold tests_body in H1. apply bind_Ok_inv in H1 as [c [Hc H1]].
    assert (El : is_laboratory t = match c with
                                   | Str s => String.eqb s "Laboratory name and type"
                                   | _ => false
                                   end)
      by (unfold is_laboratory; now rewrite Hc).
    cbn [filter]. rewrite El.
    destruct c as [s | z |]; cbn [cell_eqb] in H1.
    + destruct (String.eqb s "Laboratory name and type").
      * apply bind_Ok_inv in H1 as [df [Hdf H1]]. injection H1 as <-.
        destruct t as [width [| r0 rest] |]; try discriminate.
        injection Hdf as <-. cbn [map]. now rewrite last_cons.
      * now injection H1 as <-.
    + now injection H1 as <-.
    + now injection H1 as <-.
Qed.

(** The keys of the tests of a report. *)
Lemma get_tests_keys (tables : list RawTable) (rid : string) (tests : Frame) :
  get_tests lib tables rid = Ok tests ->
  regular_laboratory tables ->
  index tests = test_keys rid tables.
Proof.
  unfold get_tests. intros H Hreg.
  apply bind_Ok_inv in H as [st [Hst H]]. apply tests_loop_last in Hst.
  rewrite last_map_Some in Hst. fold (laboratory_table tables) in Hst.
  unfold test_keys, regular_laboratory in *.
  destruct (laboratory_table tables) as [t |]; subst st; cbn [option_map] in H.
  - destruct (Hreg t eq_refl) as [HI HT].
    unfold laboratory_columns, laboratory_rows in *.
    destruct (mem (Str "Report ID") (species_columns t)) eqn:EM.
    { unfold insert in H. cbn [columns] in H. rewrite EM in H. discriminate. }
    apply mem_not_In in EM.
    rewrite keyed_tests in H; try assumption.
    + injection H as <-. unfold index. cbn [rows].
      apply (index_combine _ (species_rows t)).
      now rewrite length_map, length_seq.
    + apply Forall_forall. intros r Hr. now apply species_row_length.
  - injection H as <-. reflexivity.
Qed.

(** The keys of the outbreaks of a report. *)
Lemma get_outbreaks_keys (tables : list RawTable) (rid country : string)
    (outbreaks : Frame) :
  Forall regular_pair (combine tables (tl tables)) ->
  get_outbreaks lib tables rid (One (Str country)) = Ok outbreaks ->
  index outbreaks = outbreak_keys rid tables.
Proof.
  intros Hreg H. rewrite (get_outbreaks_regular lib _ _ _ Hreg) in H.
  injection H as <-. unfold outbreak_keys.
  assert (Hkeys : forall cols pairs,
            index (mkFrame cols (flat_map (expected_rows rid country cols) pairs)) =
            flat_map (fun pair : RawTable * RawTable =>
                        map (fun _ : list cell =>
                               [Str rid; Int (outbreak_number (fst pair))])
                            (species_rows (snd pair)))
                     pairs).
  { intros cols pairs. unfold index. cbn [rows]. rewrite map_flat_map.
    apply flat_map_ext_in. intros p _. unfold expected_rows. now rewrite map_map. }
  destruct (outbreak_pairs tables) as [| p0 ps]; [reflexivity |].
  exact (Hkeys (outbreak_columns country (p0 :: ps)) (p0 :: ps)).
Qed.

Lemma add_details_index (details : Series) (df df' : Frame) :
  nodupb (labels details) = true ->
  add_details lib details df = Ok df' ->
  index df' = index df.
Proof.
  intros Hnd H.
  destruct (add_details_rows _ _ _ Hnd H) as (d & c & r & _ & _ & _ & _ & Hrows).
  unfold index. rewrite Hrows, map_map. reflexivity.
Qed.

(** C10. The report identifier is the first maximal run of digits of the
    whole path, directories included, and it is what the three record sets
    of a processed report carry: the report record is named after it and
    holds its URL; and, for a record without a repeated label, a valid and
    bounded document and a laboratory table whose header names no column
    "index" or "Test #", every outbreak row is keyed by it and by the number
    of its outbreak, one key per species data row of each pair, and every
    test row is keyed by it and by its number, one key per data row of the
    laboratory table. *)
Theorem report_id_is_first_digit_run
    (doc : Document) (tables : list RawTable) (pre ds post : string) :
  path doc = pre +++ ds +++ post ->
  all_chars (fun c => negb (is_digit c)) pre = true ->
  all_chars is_digit ds = true ->
  ds <> EmptyString ->
  ends_run post = true ->
  read_html doc = Ok tables ->
  report_id_of (path doc) = Ok ds /\
  forall details outbreaks tests,
    snd (process_report lib doc) = Ok (details, outbreaks, tests) ->
    name details = Some (Str ds) /\
    In (Str "Url", Str (REPORT_URL ds)) (items details) /\
    (nodupb (labels details) = true ->
     valid_document tables ->
     bounded_document tables ->
     regular_laboratory tables ->
     index outbreaks = outbreak_keys ds tables /\
     index tests = test_keys ds tables).
Proof.
  intros Hpath Hpre Hds Hne Hpost Hread.
  pose proof (first_run_is_report_id _ _ _ _ Hpath Hpre Hds Hne Hpost) as Hid.
  split; [exact Hid |].
  intros details outbreaks tests H. unfold process_report in H.
  rewrite Hread in H. cbn [snd] in H.
  apply tabulate_Ok in H
    as (rid & country & o0 & t0 & Hrid & Hd & Hc & Ho0 & Ht0 & Ho & Ht).
  cbn [fst snd] in *. rewrite Hid in Hrid. injection Hrid as <-.
  destruct (get_details_Ok _ _ _ Hd) as (t1 & s & _ & _ & _ & Hitems).
  split; [now rewrite Hitems |].
  split; [rewrite Hitems; cbn [items app]; right; right; left; reflexivity |].
  intros Hnd Hvalid Hbounded Hlab.
  destruct (series_getattr_One _ _ _ Hnd Hc) as [v [-> Hv]].
  assert (Ev : v = Str (snd (partition "," s))).
  { apply nodupb_NoDup in Hnd.
    apply (unrepeated_value (items details) Hnd (Str "Country")); [exact Hv |].
    rewrite Hitems. cbn [items app]. right. left. reflexivity. }
  subst v. split.
  - rewrite (add_details_index _ _ _ Hnd Ho).
    apply (get_outbreaks_keys tables ds (snd (partition "," s)) o0); [| exact Ho0].
    now apply regular_pairs.
  - rewrite (add_details_index _ _ _ Hnd Ht).
    now apply get_tests_keys.
Qed.

End Requirements.

(** C10 at a report stored under a directory named after a year: the
    identifier is the year, and it keys the three rows of the two outbreaks
    and the two tests of the report. *)
Lemma report_id_is_first_digit_run_witness :
  report_id_of (path Samples.dated_report) = Ok "2020" /\
  exists details outbreaks tests,
    snd (process_report Samples.strict Samples.dated_report)
      = Ok (details, outbreaks, tests) /\
    name details = Some (Str "2020") /\
    In (Str "Url", Str (REPORT_URL "2020")) (items details) /\
    index outbreaks = [[Str "2020"; Int 1]; [Str "2020"; Int 1]; [Str "2020"; Int 2]] /\
    index tests = [[Str "2020"; Int 1]; [Str "2020"; Int 2]].
Proof.
  destruct (report_id_is_first_digit_run Samples.strict Samples.dated_report
              Samples.good_tables "out/" "2020" "/123.html")
    as [Hid Hsets]; try reflexivity; [discriminate |].
  split; [exact Hid |].
  destruct (snd (process_report Samples.strict Samples.dated_report))
    as [[[details outbreaks] tests] | e] eqn:E; [| discriminate E].
  exists details, outbreaks, tests. split; [reflexivity |].
  destruct (Hsets details outbreaks tests eq_refl) as [Hname [Hurl Hkeys]].
  split; [exact Hname |]. split; [exact Hurl |].
  apply Hkeys.
  - injection E as <- _ _. reflexivity.
  - unfold valid_document. valid_pairs.
  - unfold bounded_document. bounded_pairs.
  - intros table Htable. injection Htable as <-. split; vm_compute; intuition discriminate.
Defined.

(** ** The requirements on sample documents *)

Lemma report_date_is_required_witness :
  raises (snd (process_report Samples.strict Pages.undated_report)).
Proof.
  apply (report_date_is_required Samples.strict Pages.undated_report
           [Samples.banner; Samples.disease_country; Samples.outbreak1; Samples.species1]).
  - reflexivity.
  - vm_compute. intros H. exact H.
Defined.

Lemma report_fields_lead_every_row_witness :
  exists disease country date,
    In (Str "Disease", disease) (items (fst (fst Pages.good_result))) /\
    In (Str "Country", country) (items (fst (fst Pages.good_result))) /\
    In (Str "Report date", date) (items (fst (fst Pages.good_result))) /\
    Forall (fun df =>
              firstn 3 (columns df) = [Str "Disease"; Str "Country"; Str "Report date"] /\
              Forall (fun kr => firstn 3 (snd kr) = [disease; country; date]) (rows df))
           [snd (fst Pages.good_result); snd Pages.good_result].
Proof.
  apply (report_fields_lead_every_row Samples.strict Samples.good_report Samples.good_tables).
  - reflexivity.
  - vm_compute. reflexivity.
  - vm_compute. reflexivity.
Defined.

Lemma last_laboratory_table_wins_witness :
  get_tests Samples.strict
    ([Samples.banner; Samples.laboratory] ++ Pages.second_round :: [Samples.measures]) "123"
  = get_tests Samples.strict [Pages.second_round] "123".
Proof.
  apply (last_laboratory_table_wins Samples.strict [Samples.banner; Samples.laboratory]
           Pages.second_round [Samples.measures] "123").
  - repeat constructor; eexists; reflexivity.
  - reflexivity.
  - repeat constructor. eexists. split; [reflexivity | discriminate].
Defined.

Lemma report_without_outbreak_header_witness :
  snd (fst Pages.quiet_result)
    = mkFrame [Str "Disease"; Str "Country"; Str "Report date"] [].
Proof.
  apply (report_without_outbreak_header Samples.strict Pages.quiet_report
           Pages.quiet_tables (fst (fst Pages.quiet_result))
           (snd (fst Pages.quiet_result)) (snd Pages.quiet_result)).
  - reflexivity.
  - repeat constructor; eexists; (split; [reflexivity | reflexivity]).
  - vm_compute. reflexivity.
  - vm_compute. reflexivity.
Defined.

(** * Properties of the download module *)

From Stdlib Require DecimalPos.
From Stdlib Require Import Sorted.
(** ** Text lemmas *)

Lemma reverse_onto_app s t acc :
  reverse_onto (s +++ t) acc = reverse_onto t (reverse_onto s acc).
Proof. revert acc. induction s as [| c s IH]; intros acc; cbn; [reflexivity | apply IH]. Qed.

Lemma reverse_onto_twice s acc acc' :
  reverse_onto (reverse_onto s acc) acc' = reverse_onto acc (s +++ acc').
Proof.
  revert acc acc'. induction s as [| c s IH]; intros acc acc'; cbn.
  - reflexivity.
  - rewrite IH. reflexivity.
Qed.

Lemma reverse_reverse s : reverse (reverse s) = s.
Proof. unfold reverse. rewrite reverse_onto_twice. cbn. apply append_empty. Qed.

Lemma all_chars_reverse_onto p s acc :
  all_chars p (reverse_onto s acc) = all_chars p s && all_chars p acc.
Proof.
  revert acc. induction s as [| c s IH]; intros acc; cbn.
  - reflexivity.
  - rewrite IH. cbn. rewrite andb_assoc, (andb_comm (all_chars p s)). reflexivity.
Qed.

Ltac digit_facts :=
  repeat match goal with
         | H : _ && _ = true |- _ => apply andb_true_iff in H; destruct H
         | H : _ || _ = true |- _ => apply orb_true_iff in H; destruct H
         | H : (_ <=? _) = true |- _ => apply Nat.leb_le in H
         | H : (_ =? _) = true |- _ => apply Nat.eqb_eq in H
         end; try lia.

Lemma digit_is_no_space1 a : is_digit a = true -> space1 a = false.
Proof.
  intros H. destruct (space1 a) eqn:E; [| reflexivity]. exfalso.
  unfold is_digit, space1 in *. digit_facts.
Qed.

Lemma digit_starts_no_space2 a b : is_digit a = true -> space2 a b = false.
Proof.
  intros H. destruct (space2 a b) eqn:E; [| reflexivity]. exfalso.
  unfold is_digit, space2 in *. digit_facts.
Qed.

Lemma digit_ends_no_space2 a b : is_digit b = true -> space2 a b = false.
Proof.
  intros H. destruct (space2 a b) eqn:E; [| reflexivity]. exfalso.
  unfold is_digit, space2 in *. digit_facts.
Qed.

Lemma digit_starts_no_space3 a b c : is_digit a = true -> space3 a b c = false.
Proof.
  intros H. destruct (space3 a b c) eqn:E; [| reflexivity]. exfalso.
  unfold is_digit, space3 in *. cbv zeta in E. digit_facts.
Qed.

Lemma digit_ends_no_space3 a b c : is_digit c = true -> space3 a b c = false.
Proof.
  intros H. destruct (space3 a b c) eqn:E; [| reflexivity]. exfalso.
  unfold is_digit, space3 in *. cbv zeta in E. digit_facts.
Qed.

Lemma lstrip_digit a r : is_digit a = true -> lstrip (String a r) = String a r.
Proof.
  intros H. cbn [lstrip]. rewrite (digit_is_no_space1 a H).
  destruct r as [| b [| c r]]; [reflexivity | |].
  - rewrite digit_starts_no_space2 by exact H. reflexivity.
  - rewrite digit_starts_no_space2, digit_starts_no_space3 by exact H. reflexivity.
Qed.

Lemma lstrip_reversed_digit a r :
  is_digit a = true -> lstrip_reversed (String a r) = String a r.
Proof.
  intros H. cbn [lstrip_reversed]. rewrite (digit_is_no_space1 a H).
  destruct r as [| b [| c r]]; [reflexivity | |].
  - rewrite digit_ends_no_space2 by exact H. reflexivity.
  - rewrite digit_ends_no_space2, digit_ends_no_space3 by exact H. reflexivity.
Qed.

(** A line of digits, read back and stripped, is the digits. *)
Lemma reverse_line s : reverse (s +++ line_feed) = String newline (reverse s).
Proof. unfold reverse. rewrite reverse_onto_app. reflexivity. Qed.

Lemma strip_line d : all_chars is_digit d = true -> strip (d +++ line_feed) = d.
Proof.
  intros H. destruct d as [| c d].
  - reflexivity.
  - pose proof H as Hall.
    cbn [all_chars] in H. apply andb_true_iff in H as [Hc Hd].
    unfold strip. cbn [String.append]. rewrite lstrip_digit by exact Hc.
    unfold rstrip.
    change (String c (d +++ line_feed)) with (String c d +++ line_feed).
    rewrite reverse_line.
    assert (Hrev : all_chars is_digit (reverse (String c d)) = true).
    { unfold reverse. rewrite all_chars_reverse_onto, Hall. reflexivity. }
    rewrite <- (reverse_reverse (String c d)) at 2.
    destruct (reverse (String c d)) as [| a r] eqn:E.
    + apply (f_equal reverse) in E. rewrite reverse_reverse in E. discriminate.
    + cbn [all_chars] in Hrev. apply andb_true_iff in Hrev as [Ha _].
      change (lstrip_reversed (String newline (String a r)))
        with (lstrip_reversed (String a r)).
      rewrite lstrip_reversed_digit by exact Ha. reflexivity.
Qed.

Lemma digit_is_no_line_end c :
  is_digit c = true -> Ascii.eqb c newline = false /\ Ascii.eqb c carriage_return = false.
Proof.
  intros H. split.
  - destruct (Ascii.eqb_spec c newline) as [-> | _]; [discriminate | reflexivity].
  - destruct (Ascii.eqb_spec c carriage_return) as [-> | _]; [discriminate | reflexivity].
Qed.

Lemma lines_from_digits d : forall cur rest,
  all_chars is_digit d = true ->
  lines_from cur (d +++ rest) = lines_from (cur +++ d) rest.
Proof.
  induction d as [| c d IH]; intros cur rest H.
  - cbn. rewrite append_empty. reflexivity.
  - cbn [all_chars] in H. apply andb_true_iff in H as [Hc Hd].
    destruct (digit_is_no_line_end c Hc) as [H1 H2].
    cbn [String.append lines_from]. rewrite H1, H2, IH by exact Hd.
    rewrite append_assoc. reflexivity.
Qed.

Lemma lines_of_joined x xs :
  Forall (fun i => all_chars is_digit i = true) (x :: xs) ->
  file_lines (join line_feed (x :: xs) +++ line_feed)
    = map (fun i => i +++ line_feed) (x :: xs).
Proof.
  unfold file_lines. revert x. induction xs as [| y ys IH]; intros x H.
  - inversion H as [| ? ? Hx _]; subst. cbn [join map].
    rewrite lines_from_digits by exact Hx. reflexivity.
  - inversion H as [| ? ? Hx Hrest]; subst.
    change (join line_feed (x :: y :: ys))
      with (x +++ line_feed +++ join line_feed (y :: ys)).
    rewrite !append_assoc, lines_from_digits by exact Hx.
    cbn [line_feed String.append lines_from]. 
    replace (Ascii.eqb newline newline) with true by reflexivity.
    change (String newline EmptyString) with line_feed.
    rewrite IH by exact Hrest. reflexivity.
Qed.

(** What [print] writes for a list of numbers, the reader gets back. *)
Lemma summary_round_trip ids :
  ids <> [] ->
  Forall (fun i => all_chars is_digit i = true) ids ->
  map strip (file_lines (join line_feed ids +++ line_feed)) = ids.
Proof.
  intros Hne H. destruct ids as [| x xs]; [congruence |].
  rewrite lines_of_joined by exact H. rewrite map_map.
  clear Hne. induction H as [| i l Hi _ IH]; cbn [map].
  - reflexivity.
  - rewrite strip_line by exact Hi. rewrite IH. reflexivity.
Qed.

(** ** The state monad *)

Lemma for_each_cons {A B : Type} (body : A -> B -> IO A) x rest acc w :
  for_each body (x :: rest) acc w =
  match body acc x w with
  | (w', Ok a) => for_each body rest a w'
  | (w', Raise e) => (w', Raise e)
  end.
Proof. reflexivity. Qed.

Lemma for_each_invariant {A B : Type} (body : A -> B -> IO A)
    (I : A -> World -> Prop) (E : exn -> World -> Prop) :
  (forall acc x w, I acc w ->
     match body acc x w with
     | (w', Ok a) => I a w'
     | (w', Raise e) => E e w'
     end) ->
  forall xs acc w, I acc w ->
    match for_each body xs acc w with
    | (w', Ok a) => I a w'
    | (w', Raise e) => E e w'
    end.
Proof.
  intros Hbody xs. induction xs as [| x rest IH]; intros acc w HI.
  - exact HI.
  - rewrite for_each_cons. specialize (Hbody acc x w HI).
    destruct (body acc x w) as [w' [a | e]].
    + apply IH. exact Hbody.
    + exact Hbody.
Qed.

Lemma keeps_files_refl w : keeps_files w w.
Proof. intros p c H. exact H. Qed.

Lemma keeps_files_trans w1 w2 w3 :
  keeps_files w1 w2 -> keeps_files w2 w3 -> keeps_files w1 w3.
Proof. intros H1 H2 p c H. apply H2, H1, H. Qed.

Lemma keeps_files_write w path text rs ls :
  files w path = None ->
  keeps_files w (mkWorld (fun p => if String.eqb p path then Some text else files w p) rs ls).
Proof.
  intros Hnone p c H. cbn. destruct (String.eqb_spec p path) as [-> | _].
  - congruence.
  - exact H.
Qed.

Lemma exists_file_false w p : exists_file w p = false -> files w p = None.
Proof. unfold exists_file. destruct (files w p); congruence. Qed.

Lemma exists_file_true w p : exists_file w p = true <-> exists c, files w p = Some c.
Proof.
  unfold exists_file. destruct (files w p) as [c |]; split; intros H.
  - exists c; reflexivity.
  - reflexivity.
  - discriminate.
  - destruct H; discriminate.
Qed.

Section GetReports.
Variable web : nat -> string -> result string.
Variable out_dir : string.

Lemma attempt_loop (url : string) (vars : Locals) (w : World) :
  for_break (attempt_body web url) (seq 1 MAX_RETRIES) vars w =
  (mkWorld (files w) (requests w ++ [url]) (logged w),
   Ok match web (List.length (requests w)) url with
      | Ok text => mkLocals (Some text) (skipped vars) (retrieved vars)
      | Raise _ => vars
      end).
Proof.
  unfold MAX_RETRIES. cbn [seq for_break].
  unfold bind_io, attempt_body, bind_io, try_except, http_get, ret.
  destruct (web (List.length (requests w)) url); reflexivity.
Qed.

Lemma reports_body_saved vars id w :
  exists_file w (report_path out_dir id) = true ->
  reports_body web out_dir vars id w =
  (mkWorld (files w) (requests w)
     (logged w ++ [(LOG_DEBUG, "Skipping " +++ report_path out_dir id)]),
   Ok (mkLocals (report_resp vars) (S (skipped vars)) (retrieved vars))).
Proof.
  intros H. unfold reports_body. fold (report_path out_dir id). rewrite H.
  reflexivity.
Qed.

(** The response that line 93 reads, and the file it leaves. *)
Lemma reports_body_new vars id w :
  exists_file w (report_path out_dir id) = false ->
  reports_body web out_dir vars id w =
  let w1 := mkWorld (fun p => if String.eqb p (report_path out_dir id)
                              then Some EmptyString else files w p)
              (requests w ++ [REPORT_URL id])
              (logged w ++ [(LOG_DEBUG, "Downloading " +++ report_path out_dir id)]) in
  match match web (List.length (requests w)) (REPORT_URL id) with
        | Ok text => Some text
        | Raise _ => report_resp vars
        end with
  | None => (w1, Raise unbound)
  | Some text =>
      (mkWorld (fun p => if String.eqb p (report_path out_dir id) then Some text
                         else files w1 p)
         (requests w1) (logged w1),
       Ok (mkLocals (Some text) (skipped vars) (S (retrieved vars))))
  end.
Proof.
  intros H. unfold reports_body. fold (report_path out_dir id). rewrite H.
  unfold bind_io at 1. unfold log at 1. unfold bind_io at 1.
  rewrite attempt_loop. cbn [requests files logged].
  destruct (web (List.length (requests w)) (REPORT_URL id)) as [text | e].
  - reflexivity.
  - destruct vars as [[text |] sk re]; reflexivity.
Qed.

Lemma keeps_files_created w path text rs ls :
  files w path = None ->
  keeps_files w
    (mkWorld (fun p => if String.eqb p path then Some text
                       else if String.eqb p path then Some EmptyString else files w p)
       rs ls).
Proof.
  intros Hnone q c H. cbn. destruct (String.eqb_spec q path) as [-> | _].
  - congruence.
  - exact H.
Qed.

Lemma reports_body_cases vars id w :
  (exists_file w (report_path out_dir id) = true /\
   reports_body web out_dir vars id w =
   (mkWorld (files w) (requests w)
      (logged w ++ [(LOG_DEBUG, "Skipping " +++ report_path out_dir id)]),
    Ok (mkLocals (report_resp vars) (S (skipped vars)) (retrieved vars))))
  \/ (exists_file w (report_path out_dir id) = false /\
      exists text fs,
      reports_body web out_dir vars id w =
      (mkWorld fs (requests w ++ [REPORT_URL id])
         (logged w ++ [(LOG_DEBUG, "Downloading " +++ report_path out_dir id)]),
       Ok (mkLocals (Some text) (skipped vars) (S (retrieved vars)))) /\
      fs (report_path out_dir id) = Some text /\
      forall q c, files w q = Some c -> fs q = Some c)
  \/ (exists_file w (report_path out_dir id) = false /\
      exists fs,
      reports_body web out_dir vars id w =
      (mkWorld fs (requests w ++ [REPORT_URL id])
         (logged w ++ [(LOG_DEBUG, "Downloading " +++ report_path out_dir id)]),
       Raise unbound) /\
      forall q c, files w q = Some c -> fs q = Some c).
Proof.
  destruct (exists_file w (report_path out_dir id)) eqn:H.
  - left. split; [reflexivity |]. apply reports_body_saved, H.
  - right. rewrite (reports_body_new _ _ _ H). cbv zeta.
    pose proof (exists_file_false _ _ H) as Hnone.
    destruct (match web (List.length (requests w)) (REPORT_URL id) with
              | Ok text => Some text
              | Raise _ => report_resp vars
              end) as [text |].
    + left. split; [reflexivity |]. eexists text, _. split; [reflexivity |].
      cbn [files requests logged]. split.
      * rewrite String.eqb_refl. reflexivity.
      * apply (keeps_files_created w _ text [] []), Hnone.
    + right. split; [reflexivity |]. eexists. split; [reflexivity |].
      apply (keeps_files_write w _ EmptyString [] []), Hnone.
Qed.

Lemma reports_loop_keeps ids vars w :
  keeps_files w (fst (for_each (reports_body web out_dir) ids vars w)).
Proof.
  assert (Hbody : forall acc x w0, keeps_files w w0 ->
            match reports_body web out_dir acc x w0 with
            | (w', Ok _) => keeps_files w w'
            | (w', Raise _) => keeps_files w w'
            end).
  { intros acc x w0 HI.
    destruct (reports_body_cases acc x w0)
      as [[_ ->] | [[_ (text & fs & -> & _ & Hk)] | [_ (fs & -> & Hk)]]].
    - exact HI.
    - intros q c Hq. apply Hk, HI, Hq.
    - intros q c Hq. apply Hk, HI, Hq. }
  pose proof (for_each_invariant (reports_body web out_dir)
                (fun _ w' => keeps_files w w') (fun _ w' => keeps_files w w')
                Hbody ids vars w (keeps_files_refl w)) as H.
  destruct (for_each (reports_body web out_dir) ids vars w) as [w' [a | e]]; exact H.
Qed.

Lemma get_reports_eq ids w :
  get_reports web out_dir ids w =
  match for_each (reports_body web out_dir) ids (mkLocals None 0 0) w with
  | (w', Ok vars) =>
      (mkWorld (files w') (requests w')
         (logged w' ++ [summary_line (retrieved vars) (skipped vars)]), Ok tt)
  | (w', Raise e) => (w', Raise e)
  end.
Proof.
  unfold get_reports, bind_io.
  destruct (for_each (reports_body web out_dir) ids _ w) as [w' [vars | e]]; reflexivity.
Qed.

(** [get_reports] never changes a file that the output directory already
    holds, whether it returns or raises: a report is written only under a
    path at which nothing exists. *)
Theorem saved_reports_are_kept ids w p c :
  files w p = Some c ->
  files (fst (get_reports web out_dir ids w)) p = Some c.
Proof.
  intros H. rewrite get_reports_eq.
  pose proof (reports_loop_keeps ids (mkLocals None 0 0) w p c H) as Hk.
  destruct (for_each (reports_body web out_dir) ids _ w) as [w' [vars | e]]; exact Hk.
Qed.

Lemma reports_loop_saved ids vars w :
  Forall (fun i => exists_file w (report_path out_dir i) = true) ids ->
  for_each (reports_body web out_dir) ids vars w =
  (mkWorld (files w) (requests w)
     (logged w ++ map (fun i => (LOG_DEBUG, "Skipping " +++ report_path out_dir i)) ids),
   Ok (mkLocals (report_resp vars) (List.length ids + skipped vars) (retrieved vars))).
Proof.
  revert vars w. induction ids as [| i ids IH]; intros vars w H.
  - cbn. rewrite app_nil_r. destruct w, vars; reflexivity.
  - inversion H as [| ? ? Hi Hrest]; subst.
    rewrite for_each_cons, (reports_body_saved _ _ _ Hi), IH by exact Hrest.
    cbn [files requests logged report_resp skipped retrieved map].
    rewrite <- app_assoc, Nat.add_succ_r. reflexivity.
Qed.

Lemma for_each_app {A B : Type} (body : A -> B -> IO A) xs ys acc w :
  for_each body (xs ++ ys) acc w =
  match for_each body xs acc w with
  | (w', Ok a) => for_each body ys a w'
  | (w', Raise e) => (w', Raise e)
  end.
Proof.
  revert acc w. induction xs as [| x xs IH]; intros acc w.
  - reflexivity.
  - cbn [app]. rewrite !for_each_cons.
    destruct (body acc x w) as [w' [a | e]]; [apply IH | reflexivity].
Qed.

(** A request that fails is not sent again.  When the first report that is
    not on file meets a failing request, [get_reports] sends that one request
    and raises [UnboundLocalError], whatever reports follow; by then line 93
    has created the file of the report, empty, and no other file has
    changed. *)
Theorem failed_first_request_is_not_retried saved id rest e w :
  Forall (fun i => exists_file w (report_path out_dir i) = true) saved ->
  exists_file w (report_path out_dir id) = false ->
  web (List.length (requests w)) (REPORT_URL id) = Raise e ->
  snd (get_reports web out_dir (saved ++ id :: rest) w) = Raise unbound /\
  requests (fst (get_reports web out_dir (saved ++ id :: rest) w))
    = requests w ++ [REPORT_URL id] /\
  forall p,
    files (fst (get_reports web out_dir (saved ++ id :: rest) w)) p
    = if String.eqb p (report_path out_dir id) then Some EmptyString else files w p.
Proof.
  intros Hsaved Hnew Hweb.
  rewrite get_reports_eq, for_each_app, (reports_loop_saved _ _ _ Hsaved), for_each_cons.
  rewrite reports_body_new by exact Hnew.
  cbn [files requests logged report_resp skipped retrieved].
  rewrite Hweb. cbn. repeat split.
Qed.

Lemma skipn_length_app {A : Type} (l sent : list A) :
  skipn (List.length l) (l ++ sent) = sent.
Proof. induction l as [| x l IH]; [reflexivity | exact IH]. Qed.

(** The loop of [get_reports] holds, in [report_resp], the last response
    received; it raises only when no request has been answered yet. *)
Lemma reports_loop_responses ids : forall vars w,
  exists sent,
    requests (fst (for_each (reports_body web out_dir) ids vars w)) = requests w ++ sent /\
    match snd (for_each (reports_body web out_dir) ids vars w) with
    | Ok vars' =>
        report_resp vars'
        = last_response web (List.length (requests w)) sent (report_resp vars)
    | Raise _ =>
        last_response web (List.length (requests w)) sent (report_resp vars) = None
    end.
Proof.
  induction ids as [| i ids IH]; intros vars w.
  - exists []. cbn. now rewrite app_nil_r.
  - rewrite for_each_cons.
    destruct (exists_file w (report_path out_dir i)) eqn:Hfile.
    + rewrite (reports_body_saved _ _ _ Hfile).
      destruct (IH (mkLocals (report_resp vars) (S (skipped vars)) (retrieved vars))
                   (mkWorld (files w) (requests w)
                      (logged w ++ [(LOG_DEBUG, "Skipping " +++ report_path out_dir i)])))
        as [sent Hsent].
      exists sent. exact Hsent.
    + rewrite (reports_body_new _ _ _ Hfile). cbv zeta.
      destruct (match web (List.length (requests w)) (REPORT_URL i) with
                | Ok text => Some text
                | Raise _ => report_resp vars
                end) as [text |] eqn:Hresp.
      * match goal with
        | |- context [for_each ?f ids ?v ?w0] =>
            destruct (IH v w0) as [sent [Hreq Hlast]];
            destruct (for_each f ids v w0) as [w2 r2]
        end.
        exists (REPORT_URL i :: sent). cbn [fst snd requests report_resp] in *.
        rewrite length_app, Nat.add_comm in Hlast. cbn [List.length Nat.add] in Hlast.
        split.
        -- rewrite Hreq, <- app_assoc. reflexivity.
        -- cbn [last_response]. rewrite Hresp. exact Hlast.
      * exists [REPORT_URL i]. cbn [fst snd requests last_response]. now rewrite Hresp.
Qed.

(** Once a request of a run has been answered, a failing request goes
    unnoticed.  Let [get_reports] have gone through the reports [before]; when
    the site has answered one of the requests of that run, the next report
    [b] is not on file and its request fails, the file of [b] is written with
    the text of the last response received, which belongs to another report:
    [get_reports] on [before], [b] and any further reports leaves that text
    in the file of [b]. *)
Theorem failed_request_saves_the_previous_response before b rest text e w :
  last_response web (List.length (requests w))
    (skipn (List.length (requests w))
           (requests (fst (get_reports web out_dir before w))))
    None = Some text ->
  exists_file (fst (get_reports web out_dir before w)) (report_path out_dir b) = false ->
  web (List.length (requests (fst (get_reports web out_dir before w)))) (REPORT_URL b)
    = Raise e ->
  files (fst (get_reports web out_dir (before ++ b :: rest) w)) (report_path out_dir b)
    = Some text.
Proof.
  rewrite !get_reports_eq, for_each_app.
  destruct (reports_loop_responses before (mkLocals None 0 0) w) as [sent [Hreq Hlast]].
  destruct (for_each (reports_body web out_dir) before (mkLocals None 0 0) w)
    as [w1 [vars1 | e1]]; cbn [fst snd requests files report_resp] in *;
    rewrite Hreq, skipn_length_app; intros Htext Hfile Hweb.
  - rewrite Htext in Hlast.
    rewrite for_each_cons, reports_body_new by exact Hfile.
    rewrite Hreq, Hweb, Hlast. cbv beta iota zeta.
    match goal with
    | |- files (fst match for_each ?f ?l ?v ?w0 with _ => _ end) ?p = _ =>
        pose proof (reports_loop_keeps l v w0 p text) as Hk;
        destruct (for_each f l v w0) as [w' [vars | e']]
    end; cbn [fst files] in *; apply Hk; cbn [files]; rewrite String.eqb_refl; reflexivity.
  - congruence.
Qed.

Lemma reports_loop_counts ids : forall vars w w' vars',
  for_each (reports_body web out_dir) ids vars w = (w', Ok vars') ->
  skipped vars' + retrieved vars' = skipped vars + retrieved vars + List.length ids /\
  List.length (requests w') + retrieved vars = List.length (requests w) + retrieved vars' /\
  Forall (fun i => exists_file w' (report_path out_dir i) = true) ids.
Proof.
  induction ids as [| i ids IH]; intros vars w w' vars' H.
  - cbn in H. injection H as <- <-. cbn [List.length].
    split; [lia |]. split; [lia | constructor].
  - rewrite for_each_cons in H.
    assert (Hkept : forall c v w0, for_each (reports_body web out_dir) ids v w0 = (w', Ok vars') ->
              files w0 (report_path out_dir i) = Some c ->
              exists_file w' (report_path out_dir i) = true).
    { intros c v w0 Hrun Hc. apply exists_file_true. exists c.
      pose proof (reports_loop_keeps ids v w0 _ _ Hc) as Hk.
      rewrite Hrun in Hk. exact Hk. }
    destruct (reports_body_cases vars i w)
      as [[Hi E] | [[Hn (text & fs & E & Hfs & _)] | [_ (fs & E & _)]]];
      rewrite E in H; [| | discriminate].
    + apply exists_file_true in Hi as [c Hc].
      specialize (Hkept c _ _ H Hc).
      specialize (IH _ _ _ _ H) as (H1 & H2 & H3).
      cbn [files requests logged report_resp skipped retrieved List.length] in *.
      split; [lia |]. split; [lia |].
      constructor; assumption.
    + specialize (Hkept text _ _ H).
      specialize (IH _ _ _ _ H) as (H1 & H2 & H3).
      cbn [files requests logged report_resp skipped retrieved List.length] in *.
      rewrite length_app in H2. cbn [List.length] in H2.
      split; [lia |]. split; [lia |].
      constructor; [| exact H3].
      apply Hkept. exact Hfs.
Qed.

Lemma reports_loop_requests ids : forall vars w,
  exists new,
    requests (fst (for_each (reports_body web out_dir) ids vars w)) = requests w ++ new.
Proof.
  induction ids as [| i ids IH]; intros vars w.
  - exists []. cbn. rewrite app_nil_r. reflexivity.
  - rewrite for_each_cons.
    destruct (reports_body_cases vars i w)
      as [[_ E] | [[_ (text & fs & E & _)] | [_ (fs & E & _)]]]; rewrite E.
    + destruct (IH (mkLocals (report_resp vars) (S (skipped vars)) (retrieved vars))
                  (mkWorld (files w) (requests w)
                     (logged w ++ [(LOG_DEBUG, "Skipping " +++ report_path out_dir i)])))
        as [new Hnew].
      exists new. exact Hnew.
    + match goal with
      | |- context [for_each _ ids ?v ?w0] => destruct (IH v w0) as [new Hnew]
      end.
      exists (REPORT_URL i :: new). rewrite Hnew. cbn [requests].
      rewrite <- app_assoc. reflexivity.
    + exists [REPORT_URL i]. reflexivity.
Qed.

(** When [get_reports] returns, the number it logs as retrieved is the
    number of requests it has sent, those that failed included, and the
    number logged as already saved is the rest of the identifiers. *)
Theorem retrieved_counts_requests ids w :
  snd (get_reports web out_dir ids w) = Ok tt ->
  exists new earlier,
    requests (fst (get_reports web out_dir ids w)) = requests w ++ new /\
    List.length new <= List.length ids /\
    logged (fst (get_reports web out_dir ids w))
      = earlier ++ [summary_line (List.length new) (List.length ids - List.length new)].
Proof.
  intros H. rewrite get_reports_eq in H |- *.
  destruct (reports_loop_requests ids (mkLocals None 0 0) w) as [new Hnew].
  destruct (for_each (reports_body web out_dir) ids (mkLocals None 0 0) w)
    as [w' [vars |]] eqn:E; [| discriminate].
  apply reports_loop_counts in E as (H1 & H2 & _).
  cbn [fst files requests logged report_resp skipped retrieved] in *.
  rewrite Hnew, length_app in H2.
  assert (retrieved vars = List.length new) as -> by lia.
  assert (skipped vars = List.length ids - List.length new) as Hs by lia.
  exists new, (logged w'). rewrite <- Hs. repeat split; [exact Hnew | lia].
Qed.

(** After a call of [get_reports] that returned, the same call sends no
    request and writes no file: it logs every report as skipped. *)
Theorem second_run_downloads_nothing ids w :
  snd (get_reports web out_dir ids w) = Ok tt ->
  let w' := fst (get_reports web out_dir ids w) in
  get_reports web out_dir ids w' =
  (mkWorld (files w') (requests w')
     (logged w'
        ++ map (fun i => (LOG_DEBUG, "Skipping " +++ report_path out_dir i)) ids
        ++ [summary_line 0 (List.length ids)]),
   Ok tt).
Proof.
  intros H w'. subst w'. rewrite (get_reports_eq ids w) in H |- *.
  destruct (for_each (reports_body web out_dir) ids (mkLocals None 0 0) w)
    as [w' [vars |]] eqn:E; [| discriminate].
  apply reports_loop_counts in E as (_ & _ & Hall).
  cbn [fst]. rewrite get_reports_eq, reports_loop_saved.
  2:{ eapply Forall_impl; [| exact Hall]. intros i Hi. exact Hi. }
  cbn [files requests logged report_resp skipped retrieved].
  rewrite Nat.add_0_r, <- app_assoc. reflexivity.
Qed.

End GetReports.

(** The empty file that a failed first request leaves stands for the report
    from then on: no later call of [get_reports], whatever the site answers
    and whatever identifiers it is given, writes to it again. *)
Theorem failed_download_is_never_repeated
    (web web' : nat -> string -> result string) (out_dir : string)
    (saved : list string) (id : string) (rest ids' : list string) (e : exn) (w : World) :
  Forall (fun i => exists_file w (report_path out_dir i) = true) saved ->
  exists_file w (report_path out_dir id) = false ->
  web (List.length (requests w)) (REPORT_URL id) = Raise e ->
  files (fst (get_reports web' out_dir ids'
                (fst (get_reports web out_dir (saved ++ id :: rest) w))))
        (report_path out_dir id)
    = Some EmptyString.
Proof.
  intros Hsaved Hnew Hweb.
  assert (Hleft : files (fst (get_reports web out_dir (saved ++ id :: rest) w))
                        (report_path out_dir id) = Some EmptyString).
  { rewrite get_reports_eq, for_each_app, (reports_loop_saved _ _ _ _ _ Hsaved),
      for_each_cons.
    rewrite reports_body_new by exact Hnew.
    cbn [files requests logged report_resp skipped retrieved].
    rewrite Hweb. cbn. rewrite String.eqb_refl. reflexivity. }
  rewrite get_reports_eq.
  pose proof (reports_loop_keeps web' out_dir ids' (mkLocals None 0 0) _ _ _ Hleft) as Hk.
  destruct (for_each (reports_body web' out_dir) ids' _ _) as [w2 [vars | e']]; exact Hk.
Qed.

(** ** get_report_ids *)

Lemma insert_sorted_In x y l : In x (insert_sorted y l) <-> x = y \/ In x l.
Proof.
  induction l as [| z l IH]; cbn.
  - split; intros [H | H]; auto.
  - destruct (String.compare y z) eqn:E.
    + apply String.compare_eq_iff in E. subst z. cbn. split; [auto | intros [-> | H]; auto].
    + cbn. split; intros [H | H]; auto.
    + cbn. rewrite IH. split; intros [H | [H | H]]; auto.
Qed.

Lemma sorted_set_In x l : In x (sorted_set l) <-> In x l.
Proof.
  unfold sorted_set. induction l as [| y l IH]; cbn.
  - reflexivity.
  - rewrite insert_sorted_In, IH. split; intros [H | H]; auto.
Qed.

Lemma all_text_In col urls u : all_text col = Some urls -> In (Str u) col -> In u urls.
Proof.
  revert urls. induction col as [| c col IH]; intros urls H Hin; [destruct Hin |].
  cbn in H. destruct c as [s | z |]; try discriminate.
  fold (all_text col) in H. destruct (all_text col) as [l |]; [| discriminate].
  injection H as <-. destruct Hin as [[= ->] | Hin]; [left; reflexivity |].
  right. apply IH; [reflexivity | exact Hin].
Qed.

Section GetReportIds.
Variable py : Python.
Variable web : nat -> string -> result string.
Variable out_dir : string.

Lemma report_ids_body_no_id acc url w :
  search_reportid url = None ->
  report_ids_body py web out_dir acc url w = (w, Raise AttributeError).
Proof. intros H. unfold report_ids_body. rewrite H. reflexivity. Qed.

Lemma report_ids_body_saved acc url sid content w :
  search_reportid url = Some sid ->
  files w (summary_path out_dir sid) = Some content ->
  report_ids_body py web out_dir acc url w
    = (w, Ok (acc ++ map strip (file_lines content))).
Proof.
  intros H Hf. unfold report_ids_body. rewrite H.
  fold (summary_path out_dir sid). rewrite Hf. reflexivity.
Qed.

Lemma report_ids_body_new acc url sid w :
  search_reportid url = Some sid ->
  files w (summary_path out_dir sid) = None ->
  report_ids_body py web out_dir acc url w =
  match web (List.length (requests w)) url with
  | Ok html =>
      (mkWorld (fun p => if String.eqb p (summary_path out_dir sid)
                         then Some (join line_feed (findall_links py 0 html) +++ line_feed)
                         else files w p)
         (requests w ++ [url]) (logged w),
       Ok (acc ++ findall_links py 0 html))
  | Raise e => (mkWorld (files w) (requests w ++ [url]) (logged w), Raise e)
  end.
Proof.
  intros H Hf. unfold report_ids_body. rewrite H.
  fold (summary_path out_dir sid). rewrite Hf.
  unfold bind_io, http_get, write_file, ret. cbn [files requests logged].
  destruct (web (List.length (requests w)) url); reflexivity.
Qed.

Lemma report_ids_body_keeps acc url w :
  keeps_files w (fst (report_ids_body py web out_dir acc url w)).
Proof.
  destruct (search_reportid url) as [sid |] eqn:Hs.
  - destruct (files w (summary_path out_dir sid)) as [content |] eqn:Hf.
    + rewrite (report_ids_body_saved _ _ _ _ _ Hs Hf). apply keeps_files_refl.
    + rewrite (report_ids_body_new _ _ _ _ Hs Hf).
      destruct (web (List.length (requests w)) url).
      * apply keeps_files_write, Hf.
      * intros p c H. exact H.
  - rewrite report_ids_body_no_id by exact Hs. apply keeps_files_refl.
Qed.

Lemma ids_loop_keeps urls acc w :
  keeps_files w (fst (for_each (report_ids_body py web out_dir) urls acc w)).
Proof.
  revert acc w. induction urls as [| u urls IH]; intros acc w.
  - apply keeps_files_refl.
  - rewrite for_each_cons.
    pose proof (report_ids_body_keeps acc u w) as Hk.
    destruct (report_ids_body py web out_dir acc u w) as [w1 [a | e]].
    + eapply keeps_files_trans; [exact Hk | apply IH].
    + exact Hk.
Qed.

Lemma get_report_ids_eq col urls w :
  all_text col = Some urls ->
  get_report_ids py web out_dir (Some col) w
    = for_each (report_ids_body py web out_dir) (sorted_set urls) [] w.
Proof. intros H. unfold get_report_ids. rewrite H. reflexivity. Qed.

(** [get_report_ids] never changes a file that the output directory already
    holds, whether it returns or raises. *)
Theorem saved_summaries_are_kept summary_urls w p c :
  files w p = Some c ->
  files (fst (get_report_ids py web out_dir summary_urls w)) p = Some c.
Proof.
  intros H. destruct summary_urls as [col |]; [| exact H].
  unfold get_report_ids. destruct (all_text col) as [urls |]; [| exact H].
  apply ids_loop_keeps, H.
Qed.

Lemma ids_loop_fails urls u :
  In u urls -> search_reportid u = None ->
  forall acc w, raises (snd (for_each (report_ids_body py web out_dir) urls acc w)).
Proof.
  intros Hin Hu. induction urls as [| x urls IH]; intros acc w; [destruct Hin |].
  rewrite for_each_cons.
  destruct (report_ids_body py web out_dir acc x w) as [w1 [a | e]] eqn:E.
  - destruct Hin as [-> | Hin].
    + rewrite report_ids_body_no_id in E by exact Hu. discriminate.
    + apply IH, Hin.
  - exists e. reflexivity.
Qed.

(** One summary URL without [reportid=] and a digit makes [get_report_ids]
    raise: no list of identifiers is returned, whatever the other URLs
    are. *)
Theorem url_without_report_id_fails col u w :
  In (Str u) col ->
  search_reportid u = None ->
  raises (snd (get_report_ids py web out_dir (Some col) w)).
Proof.
  intros Hin Hu. unfold get_report_ids.
  destruct (all_text col) as [urls |] eqn:E.
  - apply (ids_loop_fails _ u); [| exact Hu].
    apply sorted_set_In. eapply all_text_In; eassumption.
  - exists TypeError. reflexivity.
Qed.

Hypothesis numbered_pages :
  forall n u html, web n u = Ok html -> numbered py html.

Lemma ids_loop_again urls : forall acc w w' out,
  for_each (report_ids_body py web out_dir) urls acc w = (w', Ok out) ->
  exists found,
    out = acc ++ found /\
    forall w2 acc2, keeps_files w' w2 ->
      for_each (report_ids_body py web out_dir) urls acc2 w2 = (w2, Ok (acc2 ++ found)).
Proof.
  induction urls as [| u urls IH]; intros acc w w' out H.
  - cbn in H. injection H as <- <-. exists []. rewrite app_nil_r. split; [reflexivity |].
    intros w2 acc2 _. cbn. rewrite app_nil_r. reflexivity.
  - rewrite for_each_cons in H.
    assert (Hstep : exists w1 sid content,
              search_reportid u = Some sid /\
              files w1 (summary_path out_dir sid) = Some content /\
              for_each (report_ids_body py web out_dir) urls
                (acc ++ map strip (file_lines content)) w1 = (w', Ok out)).
    { destruct (search_reportid u) as [sid |] eqn:Hs.
      2:{ rewrite report_ids_body_no_id in H by exact Hs. discriminate. }
      destruct (files w (summary_path out_dir sid)) as [content |] eqn:Hf.
      - rewrite (report_ids_body_saved _ _ _ _ _ Hs Hf) in H.
        exists w, sid, content. repeat split; assumption.
      - rewrite (report_ids_body_new _ _ _ _ Hs Hf) in H.
        destruct (web (List.length (requests w)) u) as [html |] eqn:Hw; [| discriminate].
        destruct (numbered_pages _ _ _ Hw) as [Hne Hdig].
        exists (mkWorld (fun p => if String.eqb p (summary_path out_dir sid)
                                  then Some (join line_feed (findall_links py 0 html)
                                               +++ line_feed)
                                  else files w p)
                  (requests w ++ [u]) (logged w)),
          sid, (join line_feed (findall_links py 0 html) +++ line_feed).
        split; [reflexivity |]. split.
        + cbn [files]. rewrite String.eqb_refl. reflexivity.
        + rewrite summary_round_trip by assumption. exact H. }
    destruct Hstep as (w1 & sid & content & Hs & Hf & Hrest).
    pose proof (ids_loop_keeps urls (acc ++ map strip (file_lines content)) w1) as Hk.
    rewrite Hrest in Hk. cbn [fst] in Hk.
    destruct (IH _ _ _ _ Hrest) as (found & -> & Hagain).
    exists (map strip (file_lines content) ++ found).
    split; [rewrite app_assoc; reflexivity |].
    intros w2 acc2 H2. rewrite for_each_cons.
    rewrite (report_ids_body_saved _ _ sid content) by (try apply H2, Hk; assumption).
    rewrite Hagain by exact H2. rewrite app_assoc. reflexivity.
Qed.

(** On a site whose summary pages each link to at least one report, under
    ASCII numbers, a call of [get_report_ids] that returned can be repeated:
    the second call sends no request, changes no file and returns the same
    identifiers in the same order, read from the summary files. *)
Theorem second_run_reads_the_summaries col w ids :
  snd (get_report_ids py web out_dir (Some col) w) = Ok ids ->
  let w' := fst (get_report_ids py web out_dir (Some col) w) in
  get_report_ids py web out_dir (Some col) w' = (w', Ok ids).
Proof.
  intros H w'. subst w'. unfold get_report_ids in *.
  destruct (all_text col) as [urls |]; [| discriminate].
  destruct (for_each (report_ids_body py web out_dir) (sorted_set urls) [] w)
    as [w' r] eqn:E.
  cbn [fst snd] in *. subst r.
  destruct (ids_loop_again _ _ _ _ _ E) as (found & -> & Hagain).
  apply (Hagain w' []), keeps_files_refl.
Qed.

End GetReportIds.

(** A summary page without a link to a full report gives no identifier when
    it is fetched, but its file holds one empty line: the next call reads it
    as one identifier, the empty text. *)
Theorem empty_summary_reads_back_as_an_empty_id py web out_dir url sid html w :
  search_reportid url = Some sid ->
  files w (summary_path out_dir sid) = None ->
  web (List.length (requests w)) url = Ok html ->
  findall_links py 0 html = [] ->
  snd (get_report_ids py web out_dir (Some [Str url]) w) = Ok [] /\
  snd (get_report_ids py web out_dir (Some [Str url])
         (fst (get_report_ids py web out_dir (Some [Str url]) w))) = Ok [EmptyString].
Proof.
  intros Hs Hf Hw Hnone.
  rewrite !(get_report_ids_eq _ _ _ _ [url]) by reflexivity.
  change (sorted_set [url]) with [url]. rewrite !for_each_cons.
  rewrite (report_ids_body_new _ _ _ _ _ _ _ Hs Hf), Hw, Hnone.
  cbn [fst snd for_each ret].
  split; [reflexivity |].
  rewrite (report_ids_body_saved _ _ _ _ _ sid (join line_feed [] +++ line_feed)).
  - reflexivity.
  - exact Hs.
  - cbn [files]. rewrite String.eqb_refl. reflexivity.
Qed.

(** ** parse_year_range *)

Lemma partition_before sep s :
  occurs sep (fst (fst (partition sep s))) = false.
Proof.
  induction s as [| c s IH]; cbn; [reflexivity |].
  destruct (Ascii.eqb c sep) eqn:E; [reflexivity |].
  destruct (partition sep s) as [[before found] after]. cbn in *.
  rewrite E. exact IH.
Qed.

Lemma partition_found sep s :
  is_empty (snd (fst (partition sep s))) = false -> occurs sep s = true.
Proof.
  induction s as [| c s IH]; cbn; [discriminate |].
  destruct (Ascii.eqb c sep) eqn:E; [reflexivity |].
  destruct (partition sep s) as [[before found] after]. cbn in *. exact IH.
Qed.

Lemma digit_bounds c : is_digit c = true -> 48 <= nat_of_ascii c <= 57.
Proof.
  unfold is_digit. intros H. apply andb_true_iff in H as [H1 H2].
  apply Nat.leb_le in H1, H2. lia.
Qed.

Lemma digit_is_no_sign c :
  is_digit c = true ->
  Ascii.eqb c "+" = false /\ Ascii.eqb c "-" = false /\ int_space c = false.
Proof.
  intros H. apply digit_bounds in H. repeat split.
  - destruct (Ascii.eqb_spec c "+") as [-> | _]; [cbn in H; lia | reflexivity].
  - destruct (Ascii.eqb_spec c "-") as [-> | _]; [cbn in H; lia | reflexivity].
  - unfold int_space. cbv zeta.
    destruct (Nat.leb_spec 9 (nat_of_ascii c)), (Nat.leb_spec (nat_of_ascii c) 13),
      (Nat.eqb_spec (nat_of_ascii c) 32); cbn; try reflexivity; lia.
Qed.

Lemma scan_digits_nonneg s : forall acc count u v n rest,
  scan_digits acc count u s = Some (v, n, rest) -> (0 <= acc)%Z -> (0 <= v)%Z.
Proof.
  induction s as [| c s IH]; intros acc count u v n rest H Hacc; cbn [scan_digits] in H.
  - destruct u; [discriminate |]. injection H as <- _ _. exact Hacc.
  - destruct (is_digit c) eqn:Hd.
    + apply IH in H; [exact H |]. apply digit_bounds in Hd.
      unfold digit_value. lia.
    + destruct (Ascii.eqb c "_").
      * destruct u; [discriminate |]. apply IH in H; assumption.
      * destruct u; [discriminate |]. injection H as <- _ _. exact Hacc.
Qed.

Lemma occurs_skip_spaces c s : occurs c s = false -> occurs c (skip_spaces s) = false.
Proof.
  induction s as [| a s IH]; intros H; [reflexivity |].
  cbn [skip_spaces]. destruct (int_space a); [| exact H].
  cbn in H. apply orb_false_iff in H as [_ H]. apply IH, H.
Qed.

Section Years.
Variable py : Python.

Lemma to_ascii_no_hyphen s : forall skip,
  occurs "-" s = false -> occurs "-" (to_ascii py skip s) = false.
Proof.
  induction s as [| a s IH]; intros skip H; [reflexivity |].
  cbn in H. apply orb_false_iff in H as [Ha Hs].
  cbn [to_ascii]. destruct skip as [| k]; [| apply IH, Hs].
  destruct (nat_of_ascii a <? 128).
  - cbn. rewrite Ha. apply IH, Hs.
  - destruct (wide_space (String a s)) as [k |].
    + cbn. apply IH, Hs.
    + destruct (wide_digit py (String a s)) as [[k d] |]; [| reflexivity].
      destruct (Nat.ltb_spec d 10) as [Hd | _]; [| reflexivity].
      cbn [occurs]. rewrite IH by exact Hs.
      do 10 (destruct d as [| d]; [reflexivity |]). lia.
Qed.

Lemma int_of_ascii_sign s v :
  int_of_ascii py s = Ok v -> occurs "-" s = false -> (0 <= v)%Z.
Proof.
  unfold int_of_ascii. intros H Hs. apply occurs_skip_spaces in Hs.
  assert (Hscan : forall s2 : string,
            match s2 with
            | String c _ =>
                if is_digit c
                then match scan_digits 0 0 false s2 with
                     | Some (v0, count, rest) =>
                         if is_empty (skip_spaces rest) && negb (too_long py count)
                         then Ok (1 * v0)%Z else Raise ValueError
                     | None => Raise ValueError
                     end
                else Raise ValueError
            | EmptyString => Raise ValueError
            end = Ok v -> (0 <= v)%Z).
  { intros [| c r] H2; [discriminate |].
    destruct (is_digit c); [| discriminate].
    destruct (scan_digits 0 0 false (String c r)) as [[[v0 n] rest] |] eqn:E;
      [| discriminate].
    destruct (is_empty (skip_spaces rest) && negb (too_long py n)); [| discriminate].
    injection H2 as <-. apply scan_digits_nonneg in E; [| lia]. destruct v0; exact E. }
  destruct (skip_spaces s) as [| c r]; [discriminate |].
  cbn in Hs. apply orb_false_iff in Hs as [Hc _].
  rewrite Hc in H. destruct (Ascii.eqb c "+").
  - exact (Hscan r H).
  - exact (Hscan (String c r) H).
Qed.

(** [parse_year_range] splits at the first hyphen: what it accepts has a
    hyphen, and its lower year is never negative (the upper one may be). *)
Theorem lower_year_is_never_negative s lo hi :
  parse_year_range py s = Ok (lo, hi) ->
  occurs "-" s = true /\ (0 <= lo)%Z.
Proof.
  unfold parse_year_range. intros H.
  pose proof (partition_before "-" s) as Hb.
  pose proof (partition_found "-" s) as Hf.
  destruct (partition "-" s) as [[min_year found] max_year]. cbn [fst snd] in *.
  destruct (is_empty found); [discriminate |].
  split; [apply Hf; reflexivity |].
  unfold py_int in H.
  destruct (int_of_ascii py (to_ascii py 0 min_year)) as [x |] eqn:Hx; [| discriminate].
  cbn [bind] in H.
  destruct (int_of_ascii py (to_ascii py 0 max_year)) as [y |]; [| discriminate].
  injection H as <- _.
  eapply int_of_ascii_sign; [exact Hx |]. apply to_ascii_no_hyphen, Hb.
Qed.

(** *** Numbers as they are printed *)

Lemma uint_digits d : all_chars is_digit (NilEmpty.string_of_uint d) = true.
Proof. induction d; cbn; try reflexivity; exact IHd. Qed.

Lemma to_ascii_digits s : all_chars is_digit s = true -> to_ascii py 0 s = s.
Proof.
  induction s as [| c s IH]; intros H; [reflexivity |].
  cbn in H. apply andb_true_iff in H as [Hc Hs].
  cbn [to_ascii]. apply digit_bounds in Hc.
  destruct (Nat.ltb_spec (nat_of_ascii c) 128); [| lia].
  rewrite IH by exact Hs. reflexivity.
Qed.

Lemma scan_positive d : forall z acc count,
  z = Z.pos acc ->
  scan_digits z count false (NilEmpty.string_of_uint d)
    = Some (Z.pos (Pos.of_uint_acc d acc),
            count + String.length (NilEmpty.string_of_uint d), EmptyString).
Proof.
  induction d; intros z acc count ->;
    cbn [NilEmpty.string_of_uint scan_digits String.length Pos.of_uint_acc];
    try (rewrite Nat.add_0_r; reflexivity);
    (replace (is_digit _) with true by reflexivity);
    rewrite Nat.add_succ_r; apply IHd;
    match goal with
    | |- context [digit_value ?c] =>
        let x := eval vm_compute in (digit_value c) in change (digit_value c) with x
    end; lia.
Qed.

Lemma scan_number d : forall count,
  scan_digits 0 count false (NilEmpty.string_of_uint d)
    = Some (Z.of_N (Pos.of_uint d),
            count + String.length (NilEmpty.string_of_uint d), EmptyString).
Proof.
  induction d; intros count;
    cbn [NilEmpty.string_of_uint scan_digits String.length Pos.of_uint];
    try (rewrite Nat.add_0_r; reflexivity);
    (replace (is_digit _) with true by reflexivity);
    rewrite Nat.add_succ_r;
    match goal with
    | |- context [digit_value ?c] =>
        let x := eval vm_compute in (digit_value c) in change (digit_value c) with x
    end;
    first [ apply IHd | apply scan_positive; reflexivity ].
Qed.

Lemma too_long_less n m : n <= m -> too_long py m = false -> too_long py n = false.
Proof.
  unfold too_long. intros Hle H.
  destruct (Nat.ltb_spec 0 (max_str_digits py)); [| reflexivity].
  cbn in *. apply Nat.ltb_ge in H. apply Nat.ltb_ge. lia.
Qed.

(** [int] reads a run of digits as the number it writes. *)
Lemma int_of_uint d :
  d <> Decimal.Nil ->
  too_long py (String.length (NilEmpty.string_of_uint d)) = false ->
  int_of_ascii py (NilEmpty.string_of_uint d) = Ok (Z.of_N (Pos.of_uint d)).
Proof.
  intros Hd Hfit. pose proof (scan_number d 0) as Hscan. pose proof (uint_digits d) as Hall.
  unfold int_of_ascii.
  destruct (NilEmpty.string_of_uint d) as [| c r] eqn:E.
  - destruct d; try discriminate. congruence.
  - cbn [all_chars] in Hall. apply andb_true_iff in Hall as [Hc _].
    destruct (digit_is_no_sign c Hc) as (H1 & H2 & H3).
    cbn [skip_spaces]. rewrite H3, H1, H2, Hc, Hscan.
    cbn [Nat.add skip_spaces is_empty andb]. rewrite Hfit. cbn [negb].
    rewrite Z.mul_1_l. reflexivity.
Qed.

Lemma py_int_nonneg z :
  (0 <= z)%Z -> fits py z -> py_int py (string_of_Z z) = Ok z.
Proof.
  intros Hz Hfit. unfold py_int, fits, string_of_Z in *.
  destruct z as [| p | p]; [| | lia].
  - change (NilZero.string_of_int (Z.to_int 0))
      with (NilEmpty.string_of_uint (Decimal.D0 Decimal.Nil)) in *.
    rewrite to_ascii_digits by apply uint_digits.
    rewrite int_of_uint; [reflexivity | discriminate | exact Hfit].
  - cbn [Z.to_int NilZero.string_of_int] in *.
    pose proof (DecimalPos.Unsigned.to_uint_nonnil p) as Hn.
    assert (E : NilZero.string_of_uint (Pos.to_uint p)
                = NilEmpty.string_of_uint (Pos.to_uint p)).
    { destruct (Pos.to_uint p); [congruence | reflexivity ..]. }
    rewrite E in *. rewrite to_ascii_digits by apply uint_digits.
    rewrite int_of_uint by assumption.
    rewrite DecimalPos.Unsigned.of_to. reflexivity.
Qed.

Lemma py_int_printed z : fits py z -> py_int py (string_of_Z z) = Ok z.
Proof.
  intros Hfit. destruct z as [| p | p].
  - apply py_int_nonneg; [lia | exact Hfit].
  - apply py_int_nonneg; [lia | exact Hfit].
  - unfold py_int, fits, string_of_Z in *.
    cbn [Z.to_int NilZero.string_of_int] in *.
    pose proof (DecimalPos.Unsigned.to_uint_nonnil p) as Hn.
    assert (E : NilZero.string_of_uint (Pos.to_uint p)
                = NilEmpty.string_of_uint (Pos.to_uint p)).
    { destruct (Pos.to_uint p); [congruence | reflexivity ..]. }
    rewrite E in *.
    cbn [to_ascii]. replace (nat_of_ascii "-" <? 128) with true by reflexivity.
    rewrite to_ascii_digits by apply uint_digits.
    pose proof (scan_number (Pos.to_uint p) 0) as Hscan.
    pose proof (uint_digits (Pos.to_uint p)) as Hall.
    unfold int_of_ascii. cbn [skip_spaces].
    replace (int_space "-") with false by reflexivity.
    replace (Ascii.eqb "-" "+") with false by reflexivity.
    replace (Ascii.eqb "-" "-") with true by reflexivity.
    destruct (NilEmpty.string_of_uint (Pos.to_uint p)) as [| c r] eqn:E2.
    + exfalso. destruct (Pos.to_uint p); try discriminate; congruence.
    + cbn [all_chars] in Hall. apply andb_true_iff in Hall as [Hc _].
      rewrite Hc, Hscan. cbn [Nat.add skip_spaces is_empty andb].
      rewrite (too_long_less (String.length (String c r))
                 (String.length (String "-" (String c r))));
        [| cbn [String.length]; lia | exact Hfit].
      cbn [negb].
      rewrite DecimalPos.Unsigned.of_to. reflexivity.
Qed.

Lemma printed_nonneg_no_hyphen z : (0 <= z)%Z -> occurs "-" (string_of_Z z) = false.
Proof.
  intros Hz. unfold string_of_Z. destruct z as [| p | p]; [reflexivity | | lia].
  cbn [Z.to_int NilZero.string_of_int].
  assert (H : forall s, all_chars is_digit s = true -> occurs "-" s = false).
  { induction s as [| c s IH]; intros H; [reflexivity |].
    cbn in *. apply andb_true_iff in H as [Hc Hs].
    destruct (digit_is_no_sign c Hc) as (_ & -> & _). apply IH, Hs. }
  pose proof (DecimalPos.Unsigned.to_uint_nonnil p) as Hn.
  assert (E : NilZero.string_of_uint (Pos.to_uint p)
              = NilEmpty.string_of_uint (Pos.to_uint p)).
  { destruct (Pos.to_uint p); [congruence | reflexivity ..]. }
  rewrite E. apply H, uint_digits.
Qed.

(** A range written as two numbers with a hyphen between them, the first
    one not negative, is parsed as these two numbers. *)
Theorem printed_year_range_parses lo hi :
  (0 <= lo)%Z -> fits py lo -> fits py hi ->
  parse_year_range py (string_of_Z lo +++ "-" +++ string_of_Z hi) = Ok (lo, hi).
Proof.
  intros Hlo Hflo Hfhi. unfold parse_year_range.
  change ("-" +++ string_of_Z hi) with (String "-" (string_of_Z hi)).
  rewrite partition_at by apply printed_nonneg_no_hyphen, Hlo.
  cbn [is_empty]. rewrite py_int_nonneg by assumption.
  cbn [bind]. rewrite py_int_printed by assumption. reflexivity.
Qed.

End Years.

(** ** The order of the summary URLs *)

Lemma ascii_compare_refl c : Ascii.compare c c = Eq.
Proof. unfold Ascii.compare. apply N.compare_refl. Qed.

Lemma ascii_compare_eq a b : Ascii.compare a b = Eq -> a = b.
Proof.
  unfold Ascii.compare. intros H. apply N.compare_eq in H.
  rewrite <- (ascii_N_embedding a), <- (ascii_N_embedding b), H. reflexivity.
Qed.

Lemma ascii_compare_trans a b c :
  Ascii.compare a b = Lt -> Ascii.compare b c = Lt -> Ascii.compare a c = Lt.
Proof.
  unfold Ascii.compare. rewrite !N.compare_lt_iff. apply N.lt_trans.
Qed.

Lemma sorts_before_irrefl a : ~ sorts_before a a.
Proof.
  unfold sorts_before. induction a as [| c a IH]; cbn; [discriminate |].
  rewrite ascii_compare_refl. exact IH.
Qed.

Lemma sorts_before_trans a : forall b c, sorts_before a b -> sorts_before b c -> sorts_before a c.
Proof.
  unfold sorts_before. induction a as [| x a IH]; intros [| y b] [| z c] H1 H2;
    cbn in *; try discriminate; try reflexivity.
  destruct (Ascii.compare x y) eqn:Exy; try discriminate.
  - apply ascii_compare_eq in Exy. subst y.
    destruct (Ascii.compare x z); try discriminate; [eapply IH; eassumption | reflexivity].
  - destruct (Ascii.compare y z) eqn:Eyz; try discriminate.
    + apply ascii_compare_eq in Eyz. subst z. rewrite Exy. reflexivity.
    + rewrite (ascii_compare_trans _ _ _ Exy Eyz). reflexivity.
Qed.

Lemma insert_sorted_sorted x l :
  StronglySorted sorts_before l -> StronglySorted sorts_before (insert_sorted x l).
Proof.
  induction 1 as [| y l Hl IH Hy]; cbn.
  - repeat constructor.
  - destruct (String.compare x y) eqn:E.
    + constructor; assumption.
    + constructor; [constructor; assumption |].
      constructor; [exact E |].
      eapply Forall_impl; [| exact Hy]. intros z Hz. eapply sorts_before_trans; eassumption.
    + constructor; [exact IH |].
      apply Forall_forall. intros z Hz. apply insert_sorted_In in Hz as [-> | Hz].
      * unfold sorts_before. rewrite String.compare_antisym, E. reflexivity.
      * revert z Hz. apply Forall_forall. exact Hy.
Qed.

Lemma sorted_set_sorted l : StronglySorted sorts_before (sorted_set l).
Proof.
  unfold sorted_set. induction l as [| x l IH]; cbn; [constructor |].
  apply insert_sorted_sorted, IH.
Qed.

Lemma sorted_same l : forall l',
  StronglySorted sorts_before l -> StronglySorted sorts_before l' ->
  (forall x, In x l <-> In x l') -> l = l'.
Proof.
  induction l as [| h l IH]; intros [| h' l'] Hs Hs' Hsame.
  - reflexivity.
  - exfalso. apply (Hsame h'). left. reflexivity.
  - exfalso. apply (Hsame h). left. reflexivity.
  - inversion Hs as [| ? ? Hl Hh]; subst. inversion Hs' as [| ? ? Hl' Hh']; subst.
    rewrite Forall_forall in Hh, Hh'.
    assert (E : h = h').
    { destruct (proj1 (Hsame h) (or_introl eq_refl)) as [E | Hin]; [congruence |].
      destruct (proj2 (Hsame h') (or_introl eq_refl)) as [E | Hin']; [congruence |].
      exfalso. apply (sorts_before_irrefl h).
      eapply sorts_before_trans; [apply Hh, Hin' | apply Hh', Hin]. }
    subst h'. f_equal. apply IH; try assumption.
    intros x. split; intros Hx.
    + destruct (proj1 (Hsame x) (or_intror Hx)) as [E | Hin]; [| exact Hin].
      exfalso. subst x. apply (sorts_before_irrefl h), Hh, Hx.
    + destruct (proj2 (Hsame x) (or_intror Hx)) as [E | Hin]; [| exact Hin].
      exfalso. subst x. apply (sorts_before_irrefl h), Hh', Hx.
Qed.

Lemma all_text_map urls : all_text (map Str urls) = Some urls.
Proof.
  induction urls as [| u urls IH]; [reflexivity |].
  cbn. fold (all_text (map Str urls)). rewrite IH. reflexivity.
Qed.

(** [get_report_ids] goes through [sorted(set(...))]: two columns of URLs
    with the same elements, in whatever order and however often repeated,
    give the same requests, the same files and the same identifiers. *)
Theorem only_the_set_of_urls_matters
    (py : Python) (web : nat -> string -> result string) (out_dir : string)
    (urls urls' : list string) (w : World) :
  (forall u, In u urls <-> In u urls') ->
  get_report_ids py web out_dir (Some (map Str urls)) w
    = get_report_ids py web out_dir (Some (map Str urls')) w.
Proof.
  intros Hsame. unfold get_report_ids. rewrite !all_text_map.
  rewrite (sorted_same (sorted_set urls) (sorted_set urls')).
  - reflexivity.
  - apply sorted_set_sorted.
  - apply sorted_set_sorted.
  - intros x. rewrite !sorted_set_In. apply Hsame.
Qed.

(** ** get_summary_urls *)

Lemma last_country_cons previous c cs :
  last_country previous (c :: cs) = last_country (Some c) cs.
Proof.
  unfold last_country. cbn [rev].
  destruct (rev cs) as [| x l] eqn:E; reflexivity.
Qed.

Lemma fill_length previous texts cs :
  fill previous texts = Some cs -> List.length cs = List.length texts.
Proof.
  revert previous cs. induction texts as [| t texts IH]; intros previous cs H; cbn in H.
  - injection H as <-. reflexivity.
  - destruct (if is_empty (strip t) then previous else Some (strip t)) as [c |];
      [| discriminate].
    destruct (fill (Some c) texts) as [cs' |] eqn:E; [| discriminate].
    injection H as <-. cbn. f_equal. eapply IH, E.
Qed.

Lemma fill_app previous a b :
  fill previous (a ++ b) =
  match fill previous a with
  | Some ca =>
      match fill (last_country previous ca) b with
      | Some cb => Some (ca ++ cb)
      | None => None
      end
  | None => None
  end.
Proof.
  revert previous. induction a as [| t a IH]; intros previous.
  - cbn. destruct (fill previous b); reflexivity.
  - cbn [app fill].
    destruct (if is_empty (strip t) then previous else Some (strip t)) as [c |];
      [| reflexivity].
    rewrite IH. destruct (fill (Some c) a) as [ca |]; [| reflexivity].
    rewrite last_country_cons.
    destruct (fill (last_country (Some c) ca) b); reflexivity.
Qed.

Lemma rows_loop (year : Z) (page : list (string * option string)) :
  forall previous records,
  foldM (row_body year) (map shown page) (previous, records) =
  match fill previous (map fst page) with
  | Some cs =>
      Ok (last_country previous cs,
          records ++ summaries (map (fun row => (year, row)) page) cs)
  | None => Raise unbound
  end.
Proof.
  induction page as [| [text url] page IH]; intros previous records.
  - cbn. rewrite app_nil_r. reflexivity.
  - cbn [map foldM fst fill]. unfold row_body at 1. cbn [shown country_text summary_href fst snd bind].
    destruct (is_empty (strip text)).
    + destruct previous as [c |]; [| reflexivity]. cbn [bind]. rewrite IH.
      destruct (fill (Some c) (map fst page)) as [cs |]; [| reflexivity].
      rewrite last_country_cons. unfold summaries. cbn [combine map fst snd].
      rewrite <- app_assoc. reflexivity.
    + cbn [bind]. rewrite IH.
      destruct (fill (Some (strip text)) (map fst page)) as [cs |]; [| reflexivity].
      rewrite last_country_cons. unfold summaries. cbn [combine map fst snd].
      rewrite <- app_assoc. reflexivity.
Qed.

Lemma summaries_app rows1 rows2 cs1 cs2 :
  List.length cs1 = List.length rows1 ->
  summaries (rows1 ++ rows2) (cs1 ++ cs2) = summaries rows1 cs1 ++ summaries rows2 cs2.
Proof.
  intros H. unfold summaries. rewrite <- map_app. f_equal.
  revert cs1 H. induction rows1 as [| r rows1 IH]; intros [| c cs1] H; try discriminate.
  - reflexivity.
  - cbn. f_equal. apply IH. cbn in H. lia.
Qed.

Lemma years_loop (browser : Browser) (years : list Z)
    (pages : list (list (string * option string))) :
  forall start previous records,
  Forall2 (fun selection page =>
             select_year browser (fst selection) (snd selection) = Ok (map shown page))
          (combine (seq start (List.length years)) years) pages ->
  foldM (year_body browser) (combine (seq start (List.length years)) years)
    (previous, records) =
  match fill previous (map (fun r => fst (snd r)) (page_rows years pages)) with
  | Some cs =>
      Ok (last_country previous cs, records ++ summaries (page_rows years pages) cs)
  | None => Raise unbound
  end.
Proof.
  revert pages. induction years as [| y years IH]; intros pages start previous records H.
  - cbn. rewrite app_nil_r. reflexivity.
  - cbn [List.length seq combine] in H |- *.
    inversion H as [| ? page ? pages' Hy Hrest]; subst.
    cbn [fst snd] in Hy. cbn [foldM]. unfold year_body at 1. rewrite Hy. cbn [bind].
    rewrite rows_loop.
    unfold page_rows. cbn [combine flat_map fst snd]. fold (page_rows years pages').
    rewrite map_app, map_map. cbn [snd fst]. rewrite fill_app.
    destruct (fill previous (map fst page)) as [cs1 |] eqn:E1; [| reflexivity].
    cbn [bind]. rewrite (IH pages' (S start)) by exact Hrest.
    destruct (fill (last_country previous cs1) _) as [cs2 |]; [| reflexivity].
    rewrite summaries_app, app_assoc.
    2:{ rewrite length_map. rewrite (fill_length _ _ _ E1), length_map. reflexivity. }
    f_equal. f_equal.
    unfold last_country. rewrite rev_app_distr.
    destruct (rev cs2) as [| c l]; reflexivity.
Qed.

(** When the browser shows every page and every element has its two parts,
    [get_summary_urls] returns one row per element, in the order of the years
    and of the pages, with the year selected, the [href] of the link and a
    country: the text of the element's own cell without the blanks around
    it, or, when that is empty, the country of the row before, also across a
    change of year.  A blank cell in the very first row raises
    [UnboundLocalError]. *)
Theorem blank_countries_are_filled
    (browser : Browser) (disease_id min_year max_year : Z) (disease_type : string)
    (pages : list (list (string * option string))) (w : World) :
  open_disease browser disease_type disease_id = Ok tt ->
  close browser = Ok tt ->
  Forall2 (fun selection page =>
             select_year browser (fst selection) (snd selection) = Ok (map shown page))
          (combine (seq 0 (List.length (range min_year (max_year + 1))))
                   (range min_year (max_year + 1)))
          pages ->
  let rows := page_rows (range min_year (max_year + 1)) pages in
  snd (get_summary_urls browser disease_id min_year max_year disease_type w) =
  match fill None (map (fun r => fst (snd r)) rows) with
  | Some countries => Ok (summary_frame (summaries rows countries))
  | None => Raise unbound
  end.
Proof.
  intros Hopen Hclose Hpages rows. subst rows.
  unfold get_summary_urls, bind_io, log. cbn [snd]. rewrite Hopen. cbn [bind].
  rewrite (years_loop _ _ pages 0 None []) by exact Hpages.
  destruct (fill None _) as [cs |]; [| reflexivity].
  cbn [bind snd app]. rewrite Hclose. reflexivity.
Qed.

Lemma summary_frame_rows (records : list Summary) :
  rows (summary_frame records) = [] -> summary_frame records = empty_frame.
Proof. destruct records as [| r records]; [reflexivity | discriminate]. Qed.

(** A search that finds no outbreak ends in an error of the next step: the
    frame that [get_summary_urls] returns without a row has no column either,
    and [get_report_ids] raises [AttributeError] on it without reading or
    sending anything. *)
Theorem search_without_outbreaks_ends_in_error
    (browser : Browser) (disease_id min_year max_year : Z) (disease_type : string)
    (py : Python) (web : nat -> string -> result string) (out_dir : string)
    (df : Frame) (w w' : World) :
  snd (get_summary_urls browser disease_id min_year max_year disease_type w) = Ok df ->
  rows df = [] ->
  get_report_ids py web out_dir (url_column df) w' = (w', Raise AttributeError).
Proof.
  unfold get_summary_urls, bind_io, log. cbn [snd]. intros H Hrows.
  apply bind_Ok_inv in H as [u [_ H]].
  apply bind_Ok_inv in H as [vars [_ H]].
  apply bind_Ok_inv in H as [u' [_ H]].
  injection H as <-. rewrite (summary_frame_rows _ Hrows). reflexivity.
Qed.

(** A range of years whose upper year is below the lower one is not refused:
    no year is selected and the frame returned is empty, whatever the site
    shows. *)
Theorem inverted_year_range_finds_nothing
    (browser : Browser) (disease_id min_year max_year : Z) (disease_type : string)
    (w : World) :
  (max_year < min_year)%Z ->
  open_disease browser disease_type disease_id = Ok tt ->
  close browser = Ok tt ->
  snd (get_summary_urls browser disease_id min_year max_year disease_type w)
    = Ok empty_frame.
Proof.
  intros Hlt Hopen Hclose.
  unfold get_summary_urls, bind_io, log. cbn [snd]. rewrite Hopen. cbn [bind].
  unfold range. replace (Z.to_nat (max_year + 1 - min_year)) with 0 by lia.
  cbn. rewrite Hclose. reflexivity.
Qed.

(** ** The properties on sample sites *)

Lemma saved_reports_are_kept_witness :
  files (fst (get_reports Traffic.site "out" ["1"; "2"] Traffic.resumed_dir)) "out/1.html"
    = Some "<html>1</html>".
Proof.
  apply (saved_reports_are_kept Traffic.site "out" ["1"; "2"] Traffic.resumed_dir).
  reflexivity.
Defined.

Lemma failed_first_request_is_not_retried_witness :
  snd (get_reports Traffic.offline "out" (["1"] ++ "2" :: ["3"]) Traffic.resumed_dir)
    = Raise unbound /\
  requests (fst (get_reports Traffic.offline "out" (["1"] ++ "2" :: ["3"])
                   Traffic.resumed_dir))
    = requests Traffic.resumed_dir ++ [REPORT_URL "2"] /\
  forall p,
    files (fst (get_reports Traffic.offline "out" (["1"] ++ "2" :: ["3"])
                  Traffic.resumed_dir)) p
    = if String.eqb p (report_path "out" "2") then Some EmptyString
      else files Traffic.resumed_dir p.
Proof.
  apply (failed_first_request_is_not_retried Traffic.offline "out" ["1"] "2" ["3"]
           (OtherError "ConnectionError") Traffic.resumed_dir).
  - repeat constructor.
  - reflexivity.
  - reflexivity.
Defined.

Lemma failed_request_saves_the_previous_response_witness :
  files (fst (get_reports Traffic.flaky "out" (["1"; "7"] ++ "9" :: ["8"])
                Traffic.resumed_dir))
    (report_path "out" "9")
    = Some "<html>first</html>".
Proof.
  apply (failed_request_saves_the_previous_response Traffic.flaky "out" ["1"; "7"] "9"
           ["8"] "<html>first</html>" (OtherError "ConnectionError")
           Traffic.resumed_dir).
  - reflexivity.
  - reflexivity.
  - reflexivity.
Defined.

Lemma retrieved_counts_requests_witness :
  exists new earlier,
    requests (fst (get_reports Traffic.flaky "out" ["1"; "7"; "8"] Traffic.resumed_dir))
      = requests Traffic.resumed_dir ++ new /\
    List.length new <= List.length ["1"; "7"; "8"] /\
    logged (fst (get_reports Traffic.flaky "out" ["1"; "7"; "8"] Traffic.resumed_dir))
      = earlier
          ++ [summary_line (List.length new)
                (List.length ["1"; "7"; "8"] - List.length new)].
Proof.
  apply (retrieved_counts_requests Traffic.flaky "out" ["1"; "7"; "8"] Traffic.resumed_dir).
  reflexivity.
Defined.

Lemma second_run_downloads_nothing_witness :
  let w' := fst (get_reports Traffic.site "out" ["1"; "2"] Traffic.resumed_dir) in
  get_reports Traffic.site "out" ["1"; "2"] w' =
  (mkWorld (files w') (requests w')
     (logged w'
        ++ map (fun i => (LOG_DEBUG, "Skipping " +++ report_path "out" i)) ["1"; "2"]
        ++ [summary_line 0 (List.length ["1"; "2"])]),
   Ok tt).
Proof.
  apply (second_run_downloads_nothing Traffic.site "out" ["1"; "2"] Traffic.resumed_dir).
  reflexivity.
Defined.

Lemma saved_summaries_are_kept_witness :
  files (fst (get_report_ids Traffic.python Traffic.site "out"
                (Some [Str Traffic.summary_url]) Traffic.resumed_dir)) "out/1.html"
    = Some "<html>1</html>".
Proof.
  apply (saved_summaries_are_kept Traffic.python Traffic.site "out"
           (Some [Str Traffic.summary_url]) Traffic.resumed_dir).
  reflexivity.
Defined.

Lemma url_without_report_id_fails_witness :
  raises (snd (get_report_ids Traffic.python Traffic.site "out"
                 (Some [Str Traffic.summary_url; Str "https://www.oie.int/?reportid=x"])
                 Traffic.empty_dir)).
Proof.
  apply (url_without_report_id_fails Traffic.python Traffic.site "out"
           [Str Traffic.summary_url; Str "https://www.oie.int/?reportid=x"]
           "https://www.oie.int/?reportid=x" Traffic.empty_dir).
  - right. left. reflexivity.
  - reflexivity.
Defined.

Lemma second_run_reads_the_summaries_witness :
  let w' := fst (get_report_ids Traffic.python Traffic.site "out"
                   (Some [Str Traffic.summary_url; Str "https://www.oie.int/?reportid=78"])
                   Traffic.resumed_dir) in
  get_report_ids Traffic.python Traffic.site "out"
    (Some [Str Traffic.summary_url; Str "https://www.oie.int/?reportid=78"]) w'
  = (w', Ok ["31"; "32"; "5"; "6"]).
Proof.
  apply (second_run_reads_the_summaries Traffic.python Traffic.site "out").
  - intros n u html H. injection H as <-. split.
    + discriminate.
    + vm_compute. repeat constructor.
  - reflexivity.
Defined.

Lemma empty_summary_reads_back_as_an_empty_id_witness :
  snd (get_report_ids Traffic.python Traffic.site_without_reports "out"
         (Some [Str Traffic.summary_url]) Traffic.empty_dir) = Ok [] /\
  snd (get_report_ids Traffic.python Traffic.site_without_reports "out"
         (Some [Str Traffic.summary_url])
         (fst (get_report_ids Traffic.python Traffic.site_without_reports "out"
                 (Some [Str Traffic.summary_url]) Traffic.empty_dir)))
    = Ok [EmptyString].
Proof.
  apply (empty_summary_reads_back_as_an_empty_id Traffic.python
           Traffic.site_without_reports "out" Traffic.summary_url "77"
           "<html>No report</html>" Traffic.empty_dir);
    reflexivity.
Defined.

Lemma lower_year_is_never_negative_witness :
  occurs "-" "2007--5" = true /\ (0 <= 2007)%Z.
Proof.
  apply (lower_year_is_never_negative Traffic.python "2007--5" 2007%Z (-5)%Z).
  reflexivity.
Defined.

Lemma printed_year_range_parses_witness :
  parse_year_range Traffic.python (string_of_Z 2007 +++ "-" +++ string_of_Z 2016)
    = Ok (2007%Z, 2016%Z).
Proof.
  apply (printed_year_range_parses Traffic.python 2007%Z 2016%Z).
  - lia.
  - reflexivity.
  - reflexivity.
Defined.

Lemma blank_countries_are_filled_witness :
  snd (get_summary_urls Traffic.browser 12 2018 2019 "terrestrial" Traffic.empty_dir) =
  match fill None (map (fun r => fst (snd r))
                       (page_rows (range 2018 (2019 + 1)) Traffic.pages)) with
  | Some countries =>
      Ok (summary_frame
            (summaries (page_rows (range 2018 (2019 + 1)) Traffic.pages) countries))
  | None => Raise unbound
  end.
Proof.
  apply (blank_countries_are_filled Traffic.browser 12 2018 2019 "terrestrial"
           Traffic.pages Traffic.empty_dir).
  - reflexivity.
  - reflexivity.
  - vm_compute. repeat constructor.
Defined.

Lemma search_without_outbreaks_ends_in_error_witness :
  get_report_ids Traffic.python Traffic.site "out" (url_column empty_frame)
    Traffic.resumed_dir
  = (Traffic.resumed_dir, Raise AttributeError).
Proof.
  apply (search_without_outbreaks_ends_in_error Traffic.browser 12 2019 2018 "terrestrial"
           Traffic.python Traffic.site "out" empty_frame Traffic.empty_dir
           Traffic.resumed_dir).
  - reflexivity.
  - reflexivity.
Defined.

Lemma inverted_year_range_finds_nothing_witness :
  snd (get_summary_urls Traffic.browser 12 2019 2018 "terrestrial" Traffic.empty_dir)
    = Ok empty_frame.
Proof.
  apply (inverted_year_range_finds_nothing Traffic.browser 12 2019 2018 "terrestrial"
           Traffic.empty_dir).
  - reflexivity.
  - reflexivity.
  - reflexivity.
Defined.

Lemma only_the_set_of_urls_matters_witness :
  get_report_ids Traffic.python Traffic.site "out"
    (Some (map Str [Traffic.summary_url; "https://www.oie.int/?reportid=78";
                    Traffic.summary_url]))
    Traffic.empty_dir
  = get_report_ids Traffic.python Traffic.site "out"
      (Some (map Str ["https://www.oie.int/?reportid=78"; Traffic.summary_url]))
      Traffic.empty_dir.
Proof.
  apply (only_the_set_of_urls_matters Traffic.python Traffic.site "out"
           [Traffic.summary_url; "https://www.oie.int/?reportid=78"; Traffic.summary_url]
           ["https://www.oie.int/?reportid=78"; Traffic.summary_url] Traffic.empty_dir).
  intros u. split.
  - intros [H | [H | [H | []]]]; [right; left | left | right; left]; exact H.
  - intros [H | [H | []]]; [right; left | left]; exact H.
Defined.

Lemma failed_download_is_never_repeated_witness :
  files (fst (get_reports Traffic.site "out" ["1"; "2"; "3"]
                (fst (get_reports Traffic.offline "out" (["1"] ++ "2" :: ["3"])
                        Traffic.resumed_dir))))
        (report_path "out" "2")
    = Some EmptyString.
Proof.
  apply (failed_download_is_never_repeated Traffic.offline Traffic.site "out" ["1"] "2"
           ["3"] ["1"; "2"; "3"] (OtherError "ConnectionError") Traffic.resumed_dir).
  - repeat constructor.
  - reflexivity.
  - reflexivity.
Defined.
